(** * SecureCheck digital ledger: a Rocq model of [app.py]

    The development embeds the parts of [src/app.py] that carry the
    behaviour of the ledger, and proves facts about them.

    Definitions, in the order of the file:

    - [PyStr]: Python's [str] operations used by the script ([upper],
      [strip], [len], [in], [replace] with a count of one);
    - [Catalog]: the report catalog [SQL_QUERIES] as text, and the
      module-level rewrite that splices the optional country filter
      into a report;
    - [Store]: the one SQLite table behind short-lived connections, and
      the helpers [get_db_connection], [init_db], [run_query],
      [insert_log] and [get_table_info] in a state-and-exception
      monad.  The state records the open connections, the calls that
      reach SQLite and what the page shows; the environment decides
      which calls into SQLite raise;
    - [Sql], [Rates]: the meaning of the SQL the script sends, as
      functions over the rows: three-valued conditions, [GROUP BY],
      [HAVING], [ORDER BY], [LIMIT], and the reports that compute a
      rate.  [REAL] arithmetic is binary64, as in SQLite and Python;
    - [PyTime], [SqliteDate]: the time text Python writes and SQLite
      reads;
    - [Form], [Ledger]: the KPI row, the submit handler of
      [new_log_form] and the vehicle lookup;
    - [PyStrShape], [LedgerShape]: shapes of text and of rows that
      further facts are stated with;
    - [Admin]: the handler that drops and recreates the table;
    - [Reports]: the reports of the catalog that count stops.

    The facts follow, module by module.

    Text is modelled as [string] over [ascii]; every character of the
    script's own SQL is ASCII.  Python's [upper] and [strip] are modelled
    on ASCII characters; a character above 127 is left alone by [upper]
    here, where Python would apply the Unicode case mapping.  The facts
    about what upper case, stripping and length do to a text that is
    typed are therefore stated for ASCII text ([PyStr.is_ascii]). *)

From Stdlib Require Import List ZArith Bool Ascii String Lia Floats Uint63.
From Stdlib Require Import Permutation Sorted.
Import ListNotations.

Local Open Scope string_scope.
Local Open Scope list_scope.
Local Open Scope Z_scope.

(* ================================================================== *)
(** * Python string operations *)
(* ================================================================== *)

Module PyStr.

(** [c.upper()] on one ASCII character. *)
Definition upper_char (c : ascii) : ascii :=
  let n := nat_of_ascii c in
  if (Nat.leb 97 n && Nat.leb n 122)%bool then ascii_of_nat (n - 32) else c.

(** [s.upper()] *)
Fixpoint upper (s : string) : string :=
  match s with
  | EmptyString => EmptyString
  | String c s' => String (upper_char c) (upper s')
  end.

(** [c.isspace()] on ASCII: tab, line feed, vertical tab, form feed,
    carriage return, the four separators 28..31 and the blank. *)
Definition isspace (c : ascii) : bool :=
  let n := nat_of_ascii c in
  ((Nat.leb 9 n && Nat.leb n 13) || (Nat.leb 28 n && Nat.leb n 32))%bool.

(** [s.lstrip()] *)
Fixpoint lstrip (s : string) : string :=
  match s with
  | EmptyString => EmptyString
  | String c s' => if isspace c then lstrip s' else s
  end.

(** [s.rstrip()]: a character is dropped when it is blank and all that
    follows it has been dropped. *)
Fixpoint rstrip (s : string) : string :=
  match s with
  | EmptyString => EmptyString
  | String c s' =>
      match rstrip s' with
      | EmptyString => if isspace c then EmptyString else String c EmptyString
      | r => String c r
      end
  end.

(** [s.strip()] *)
Definition strip (s : string) : string := rstrip (lstrip s).

(** [len(s)] *)
Definition len (s : string) : Z := Z.of_nat (String.length s).

(** Truth value of a string in a condition: [if s] holds for a
    non-empty string. *)
Definition truthy (s : string) : bool :=
  match s with EmptyString => false | String _ _ => true end.

(** [s.startswith(p)] *)
Fixpoint startswith (p s : string) : bool :=
  match p, s with
  | EmptyString, _ => true
  | String _ _, EmptyString => false
  | String a p', String b s' => (Ascii.eqb a b && startswith p' s')%bool
  end.

(** [s.find(p)]: the least index at which [p] occurs in [s]. *)
Fixpoint find (p s : string) : option nat :=
  if startswith p s then Some O
  else match s with
       | EmptyString => None
       | String _ s' => option_map S (find p s')
       end.

(** [p in s] *)
Definition contains (p s : string) : bool :=
  match find p s with Some _ => true | None => false end.

(** [s[:n]] and [s[n:]] *)
Fixpoint take (n : nat) (s : string) : string :=
  match n, s with
  | S n', String c s' => String c (take n' s')
  | _, _ => EmptyString
  end.

Fixpoint drop (n : nat) (s : string) : string :=
  match n, s with
  | S n', String _ s' => drop n' s'
  | _, _ => s
  end.

(** [s.replace(old, new, 1)]: the leftmost occurrence of [old] is
    replaced, and a string without one is returned as it is. *)
Fixpoint replace_first (old new s : string) : string :=
  if startswith old s then new ++ drop (String.length old) s
  else match s with
       | EmptyString => EmptyString
       | String c s' => String c (replace_first old new s')
       end.

(** [s.isascii()]: every character is below 128.  On such text
    [upper], [strip] and [len] above are Python's [str.upper],
    [str.strip] and [len]; on other text Python applies the Unicode
    case mapping, strips the Unicode white space as well and counts
    code points, which this model does not follow.  The facts about
    what normalization and length do are stated for ASCII text. *)
Definition is_ascii_char (c : ascii) : bool := Nat.ltb (nat_of_ascii c) 128.

Fixpoint is_ascii (s : string) : bool :=
  match s with
  | EmptyString => true
  | String c s' => (is_ascii_char c && is_ascii s')%bool
  end.

End PyStr.

(* ================================================================== *)
(** * The report catalog and the country filter *)
(* ================================================================== *)

Module Catalog.
Import PyStr.

(** [SQL_QUERIES]: report name and definition text, in the order of the
    dictionary literal.  Each text is the triple-quoted literal of the
    script, line breaks and indentation included. *)
Definition SQL_QUERIES : list (string * string) :=
  [    ("Top 10 vehicles in drug-related stops", "
        SELECT vehicle_number, COUNT(*) AS drug_stop_count
        FROM police_stop_logs
        WHERE drugs_related_stop = 1
        GROUP BY vehicle_number
        ORDER BY drug_stop_count DESC
        LIMIT 10;
    ");
    ("Most frequently searched vehicles (Top 20)", "
        SELECT vehicle_number, COUNT(*) AS search_count
        FROM police_stop_logs
        WHERE search_conducted = 1
        GROUP BY vehicle_number
        ORDER BY search_count DESC
        LIMIT 20;
    ");
    ("Driver age group with highest arrest rate", "
        WITH age_buckets AS (
          SELECT
            CASE
              WHEN driver_age < 18 THEN '<18'
              WHEN driver_age BETWEEN 18 AND 24 THEN '18-24'
              WHEN driver_age BETWEEN 25 AND 34 THEN '25-34'
              WHEN driver_age BETWEEN 35 AND 44 THEN '35-44'
              WHEN driver_age BETWEEN 45 AND 54 THEN '45-54'
              WHEN driver_age >= 55 THEN '55+'
              ELSE 'Unknown'
            END AS age_group,
            is_arrested
          FROM police_stop_logs
        )
        SELECT age_group,
               COUNT(*) AS total_stops,
               SUM(CASE WHEN is_arrested = 1 THEN 1 ELSE 0 END) AS arrests,
               CAST(SUM(CASE WHEN is_arrested = 1 THEN 1 ELSE 0 END) AS REAL) * 100.0 / COUNT(*) AS arrest_rate_pct
        FROM age_buckets
        GROUP BY age_group
        ORDER BY arrest_rate_pct DESC;
    ");
    ("Gender distribution by country", "
        SELECT country_name, driver_gender, COUNT(*) AS stops
        FROM police_stop_logs
        GROUP BY country_name, driver_gender
        ORDER BY country_name, stops DESC;
    ");
    ("Race+Gender combination with highest search rate", "
        SELECT driver_race, driver_gender, COUNT(*) AS total_stops,
               SUM(CASE WHEN search_conducted = 1 THEN 1 ELSE 0 END) AS searches,
               CAST(SUM(CASE WHEN search_conducted = 1 THEN 1 ELSE 0 END) AS REAL) * 100.0 / COUNT(*) AS search_rate_pct
        FROM police_stop_logs
        GROUP BY driver_race, driver_gender
        HAVING COUNT(*) >= 20
        ORDER BY search_rate_pct DESC
        LIMIT 10;
    ");
    ("Stops by hour of day", "
        SELECT CAST(strftime('%H', stop_datetime) AS INTEGER) AS hour_of_day, COUNT(*) AS stops
        FROM police_stop_logs
        WHERE stop_datetime IS NOT NULL
        GROUP BY hour_of_day
        ORDER BY stops DESC;
    ");
    ("Average stop duration for each violation (minutes)", "
        WITH mapped AS (
          SELECT violation,
                 CASE stop_duration
                   WHEN '0-15 Min' THEN 7.5
                   WHEN '16-30 Min' THEN 23.0
                   WHEN '>30 Min' THEN 45.0
                   ELSE NULL
                 END AS duration_minutes
          FROM police_stop_logs
        )
        SELECT violation, COUNT(duration_minutes) AS n_samples, AVG(duration_minutes) AS avg_duration_minutes
        FROM mapped
        GROUP BY violation
        ORDER BY avg_duration_minutes DESC;
    ");
    ("Are night stops more likely to lead to arrests?", "
        WITH flagged AS (
          SELECT *, CAST(strftime('%H', stop_datetime) AS INTEGER) AS hour
          FROM police_stop_logs
        )
        SELECT CASE WHEN hour >= 20 OR hour <= 4 THEN 'night' ELSE 'day' END AS period,
               COUNT(*) AS total_stops,
               SUM(CASE WHEN is_arrested = 1 THEN 1 ELSE 0 END) AS arrests,
               CAST(SUM(CASE WHEN is_arrested = 1 THEN 1 ELSE 0 END) AS REAL) * 100.0 / COUNT(*) AS arrest_rate_pct
        FROM flagged
        GROUP BY period
        ORDER BY arrest_rate_pct DESC;
    ");
    ("Violations most associated with searches or arrests", "
        SELECT violation, COUNT(*) AS total_stops,
               SUM(CASE WHEN search_conducted = 1 THEN 1 ELSE 0 END) AS searches,
               SUM(CASE WHEN is_arrested = 1 THEN 1 ELSE 0 END) AS arrests,
               CAST(SUM(CASE WHEN search_conducted = 1 THEN 1 ELSE 0 END) AS REAL) * 100.0 / COUNT(*) AS search_rate_pct,
               CAST(SUM(CASE WHEN is_arrested = 1 THEN 1 ELSE 0 END) AS REAL) * 100.0 / COUNT(*) AS arrest_rate_pct
        FROM police_stop_logs
        GROUP BY violation
        HAVING COUNT(*) > 10
        ORDER BY arrest_rate_pct DESC, search_rate_pct DESC;
    ");
    ("Violations common among drivers <25", "
        SELECT violation,
               COUNT(*) AS stops_under25,
               CAST(COUNT(*) AS REAL) / (SELECT COUNT(*) FROM police_stop_logs WHERE driver_age < 25) * 100.0 AS pct_of_under25_stops
        FROM police_stop_logs
        WHERE driver_age < 25
        GROUP BY violation
        ORDER BY stops_under25 DESC
        LIMIT 20;
    ");
    ("Violations that rarely result in search or arrest", "
        SELECT violation, COUNT(*) AS total_stops,
               CAST(SUM(CASE WHEN search_conducted = 1 THEN 1 ELSE 0 END) AS REAL) * 100.0 / COUNT(*) AS search_rate_pct,
               CAST(SUM(CASE WHEN is_arrested = 1 THEN 1 ELSE 0 END) AS REAL) * 100.0 / COUNT(*) AS arrest_rate_pct
        FROM police_stop_logs
        GROUP BY violation
        HAVING COUNT(*) > 50
        ORDER BY (search_rate_pct + arrest_rate_pct) ASC
        LIMIT 10;
    ");
    ("Countries with highest drug-related stop rate", "
        SELECT country_name, COUNT(*) AS total_stops,
               SUM(CASE WHEN drugs_related_stop = 1 THEN 1 ELSE 0 END) AS drug_stops,
               CAST(SUM(CASE WHEN drugs_related_stop = 1 THEN 1 ELSE 0 END) AS REAL) * 100.0 / COUNT(*) AS drug_rate_pct
        FROM police_stop_logs
        GROUP BY country_name
        HAVING COUNT(*) > 50
        ORDER BY drug_rate_pct DESC
        LIMIT 10;
    ");
    ("Arrest rate by country and violation", "
        SELECT country_name, violation, COUNT(*) AS total_stops,
               SUM(CASE WHEN is_arrested = 1 THEN 1 ELSE 0 END) AS arrests,
               CAST(SUM(CASE WHEN is_arrested = 1 THEN 1 ELSE 0 END) AS REAL) * 100.0 / COUNT(*) AS arrest_rate_pct
        FROM police_stop_logs
        GROUP BY country_name, violation
        HAVING COUNT(*) >= 10
        ORDER BY arrest_rate_pct DESC
        LIMIT 50;
    ");
    ("Country with most searches conducted", "
        SELECT country_name,
               SUM(CASE WHEN search_conducted = 1 THEN 1 ELSE 0 END) AS searches,
               COUNT(*) AS total_stops,
               CAST(SUM(CASE WHEN search_conducted = 1 THEN 1 ELSE 0 END) AS REAL) * 100.0 / COUNT(*) AS search_rate_pct
        FROM police_stop_logs
        GROUP BY country_name
        ORDER BY searches DESC
        LIMIT 10;
    ");
    ("Yearly breakdown of stops and arrests by country", "
        WITH parsed AS (
          SELECT country_name, CAST(strftime('%Y', stop_datetime) AS INTEGER) AS year, is_arrested
          FROM police_stop_logs
        )
        SELECT country_name, year,
               COUNT(*) AS stops,
               SUM(CASE WHEN is_arrested = 1 THEN 1 ELSE 0 END) AS arrests,
               CAST(SUM(CASE WHEN is_arrested = 1 THEN 1 ELSE 0 END) AS REAL) * 100.0 / COUNT(*) AS arrest_rate_pct,
               SUM(COUNT(*)) OVER (PARTITION BY country_name ORDER BY year ROWS BETWEEN UNBOUNDED PRECEDING AND CURRENT ROW) AS running_stops
        FROM parsed
        GROUP BY country_name, year
        ORDER BY country_name, year;
    ");
    ("Driver violation trends by age & race", "
        WITH age_grouped AS (
          SELECT *,
            CASE
              WHEN driver_age < 18 THEN '<18'
              WHEN driver_age BETWEEN 18 AND 24 THEN '18-24'
              WHEN driver_age BETWEEN 25 AND 34 THEN '25-34'
              WHEN driver_age BETWEEN 35 AND 44 THEN '35-44'
              WHEN driver_age BETWEEN 45 AND 54 THEN '45-54'
              WHEN driver_age >= 55 THEN '55+'
              ELSE 'Unknown' END AS age_group
          FROM police_stop_logs
        )
        SELECT age_group, driver_race, violation,
               COUNT(*) AS stops,
               CAST(COUNT(*) AS REAL) * 100.0 / (SELECT COUNT(*) FROM police_stop_logs WHERE driver_age IS NOT NULL AND driver_age >= 0) AS pct_of_all_stops
        FROM age_grouped
        GROUP BY age_group, driver_race, violation
        ORDER BY age_group, stops DESC
        LIMIT 200;
    ");
    ("Stops by year, month, hour", "
        SELECT CAST(strftime('%Y', stop_datetime) AS INTEGER) AS year,
               CAST(strftime('%m', stop_datetime) AS INTEGER) AS month,
               CAST(strftime('%H', stop_datetime) AS INTEGER) AS hour,
               COUNT(*) AS stops
        FROM police_stop_logs
        GROUP BY year, month, hour
        ORDER BY year DESC, month DESC, hour;
    ");
    ("Violations with high search & arrest rates (ranked)", "
        WITH stats AS (
          SELECT violation, COUNT(*) AS total,
                 SUM(CASE WHEN search_conducted = 1 THEN 1 ELSE 0 END) AS searches,
                 SUM(CASE WHEN is_arrested = 1 THEN 1 ELSE 0 END) AS arrests,
                 CAST(SUM(CASE WHEN search_conducted = 1 THEN 1 ELSE 0 END) AS REAL) * 100.0 / COUNT(*) AS search_rate_pct,
                 CAST(SUM(CASE WHEN is_arrested = 1 THEN 1 ELSE 0 END) AS REAL) * 100.0 / COUNT(*) AS arrest_rate_pct
          FROM police_stop_logs
          GROUP BY violation
          HAVING COUNT(*) > 30
        )
        SELECT *, RANK() OVER (ORDER BY arrest_rate_pct DESC) AS rank_by_arrest_rate,
                  RANK() OVER (ORDER BY search_rate_pct DESC) AS rank_by_search_rate
        FROM stats
        ORDER BY rank_by_arrest_rate, rank_by_search_rate
        LIMIT 30;
    ");
    ("Driver demographics by country", "
        SELECT country_name, driver_gender,
               CASE
                 WHEN driver_age < 18 THEN '<18'
                 WHEN driver_age BETWEEN 18 AND 24 THEN '18-24'
                 WHEN driver_age BETWEEN 25 AND 34 THEN '25-34'
                 WHEN driver_age BETWEEN 35 AND 44 THEN '35-44'
                 WHEN driver_age BETWEEN 45 AND 54 THEN '45-54'
                 WHEN driver_age >= 55 THEN '55+'
                 ELSE 'Unknown'
               END AS age_group,
               driver_race,
               COUNT(*) AS stops
        FROM police_stop_logs
        GROUP BY country_name, driver_gender, age_group, driver_race
        ORDER BY country_name, stops DESC
        LIMIT 500;
    ");
    ("Top 5 violations with highest arrest rates", "
        SELECT violation, COUNT(*) AS total_stops,
               SUM(CASE WHEN is_arrested = 1 THEN 1 ELSE 0 END) AS arrests,
               CAST(SUM(CASE WHEN is_arrested = 1 THEN 1 ELSE 0 END) AS REAL) * 100.0 / COUNT(*) AS arrest_rate_pct
        FROM police_stop_logs
        GROUP BY violation
        HAVING COUNT(*) >= 30
        ORDER BY arrest_rate_pct DESC
        LIMIT 5;
    ")
  ].

(** The module-level rewrite that precedes [run_query] in the analytics
    panel.  [params] starts empty; when the definition mentions
    [country_name] and a filter was typed, the first [WHERE] (if the
    upper-cased text has one) or else the first [GROUP BY] is replaced,
    and the filter is appended to [params].  The result is the pair
    [(query_to_run, params)] handed to [run_query]. *)
Definition inject_country_filter (query_to_run country_filter : string)
  : string * list string :=
  let params : list string := [] in
  if (contains "country_name" query_to_run && truthy country_filter)%bool then
    let query_to_run :=
      if contains "WHERE" (upper query_to_run)
      then replace_first "WHERE" "WHERE country_name = ? AND " query_to_run
      else replace_first "GROUP BY" "WHERE country_name = ? GROUP BY" query_to_run in
    (query_to_run, params ++ [country_filter])
  else (query_to_run, params).

(** What the catalog's texts look like to the rewrite: a definition
    that mentions [country_name] has a [GROUP BY] and no [WHERE], in
    either case of letters. *)
Definition country_report_shape (entry : string * string) : bool :=
  let q := snd entry in
  if contains "country_name" q
  then (negb (contains "WHERE" (upper q)) && negb (contains "WHERE" q)
        && contains "GROUP BY" q)%bool
  else true.

End Catalog.

(* ================================================================== *)
(** * The record store: one SQLite table behind short-lived connections *)
(* ================================================================== *)

Module Store.

Definition DATABASE_FILE : string := "securecheck_police_logs.db".
Definition TABLE_NAME : string := "police_stop_logs".

(** ** Rows

    The thirteen columns an [INSERT] supplies, in the order of
    [insert_log]'s column list.  A column holds SQL [NULL] ([None]) or a
    value of its declared type: text for the [TEXT] columns, an integer
    for the [INTEGER] columns. *)
Record Values : Type := mkValues {
  stop_datetime : option string;
  country_name : option string;
  vehicle_number : option string;
  driver_gender : option string;
  driver_age : option Z;
  driver_race : option string;
  violation : option string;
  stop_duration : option string;
  stop_outcome : option string;
  search_conducted : option Z;
  search_type : option string;
  is_arrested : option Z;
  drugs_related_stop : option Z
}.

(** A stored row: the key [stop_id] the table assigns, and the values. *)
Record StopRecord : Type := mkStop {
  stop_id : Z;
  fields :> Values
}.

(** The table with its [AUTOINCREMENT] counter (the [sqlite_sequence]
    entry): rows in insertion order, and the largest key ever handed
    out. *)
Record TableData : Type := mkTable {
  rows : list StopRecord;
  seq : Z
}.

(** The database file: the table is present or not. *)
Definition Schema : Type := option TableData.

Definition empty_table : TableData := {| rows := []; seq := 0 |}.

(** ** Exceptions, events and the world *)

Inductive exn : Type :=
| OperationalError (msg : string)   (* raised by SQLite: locked, no such table, ... *)
| ProgrammingError (msg : string)   (* use of a closed connection *)
| TypeError (msg : string)          (* [int(None)] *)
| ZeroDivisionError (msg : string).

(** What the script shows, message by message. *)
Inductive Message : Type :=
| ErrorInvalidVehicle                         (* "Provide a valid vehicle number." *)
| AlertPriorArrests (vehicle : string) (count : Z)
| InfoNoPriorArrests (vehicle : string)
| SuccessLogged (rowid : Z)
| ErrorRecording (e : exn)
| ErrorEnterVehicle                           (* "Enter a vehicle number." *)
| InfoNoRecords                               (* "No records found for this vehicle." *)
| ShowHistory (history : list StopRecord)
| MetricInt (label : string) (value : Z)
| MetricReal (label : string) (value : float).

(** What reaches SQLite, call by call. *)
Inductive Event : Type :=
| Connected (handle : nat)
| Closed (handle : nat)
| Statement (handle : nat) (sql : string) (params : list string)
| Insertion (handle : nat) (sql : string) (values_tuple : Values)
| Committed (handle : nat).

(** The world the script runs in.  [db] is the committed content of the
    file; [conns] the open connections, each with the content it sees
    inside its own uncommitted transaction, if it has one; [faults] is
    the environment: for each coming call into SQLite, in order, the
    exception it raises, if any (no entry: no exception). *)
Record World : Type := mkWorld {
  db : Schema;
  conns : list (nat * option Schema);
  next_handle : nat;
  faults : list (option exn);
  trace : list Event;
  ui : list Message
}.

Definition set_db (d : Schema) (w : World) : World :=
  mkWorld d (conns w) (next_handle w) (faults w) (trace w) (ui w).
Definition set_conns (c : list (nat * option Schema)) (w : World) : World :=
  mkWorld (db w) c (next_handle w) (faults w) (trace w) (ui w).
Definition set_faults (f : list (option exn)) (w : World) : World :=
  mkWorld (db w) (conns w) (next_handle w) f (trace w) (ui w).
Definition log_event (e : Event) (w : World) : World :=
  mkWorld (db w) (conns w) (next_handle w) (faults w) (trace w ++ [e]) (ui w).
Definition show (m : Message) (w : World) : World :=
  mkWorld (db w) (conns w) (next_handle w) (faults w) (trace w) (ui w ++ [m]).

(** ** The monad: state and exceptions *)

Inductive outcome (A : Type) : Type :=
| Ok (a : A)
| Raise (e : exn).
Arguments Ok {A} a.
Arguments Raise {A} e.

Definition M (A : Type) : Type := World -> outcome A * World.

Definition ret {A : Type} (a : A) : M A := fun w => (Ok a, w).

Definition bind {A B : Type} (m : M A) (k : A -> M B) : M B :=
  fun w => match m w with
           | (Ok a, w') => k a w'
           | (Raise e, w') => (Raise e, w')
           end.

Definition raise {A : Type} (e : exn) : M A := fun w => (Raise e, w).

Notation "x <- m ;; k" := (bind m (fun x => k))
  (at level 61, m at next level, right associativity).
Notation "m ;;; k" := (bind m (fun _ => k))
  (at level 61, right associativity).

(** [try: body  finally: final]: [final] runs on every way out of
    [body]; what [body] returned or raised stands, unless [final]
    raises. *)
Definition try_finally {A : Type} (body : M A) (final : M unit) : M A :=
  fun w => let (r, w1) := body w in
           match final w1 with
           | (Ok _, w2) => (r, w2)
           | (Raise e, w2) => (Raise e, w2)
           end.

(** [try: body  except Exception as e: handler e] *)
Definition try_except {A : Type} (body : M A) (handler : exn -> M A) : M A :=
  fun w => match body w with
           | (Ok a, w1) => (Ok a, w1)
           | (Raise e, w1) => handler e w1
           end.

Definition modify (f : World -> World) : M unit := fun w => (Ok tt, f w).

(** [st.error], [st.warning], [st.info], [st.success], [col.metric]. *)
Definition st (m : Message) : M unit := modify (show m).

(** ** SQLite, one call at a time *)

(** The environment's say on the coming call. *)
Definition next_fault : M unit :=
  fun w => match faults w with
           | [] => (Ok tt, w)
           | None :: fs => (Ok tt, set_faults fs w)
           | Some e :: fs => (Raise e, set_faults fs w)
           end.

Fixpoint lookup_conn (h : nat) (cs : list (nat * option Schema))
  : option (option Schema) :=
  match cs with
  | [] => None
  | (h', p) :: cs' => if Nat.eqb h h' then Some p else lookup_conn h cs'
  end.

Fixpoint update_conn (h : nat) (p : option Schema)
  (cs : list (nat * option Schema)) : list (nat * option Schema) :=
  match cs with
  | [] => []
  | (h', p') :: cs' =>
      if Nat.eqb h h' then (h', p) :: cs' else (h', p') :: update_conn h p cs'
  end.

Fixpoint remove_conn (h : nat) (cs : list (nat * option Schema))
  : list (nat * option Schema) :=
  match cs with
  | [] => []
  | (h', p') :: cs' =>
      if Nat.eqb h h' then cs' else (h', p') :: remove_conn h cs'
  end.

(** The transaction state of an open connection; a closed one cannot
    be used. *)
Definition pending (conn : nat) : M (option Schema) :=
  fun w => match lookup_conn conn (conns w) with
           | Some p => (Ok p, w)
           | None => (Raise (ProgrammingError "Cannot operate on a closed database."), w)
           end.

(** What a connection reads: its own transaction, else the file. *)
Definition view (p : option Schema) (w : World) : Schema :=
  match p with Some s => s | None => db w end.

(** [sqlite3.connect(DATABASE_FILE, ...)] *)
Definition connect : M nat :=
  next_fault ;;;
  fun w => let h := next_handle w in
           (Ok h, log_event (Connected h)
                    (mkWorld (db w) ((h, None) :: conns w) (S h)
                             (faults w) (trace w) (ui w))).

(** [conn.close()]: an uncommitted transaction is rolled back. *)
Definition close (conn : nat) : M unit :=
  modify (fun w => log_event (Closed conn) (set_conns (remove_conn conn (conns w)) w)).

(** [conn.commit()] *)
Definition commit (conn : nat) : M unit :=
  p <- pending conn ;;
  next_fault ;;;
  modify (fun w =>
            log_event (Committed conn)
              match p with
              | Some s => set_db s (set_conns (update_conn conn None (conns w)) w)
              | None => w
              end).

(** A data-definition statement: it takes effect at once when the
    connection has no open transaction, and inside the transaction
    otherwise. *)
Definition execute_ddl (conn : nat) (sql : string) (f : Schema -> Schema) : M unit :=
  p <- pending conn ;;
  modify (log_event (Statement conn sql [])) ;;;
  next_fault ;;;
  modify (fun w =>
            match p with
            | Some s => set_conns (update_conn conn (Some (f s)) (conns w)) w
            | None => set_db (f (db w)) w
            end).

Definition no_such_table : exn :=
  OperationalError ("no such table: " ++ TABLE_NAME).

Definition max_stop_id (rs : list StopRecord) : Z :=
  fold_right (fun r m => Z.max (stop_id r) m) 0 rs.

(** [cur.execute(insert_sql, values_tuple)]: opens the connection's
    transaction if it has none, appends the row under the next key and
    leaves that key in [cur.lastrowid]. *)
Definition execute_insert (conn : nat) (sql : string) (v : Values) : M Z :=
  p <- pending conn ;;
  modify (log_event (Insertion conn sql v)) ;;;
  next_fault ;;;
  fun w => match view p w with
           | None => (Raise no_such_table, w)
           | Some t =>
               let rowid := Z.max (seq t) (max_stop_id (rows t)) + 1 in
               let t' := {| rows := rows t ++ [mkStop rowid v]; seq := rowid |} in
               (Ok rowid, set_conns (update_conn conn (Some (Some t')) (conns w)) w)
           end.

(** A read-only statement with its meaning over the rows, for the
    values bound to its [?] marks; no meaning ([None]) when their
    number is not the number of marks. *)
Record Query (A : Type) : Type := mkQuery {
  sql : string;
  denote : list string -> list StopRecord -> option A
}.

Definition bad_bindings : exn :=
  ProgrammingError "Incorrect number of bindings supplied.".
Arguments sql {A} q.
Arguments denote {A} q params rs.

(** [pd.read_sql_query(sql, conn, params=params)] *)
Definition read_sql_query {A : Type} (q : Query A) (conn : nat)
  (params : list string) : M A :=
  p <- pending conn ;;
  modify (log_event (Statement conn (sql q) params)) ;;;
  next_fault ;;;
  fun w => match view p w with
           | None => (Raise no_such_table, w)
           | Some t =>
               match denote q params (rows t) with
               | Some df => (Ok df, w)
               | None => (Raise bad_bindings, w)
               end
           end.

(** The columns [PRAGMA table_info] lists: name, declared type and
    primary-key flag. *)
Definition table_columns : list (string * string * bool) :=
  [ ("stop_id", "INTEGER", true);
    ("stop_datetime", "TEXT", false);
    ("country_name", "TEXT", false);
    ("vehicle_number", "TEXT", false);
    ("driver_gender", "TEXT", false);
    ("driver_age", "INTEGER", false);
    ("driver_race", "TEXT", false);
    ("violation", "TEXT", false);
    ("stop_duration", "TEXT", false);
    ("stop_outcome", "TEXT", false);
    ("search_conducted", "INTEGER", false);
    ("search_type", "TEXT", false);
    ("is_arrested", "INTEGER", false);
    ("drugs_related_stop", "INTEGER", false) ]%string.

(** [cur.execute("PRAGMA table_info(...)")] and [cur.fetchall()]: no
    rows, and no error, when the table is absent. *)
Definition execute_table_info (conn : nat) : M (list (string * string * bool)) :=
  p <- pending conn ;;
  modify (log_event (Statement conn ("PRAGMA table_info(" ++ TABLE_NAME ++ ");") [])) ;;;
  next_fault ;;;
  fun w => match view p w with
           | None => (Ok [], w)
           | Some _ => (Ok table_columns, w)
           end.

(** ** The helpers of the script *)

Definition get_db_connection : M nat := connect.

Definition create_table_sql : string :=
  "
        CREATE TABLE IF NOT EXISTS police_stop_logs (
            stop_id INTEGER PRIMARY KEY AUTOINCREMENT,
            stop_datetime TEXT,
            country_name TEXT,
            vehicle_number TEXT,
            driver_gender TEXT,
            driver_age INTEGER,
            driver_race TEXT,
            violation TEXT,
            stop_duration TEXT,
            stop_outcome TEXT,
            search_conducted INTEGER,
            search_type TEXT,
            is_arrested INTEGER,
            drugs_related_stop INTEGER
        );
    ".

Definition create_if_absent (s : Schema) : Schema :=
  match s with
  | None => Some empty_table
  | Some t => Some t
  end.

(** [init_db]: no [try], so an exception leaves the function before
    [conn.close()]. *)
Definition init_db : M unit :=
  conn <- get_db_connection ;;
  execute_ddl conn create_table_sql create_if_absent ;;;
  commit conn ;;;
  close conn.

Definition nonempty {A : Type} (l : list A) : bool :=
  match l with [] => false | _ :: _ => true end.

(** [run_query(sql, params)] *)
Definition run_query {A : Type} (q : Query A) (params : list string) : M A :=
  conn <- get_db_connection ;;
  try_finally
    (if nonempty params
     then read_sql_query q conn params
     else read_sql_query q conn [])
    (close conn).

Definition insert_sql : string :=
  "
            INSERT INTO police_stop_logs
            (stop_datetime, country_name, vehicle_number,
             driver_gender, driver_age, driver_race, violation,
             stop_duration, stop_outcome, search_conducted,
             search_type, is_arrested, drugs_related_stop)
            VALUES (?,?,?,?,?,?,?,?,?,?,?,?,?);
        ".

(** [insert_log(values_tuple)] *)
Definition insert_log (values_tuple : Values) : M Z :=
  conn <- get_db_connection ;;
  try_finally
    (rowid <- execute_insert conn insert_sql values_tuple ;;
     commit conn ;;;
     ret rowid)
    (close conn).

(** [get_table_info()] *)
Definition get_table_info : M (list (string * string * bool)) :=
  conn <- get_db_connection ;;
  try_finally (execute_table_info conn) (close conn).

(** ** Worlds the facts are stated with *)

(** A new database file, before [init_db]: no table, no connection. *)
Definition boot (env : list (option exn)) : World :=
  mkWorld None [] 0 env [] [].

Definition locked : exn := OperationalError "database is locked".

(** The world after a helper that opened connection [h], sent
    [events] and closed it again. *)
Definition after_call (w : World) (d : Schema) (events : list Event) : World :=
  mkWorld d (conns w) (S (next_handle w)) (faults w)
          (trace w ++ events) (ui w).

(** The table after one more row: the key is one above the largest
    key so far. *)
Definition appended (t : TableData) (v : Values) : TableData :=
  let rowid := Z.max (seq t) (max_stop_id (rows t)) + 1 in
  {| rows := rows t ++ [mkStop rowid v]; seq := rowid |}.

End Store.

(* ================================================================== *)
(** * The meaning of the script's SQL over the rows *)
(* ================================================================== *)

Module Sql.
Import Store.

(** ** Three-valued conditions

    A comparison with [NULL] is [NULL] ([None]); [WHERE], [HAVING] and
    [CASE WHEN] take a condition only when it is true. *)

Definition eq_text (a b : option string) : option bool :=
  match a, b with
  | Some x, Some y => Some (String.eqb x y)
  | _, _ => None
  end.

Definition eq_int (a b : option Z) : option bool :=
  match a, b with
  | Some x, Some y => Some (x =? y)
  | _, _ => None
  end.

Definition lt_int (a b : option Z) : option bool :=
  match a, b with
  | Some x, Some y => Some (x <? y)
  | _, _ => None
  end.

Definition ge_int (a b : option Z) : option bool :=
  match a, b with
  | Some x, Some y => Some (x >=? y)
  | _, _ => None
  end.

Definition le_int (a b : option Z) : option bool :=
  match a, b with
  | Some x, Some y => Some (x <=? y)
  | _, _ => None
  end.

Definition and3 (a b : option bool) : option bool :=
  match a, b with
  | Some false, _ | _, Some false => Some false
  | Some true, Some true => Some true
  | _, _ => None
  end.

(** [x BETWEEN lo AND hi] is [x >= lo AND x <= hi]. *)
Definition between (x lo hi : option Z) : option bool :=
  and3 (ge_int x lo) (le_int x hi).

Definition holds (c : option bool) : bool :=
  match c with Some true => true | _ => false end.

(** [WHERE cond] *)
Definition where_ (cond : StopRecord -> option bool) (rs : list StopRecord)
  : list StopRecord :=
  filter (fun r => holds (cond r)) rs.

(** [SUM(CASE WHEN x = 1 THEN 1 ELSE 0 END)], one row's share. *)
Definition case_is_one (x : option Z) : Z :=
  if holds (eq_int x (Some 1)) then 1 else 0.

(** [SUM(e)] over integers: [NULL] over no rows. *)
Definition sum_int (xs : list Z) : option Z :=
  match xs with
  | [] => None
  | _ :: _ => Some (fold_left Z.add xs 0)
  end.

(** [CAST(n AS REAL)], and an integer operand of a [REAL] operation. *)
Definition real (z : Z) : float :=
  if z <? 0 then PrimFloat.opp (PrimFloat.of_uint63 (Uint63.of_Z (- z)))
  else PrimFloat.of_uint63 (Uint63.of_Z z).

(** ** [ORDER BY] and [LIMIT]

    Text is compared byte by byte and [NULL] sorts below every value.
    SQL leaves the order of rows with equal keys open; the sort here
    keeps them in the order they had. *)

Definition text_leb (a b : option string) : bool :=
  match a, b with
  | None, _ => true
  | Some _, None => false
  | Some x, Some y => String.leb x y
  end.

Section OrderBy.
Context {R : Type}.
(** [before a b]: row [a] may stand before row [b]. *)
Variable before : R -> R -> bool.

Fixpoint place (x : R) (sorted : list R) : list R :=
  match sorted with
  | [] => [x]
  | y :: ys => if before x y then x :: sorted else y :: place x ys
  end.

Definition order_by (l : list R) : list R := fold_right place [] l.
End OrderBy.

(** [LIMIT n] *)
Definition limit {R : Type} (n : nat) (l : list R) : list R := firstn n l.

(** ** The statements of the ledger *)

(** [flag_query]: the number of rows of the vehicle with
    [is_arrested = 1].  The data frame has the one cell [c]. *)
Definition flag_query : Query Z :=
  {| sql := "SELECT COUNT(*) AS c FROM police_stop_logs WHERE vehicle_number = ? AND is_arrested = 1;";
     denote := fun params rs =>
       match params with
       | [v] => Some (Z.of_nat (List.length
                  (where_ (fun r => and3 (eq_text (vehicle_number r) (Some v))
                                         (eq_int (is_arrested r) (Some 1))) rs)))
       | _ => None
       end |}.

(** The history of a vehicle, newest first, two hundred rows at most. *)
Definition history_query : Query (list StopRecord) :=
  {| sql := "SELECT * FROM police_stop_logs WHERE vehicle_number = ? ORDER BY stop_datetime DESC LIMIT 200;";
     denote := fun params rs =>
       match params with
       | [v] => Some (limit 200
                  (order_by (fun a b : StopRecord => text_leb (stop_datetime b) (stop_datetime a))
                     (where_ (fun r => eq_text (vehicle_number r) (Some v)) rs)))
       | _ => None
       end |}.

(** The row [load_kpis] reads. *)
Record Kpis : Type := mkKpis {
  total_stops : Z;
  total_arrests : option Z;
  total_drug_stops : option Z
}.

Definition kpi_query : Query Kpis :=
  {| sql := "
        SELECT
          COUNT(*) AS total_stops,
          SUM(CASE WHEN is_arrested = 1 THEN 1 ELSE 0 END) AS total_arrests,
          SUM(CASE WHEN drugs_related_stop = 1 THEN 1 ELSE 0 END) AS total_drug_stops
        FROM police_stop_logs;
    ";
     denote := fun params rs =>
       match params with
       | [] => Some {| total_stops := Z.of_nat (List.length rs);
                       total_arrests := sum_int (map (fun r : StopRecord => case_is_one (is_arrested r)) rs);
                       total_drug_stops := sum_int (map (fun r : StopRecord => case_is_one (drugs_related_stop r)) rs) |}
       | _ => None
       end |}.

Fixpoint distinct_text (xs : list (option string)) (seen : list string) : list string :=
  match xs with
  | [] => seen
  | None :: xs' => distinct_text xs' seen
  | Some x :: xs' =>
      if existsb (String.eqb x) seen then distinct_text xs' seen
      else distinct_text xs' (seen ++ [x])
  end.

(** [COUNT(DISTINCT vehicle_number)]: [NULL] is not counted. *)
Definition unique_vehicles_query : Query Z :=
  {| sql := "SELECT COUNT(DISTINCT vehicle_number) AS uv FROM police_stop_logs;";
     denote := fun params rs =>
       match params with
       | [] => Some (Z.of_nat (List.length (distinct_text (map (fun r : StopRecord => vehicle_number r) rs) [])))
       | _ => None
       end |}.

(** ** Derived buckets *)

(** The [CASE] that derives [age_group] from [driver_age], as written
    in "Driver age group with highest arrest rate", "Driver violation
    trends by age & race" and "Driver demographics by country": the
    first branch whose condition is true gives the label. *)
Definition age_group (driver_age : option Z) : string :=
  if holds (lt_int driver_age (Some 18)) then "<18"
  else if holds (between driver_age (Some 18) (Some 24)) then "18-24"
  else if holds (between driver_age (Some 25) (Some 34)) then "25-34"
  else if holds (between driver_age (Some 35) (Some 44)) then "35-44"
  else if holds (between driver_age (Some 45) (Some 54)) then "45-54"
  else if holds (ge_int driver_age (Some 55)) then "55+"
  else "Unknown".

End Sql.

(* ================================================================== *)
(** * The rate reports of the catalog *)
(* ================================================================== *)

Module Rates.
Import Store Sql.

(** ** [GROUP BY]

    A group key is the value of one text column or of two; [NULL]
    keys fall into one group. *)

Definition key1 : Type := option string.
Definition key2 : Type := (option string * option string)%type.

Definition key1_eqb (a b : key1) : bool :=
  match a, b with
  | None, None => true
  | Some x, Some y => String.eqb x y
  | _, _ => false
  end.

Definition key2_eqb (a b : key2) : bool :=
  (key1_eqb (fst a) (fst b) && key1_eqb (snd a) (snd b))%bool.

Section GroupBy.
Context {K V : Type}.
Variable key_eqb : K -> K -> bool.
Variable key : StopRecord -> K.
(** The aggregates of a group: their value before the first row, and
    the step a row makes. *)
Variable init : V.
Variable step : StopRecord -> V -> V.

(** One row joins the group of its key, or opens a new group. *)
Fixpoint accumulate (r : StopRecord) (groups : list (K * V)) : list (K * V) :=
  match groups with
  | [] => [(key r, step r init)]
  | (k, v) :: rest =>
      if key_eqb (key r) k then (k, step r v) :: rest
      else (k, v) :: accumulate r rest
  end.

(** The groups of a table, each with its aggregates, in the order in
    which the keys first appear. *)
Definition group_by (rs : list StopRecord) : list (K * V) :=
  fold_left (fun groups r => accumulate r groups) rs [].

End GroupBy.

(** [COUNT( * )] and [SUM(CASE WHEN flag = 1 THEN 1 ELSE 0 END)]. *)
Definition count_and_sum (flag : StopRecord -> option Z)
  (r : StopRecord) (agg : Z * Z) : Z * Z :=
  let '(n, s) := agg in (n + 1, s + case_is_one (flag r)).

(** [COUNT( * )] and the two sums over [search_conducted] and
    [is_arrested]. *)
Definition count_and_sums (r : StopRecord) (agg : Z * Z * Z) : Z * Z * Z :=
  let '(n, s, a) := agg in
  (n + 1, s + case_is_one (search_conducted r), a + case_is_one (is_arrested r)).

(** [CAST(sum AS REAL) * 100.0 / COUNT( * )] *)
Definition percentage (sum count : Z) : float :=
  (real sum * 100.0 / real count)%float.

(** [ORDER BY x DESC] on a [REAL] column. *)
Definition desc (x y : float) : bool := PrimFloat.leb y x.

(** ** The seven reports with a [HAVING] threshold

    A result row is the tuple of its columns, in the order of the
    [SELECT] list. *)

(** "Race+Gender combination with highest search rate":
    [driver_race, driver_gender, total_stops, searches, search_rate_pct]. *)
Definition race_gender_search_rate (rs : list StopRecord)
  : list (key1 * key1 * Z * Z * float) :=
  limit 10
    (order_by (fun a b => desc (snd a) (snd b))
       (filter (fun row => let '(_, _, total, _, _) := row in total >=? 20)
          (map (fun g => let '((race, gender), (n, s)) := g in
                         (race, gender, n, s, percentage s n))
             (group_by key2_eqb (fun r => (driver_race r, driver_gender r))
                       (0, 0) (count_and_sum (fun r => search_conducted r)) rs)))).

(** "Violations most associated with searches or arrests":
    [violation, total_stops, searches, arrests, search_rate_pct,
    arrest_rate_pct]. *)
Definition violations_searches_arrests (rs : list StopRecord)
  : list (key1 * Z * Z * Z * float * float) :=
  order_by (fun a b =>
              let '(_, _, _, _, sa, aa) := a in
              let '(_, _, _, _, sb, ab) := b in
              (PrimFloat.ltb ab aa || (PrimFloat.eqb aa ab && desc sa sb))%bool)
    (filter (fun row => let '(_, total, _, _, _, _) := row in total >? 10)
       (map (fun g => let '(v, (n, s, a)) := g in
                      (v, n, s, a, percentage s n, percentage a n))
          (group_by key1_eqb (fun r => violation r) (0, 0, 0) count_and_sums rs))).

(** "Violations that rarely result in search or arrest":
    [violation, total_stops, search_rate_pct, arrest_rate_pct]. *)
Definition violations_rarely_search_or_arrest (rs : list StopRecord)
  : list (key1 * Z * float * float) :=
  limit 10
    (order_by (fun a b =>
                 let '(_, _, sa, aa) := a in
                 let '(_, _, sb, ab) := b in
                 PrimFloat.leb (sa + aa) (sb + ab))
       (filter (fun row => let '(_, total, _, _) := row in total >? 50)
          (map (fun g => let '(v, (n, s, a)) := g in
                         (v, n, percentage s n, percentage a n))
             (group_by key1_eqb (fun r => violation r) (0, 0, 0) count_and_sums rs)))).

(** "Countries with highest drug-related stop rate":
    [country_name, total_stops, drug_stops, drug_rate_pct]. *)
Definition countries_drug_rate (rs : list StopRecord)
  : list (key1 * Z * Z * float) :=
  limit 10
    (order_by (fun a b => desc (snd a) (snd b))
       (filter (fun row => let '(_, total, _, _) := row in total >? 50)
          (map (fun g => let '(c, (n, s)) := g in (c, n, s, percentage s n))
             (group_by key1_eqb (fun r => country_name r)
                       (0, 0) (count_and_sum (fun r => drugs_related_stop r)) rs)))).

(** "Arrest rate by country and violation":
    [country_name, violation, total_stops, arrests, arrest_rate_pct]. *)
Definition arrest_rate_by_country_violation (rs : list StopRecord)
  : list (key1 * key1 * Z * Z * float) :=
  limit 50
    (order_by (fun a b => desc (snd a) (snd b))
       (filter (fun row => let '(_, _, total, _, _) := row in total >=? 10)
          (map (fun g => let '((c, v), (n, s)) := g in (c, v, n, s, percentage s n))
             (group_by key2_eqb (fun r => (country_name r, violation r))
                       (0, 0) (count_and_sum (fun r => is_arrested r)) rs)))).

(** The [stats] table of "Violations with high search & arrest rates
    (ranked)": [violation, total, searches, arrests, search_rate_pct,
    arrest_rate_pct]. *)
Definition stats (rs : list StopRecord) : list (key1 * Z * Z * Z * float * float) :=
  filter (fun row => let '(_, total, _, _, _, _) := row in total >? 30)
    (map (fun g => let '(v, (n, s, a)) := g in
                   (v, n, s, a, percentage s n, percentage a n))
       (group_by key1_eqb (fun r => violation r) (0, 0, 0) count_and_sums rs)).

(** [RANK() OVER (ORDER BY x DESC)]: one more than the number of rows
    with a larger [x]. *)
Definition rank_desc {R : Type} (x : R -> float) (table : list R) (row : R) : Z :=
  1 + Z.of_nat (List.length (filter (fun other => PrimFloat.ltb (x row) (x other)) table)).

(** "Violations with high search & arrest rates (ranked)": the columns
    of [stats], then [rank_by_arrest_rate] and [rank_by_search_rate]. *)
Definition violations_ranked (rs : list StopRecord)
  : list (key1 * Z * Z * Z * float * float * Z * Z) :=
  limit 30
    (order_by (fun a b =>
                 let '(_, ra, rsa) := a in
                 let '(_, rb, rsb) := b in
                 ((ra <? rb) || ((ra =? rb) && (rsa <=? rsb)))%bool)
       (map (fun row => (row, rank_desc snd (stats rs) row,
                         rank_desc (fun r => snd (fst r)) (stats rs) row))
          (stats rs))).

(** "Top 5 violations with highest arrest rates":
    [violation, total_stops, arrests, arrest_rate_pct]. *)
Definition top5_arrest_rates (rs : list StopRecord)
  : list (key1 * Z * Z * float) :=
  limit 5
    (order_by (fun a b => desc (snd a) (snd b))
       (filter (fun row => let '(_, total, _, _) := row in total >=? 30)
          (map (fun g => let '(v, (n, s)) := g in (v, n, s, percentage s n))
             (group_by key1_eqb (fun r => violation r)
                       (0, 0) (count_and_sum (fun r => is_arrested r)) rs)))).

(** ** The groups and counts a rate is measured against *)

(** The rows of the table whose key is [k]. *)
Definition members {K : Type} (key_eqb : K -> K -> bool) (key : StopRecord -> K)
  (k : K) (rs : list StopRecord) : list StopRecord :=
  filter (fun r => key_eqb (key r) k) rs.

Definition size (rs : list StopRecord) : Z := Z.of_nat (List.length rs).

(** The number of rows whose field [flag] is 1. *)
Definition is_one (x : option Z) : bool :=
  match x with Some 1 => true | _ => false end.

Definition count_ones (flag : StopRecord -> option Z) (rs : list StopRecord) : Z :=
  Z.of_nat (List.length (filter (fun r => is_one (flag r)) rs)).

(** The aggregates of group [k], row after row. *)
Definition aggregate_of {K V : Type} (key_eqb : K -> K -> bool)
  (key : StopRecord -> K) (init : V) (step : StopRecord -> V -> V)
  (k : K) (rs : list StopRecord) : V :=
  fold_left (fun v r => step r v) (members key_eqb key k rs) init.

(** A group below the threshold has no row in the result. *)
Definition absent_below {K Row : Type} (key_of : Row -> K)
  (group : K -> list StopRecord) (threshold : Z) (result : list Row) : Prop :=
  forall k, size (group k) < threshold ->
            forall row, In row result -> key_of row <> k.

(** [count] stops in [country], numbered from [first], all with the
    same [drugs_related_stop]. *)
Definition stops_in (country : string) (drug : Z) (first : nat) (count : nat)
  : list StopRecord :=
  map (fun i => mkStop (Z.of_nat i)
                  (mkValues None (Some country) None None None None None None None
                            None None None (Some drug)))
      (List.seq first count).

End Rates.

(* ================================================================== *)
(** * Dates and times: Python's side and SQLite's side *)
(* ================================================================== *)

Module PyTime.

(** [datetime.date] and [datetime.time]; the microsecond of a time plays
    no part in the format below. *)
Record date : Type := mkDate { year : Z; month : Z; day : Z }.
Record time : Type := mkTime { hour : Z; minute : Z; second : Z }.

Definition is_leap (y : Z) : bool :=
  ((y mod 4 =? 0) && (negb (y mod 100 =? 0) || (y mod 400 =? 0)))%bool.

Definition days_in_month (y m : Z) : Z :=
  if m =? 2 then (if is_leap y then 29 else 28)
  else if ((m =? 4) || (m =? 6) || (m =? 9) || (m =? 11))%bool then 30
  else 31.

(** The values the two classes can hold. *)
Definition valid_date (d : date) : bool :=
  ((1 <=? year d) && (year d <=? 9999) && (1 <=? month d) && (month d <=? 12)
   && (1 <=? day d) && (day d <=? days_in_month (year d) (month d)))%bool.

Definition valid_time (t : time) : bool :=
  ((0 <=? hour t) && (hour t <=? 23) && (0 <=? minute t) && (minute t <=? 59)
   && (0 <=? second t) && (second t <=? 59))%bool.

(** The decimal digit of the units of [n]. *)
Definition digit (n : Z) : ascii := ascii_of_N (48 + Z.to_N (n mod 10)).

(** [%m], [%d], [%H], [%M], [%S]: two digits; [%Y]: four digits.  For
    a year below 1000 the C library of the platform decides whether
    [%Y] is padded with zeros; the facts about the stored text are
    stated from year 1000 on.  (The date widget of the form offers
    dates within ten years of the current day.) *)
Definition pad2 (n : Z) : string :=
  String (digit (n / 10)) (String (digit n) EmptyString).

Definition pad4 (n : Z) : string :=
  String (digit (n / 1000)) (String (digit (n / 100)) (pad2 n)).

(** [datetime.combine(d, t).strftime('%Y-%m-%d %H:%M:%S')] *)
Definition strftime (d : date) (t : time) : string :=
  (pad4 (year d) ++ "-" ++ pad2 (month d) ++ "-" ++ pad2 (day d) ++ " "
   ++ pad2 (hour t) ++ ":" ++ pad2 (minute t) ++ ":" ++ pad2 (second t))%string.

End PyTime.

Module SqliteDate.

(** SQLite's reading of a time string of the form
    [YYYY-MM-DD HH:MM:SS], after its documentation of the date and
    time functions.  SQLite reads further forms (a date alone, a [T]
    between date and time, fractions of a second, Julian day numbers);
    they are outside this model, which gives [None] for them. *)

Definition digit_value (c : ascii) : option Z :=
  let n := N_of_ascii c in
  if ((48 <=? n) && (n <=? 57))%N then Some (Z.of_N n - 48) else None.

(** [n] digits at the head of [s], as a number, and the rest. *)
Fixpoint take_number (n : nat) (acc : Z) (s : string) : option (Z * string) :=
  match n with
  | O => Some (acc, s)
  | S n' =>
      match s with
      | EmptyString => None
      | String c s' =>
          match digit_value c with
          | Some v => take_number n' (10 * acc + v) s'
          | None => None
          end
      end
  end.

Definition take_char (c : ascii) (s : string) : option string :=
  match s with
  | String c' s' => if Ascii.eqb c c' then Some s' else None
  | EmptyString => None
  end.

Record fields : Type := mkFields {
  f_year : Z; f_month : Z; f_day : Z; f_hour : Z; f_minute : Z; f_second : Z
}.

Definition in_range (f : fields) : bool :=
  ((f_month f >=? 1) && (f_month f <=? 12)
   && (f_day f >=? 1) && (f_day f <=? PyTime.days_in_month (f_year f) (f_month f))
   && (f_hour f <=? 23) && (f_minute f <=? 59) && (f_second f <=? 59))%bool.

Definition parse (s : string) : option fields :=
  match take_number 4 0 s with
  | None => None
  | Some (Y, s) =>
  match take_char "-" s with
  | None => None
  | Some s =>
  match take_number 2 0 s with
  | None => None
  | Some (M, s) =>
  match take_char "-" s with
  | None => None
  | Some s =>
  match take_number 2 0 s with
  | None => None
  | Some (D, s) =>
  match take_char " " s with
  | None => None
  | Some s =>
  match take_number 2 0 s with
  | None => None
  | Some (h, s) =>
  match take_char ":" s with
  | None => None
  | Some s =>
  match take_number 2 0 s with
  | None => None
  | Some (m, s) =>
  match take_char ":" s with
  | None => None
  | Some s =>
  match take_number 2 0 s with
  | None => None
  | Some (sec, EmptyString) =>
      let f := mkFields Y M D h m sec in
      if in_range f then Some f else None
  | Some (_, String _ _) => None
  end end end end end end end end end end end.

(** [CAST(strftime('%Y', ts) AS INTEGER)], and the same with [%m] and
    [%H]: the field is printed in decimal and read back, which gives
    the field; [NULL] when the time string is [NULL] or not a time. *)
Definition field_of (get : fields -> Z) (ts : option string) : option Z :=
  match ts with
  | None => None
  | Some s => option_map get (parse s)
  end.

Definition year_of : option string -> option Z := field_of f_year.
Definition month_of : option string -> option Z := field_of f_month.
Definition hour_of : option string -> option Z := field_of f_hour.

(** The shape of a text: in a pattern, [d] stands for a decimal digit
    and every other character for itself. *)
Definition is_digit (c : ascii) : bool :=
  match digit_value c with Some _ => true | None => false end.

Fixpoint matches (pattern s : string) : bool :=
  match pattern, s with
  | EmptyString, EmptyString => true
  | String p pattern', String c s' =>
      ((if Ascii.eqb p "d" then is_digit c else Ascii.eqb p c)
       && matches pattern' s')%bool
  | _, _ => false
  end.

Definition iso_pattern : string := "dddd-dd-dd dd:dd:dd".

End SqliteDate.

(* ================================================================== *)
(** * The ledger: KPI row, logging form and vehicle lookup *)
(* ================================================================== *)

Module Form.

(** What the widgets of [new_log_form] hold when the form is sent.
    [vehicle_number] is the text as typed; [search_conducted],
    [is_arrested] and [drugs_related_stop] come from select boxes over
    [0] and [1]. *)
Record Input : Type := mkInput {
  stop_date : PyTime.date;
  stop_time : PyTime.time;
  country_name : string;
  vehicle_number : string;
  driver_gender : string;
  driver_age : Z;
  driver_race : string;
  violation : string;
  stop_duration : string;
  search_conducted : Z;
  search_type : string;
  stop_outcome : string;
  is_arrested : Z;
  drugs_related_stop : Z
}.

End Form.

Module Ledger.
Import PyStr Store Sql.

Definition int_of_none : exn :=
  TypeError "int() argument must be a string, a bytes-like object or a real number, not 'NoneType'".

(** [int(x)] of a cell: a [NULL] cell reads as [None], which [int]
    refuses. *)
Definition py_int (x : option Z) : M Z :=
  match x with
  | Some z => ret z
  | None => raise int_of_none
  end.

(** [a / b] on integers: the quotient as a float. *)
Definition py_truediv (a b : Z) : M float :=
  if b =? 0 then raise (ZeroDivisionError "division by zero")
  else ret (real a / real b)%float.

(** [load_kpis()]: the one row of the KPI statement. *)
Definition load_kpis : M Kpis := run_query kpi_query [].

(** The conditional expression bound to [drug_rate]. *)
Definition drug_rate (kpis : Kpis) : M float :=
  if total_stops kpis >? 0 then
    d <- py_int (total_drug_stops kpis) ;;
    t <- py_int (Some (total_stops kpis)) ;;
    q <- py_truediv d t ;;
    ret (q * 100.0)%float
  else ret 0.0%float.

(** The KPI row at the top of the page. *)
Definition kpi_row : M unit :=
  kpis <- load_kpis ;;
  t <- py_int (Some (total_stops kpis)) ;;
  st (MetricInt "Total Stops" t) ;;;
  a <- py_int (total_arrests kpis) ;;
  st (MetricInt "Total Arrests" a) ;;;
  r <- drug_rate kpis ;;
  st (MetricReal "Drug-related %" r) ;;;
  uv <- run_query unique_vehicles_query [] ;;
  st (MetricInt "Unique Vehicles" uv).

(** The text of the vehicle field: [.upper().strip()]. *)
Definition normalize (text : string) : string := strip (upper text).

(** The tuple [new_log] of the submit handler. *)
Definition new_log (f : Form.Input) : Values :=
  let vehicle_number := normalize (Form.vehicle_number f) in
  let stop_datetime := PyTime.strftime (Form.stop_date f) (Form.stop_time f) in
  let search_type :=
    if Form.search_conducted f =? 0 then "No Search"%string else Form.search_type f in
  mkValues (Some stop_datetime) (Some (Form.country_name f)) (Some vehicle_number)
           (Some (Form.driver_gender f)) (Some (Form.driver_age f))
           (Some (Form.driver_race f)) (Some (Form.violation f))
           (Some (Form.stop_duration f)) (Some (Form.stop_outcome f))
           (Some (Form.search_conducted f)) (Some search_type)
           (Some (Form.is_arrested f)) (Some (Form.drugs_related_stop f)).

(** The body of [if submitted:] in [new_log_form]. *)
Definition submit (f : Form.Input) : M unit :=
  let vehicle_number := normalize (Form.vehicle_number f) in
  if (negb (truthy vehicle_number) || (len vehicle_number <? 4))%bool then
    st ErrorInvalidVehicle
  else
    arrest_count <- run_query flag_query [vehicle_number] ;;
    (if arrest_count >? 0
     then st (AlertPriorArrests vehicle_number arrest_count)
     else st (InfoNoPriorArrests vehicle_number)) ;;;
    try_except
      (rowid <- insert_log (new_log f) ;;
       st (SuccessLogged rowid) ;;;
       kpis <- load_kpis ;;
       t <- py_int (Some (total_stops kpis)) ;;
       st (MetricInt "Total Stops" t))
      (fun e => st (ErrorRecording e)).

(** The body of [if st.button("Lookup Vehicle"):]. *)
Definition lookup_vehicle (text : string) : M unit :=
  let vehicle_lookup := normalize text in
  if negb (truthy vehicle_lookup) then st ErrorEnterVehicle
  else
    df_hist <- run_query history_query [vehicle_lookup] ;;
    match df_hist with
    | [] => st InfoNoRecords
    | _ :: _ => st (ShowHistory df_hist)
    end.

(** ** What the facts about the ledger are stated with *)

(** The form is taken when the vehicle number, in upper case and
    without surrounding blanks, has four characters or more. *)
Definition accepted (f : Form.Input) : bool :=
  let v := normalize (Form.vehicle_number f) in
  negb (negb (truthy v) || (len v <? 4)).



(** The message about prior arrests. *)
Definition advisory (v : string) (count : Z) : Message :=
  if count >? 0 then AlertPriorArrests v count else InfoNoPriorArrests v.


(** The consistency of a row: no search, no search type. *)
Definition search_consistent (r : StopRecord) : Prop :=
  search_conducted r = Some 0 -> search_type r = Some "No Search"%string.

(** The rows of vehicle [v]. *)
Definition has_vehicle (v : string) (r : StopRecord) : bool :=
  match vehicle_number r with
  | Some x => String.eqb x v
  | None => false
  end.

(** [newest_first a b]: row [a] is not older than row [b], by the text
    of [stop_datetime]. *)
Definition newest_first (a b : StopRecord) : bool :=
  text_leb (stop_datetime b) (stop_datetime a).

(** A row whose [stop_datetime] has the fixed shape and gives SQLite a
    year, a month and an hour. *)
Definition well_dated (r : StopRecord) : Prop :=
  exists s, stop_datetime r = Some s
            /\ SqliteDate.matches SqliteDate.iso_pattern s = true
            /\ exists y m h, SqliteDate.year_of (Some s) = Some y
                             /\ SqliteDate.month_of (Some s) = Some m
                             /\ SqliteDate.hour_of (Some s) = Some h.

(** The world once [init_db] has run on a new file, with [env] as the
    environment of the calls to come; and a session of submissions,
    one after the other. *)
Definition ready (env : list (option exn)) : World :=
  mkWorld (Some empty_table) [] 1 env
          [Connected 0; Statement 0 create_table_sql []; Committed 0; Closed 0] [].

Definition session (fs : list Form.Input) (w : World) : World :=
  fold_left (fun w f => snd (submit f w)) fs w.

(** A form as in the scenario of the ledger: vehicle RJ01AB1234, typed
    in lower case with a blank after it, marked as an arrest. *)
Definition sample_form : Form.Input :=
  Form.mkInput (PyTime.mkDate 2024 2 29) (PyTime.mkTime 21 5 9)
    "India" "rj01ab1234 " "M" 30 "Other" "Speeding" "0-15 Min"
    0 "Frisk" "Arrest" 1 0.

(** The same form with a vehicle number of three characters. *)
Definition short_form : Form.Input :=
  Form.mkInput (PyTime.mkDate 2024 2 29) (PyTime.mkTime 21 5 9)
    "India" " ab1 " "M" 30 "Other" "Speeding" "0-15 Min"
    0 "Frisk" "Arrest" 1 0.

(** A busy vehicle: 201 stops of RJ01AB1234 on one day, the stop
    numbered [i] at minute [i] after midnight, and one later stop of
    another vehicle. *)
Definition stop_at_minute (i : nat) : StopRecord :=
  mkStop (Z.of_nat i + 1)
    (mkValues
       (Some (PyTime.strftime (PyTime.mkDate 2024 3 1)
                (PyTime.mkTime (Z.of_nat i / 60) (Z.of_nat i mod 60) 0)))
       None (Some "RJ01AB1234") None None None None None None None None None None).

Definition other_vehicle_stop : StopRecord :=
  mkStop 202
    (mkValues (Some "2024-03-02 08:00:00") None (Some "DL05XY0001")
              None None None None None None None None None None).

Definition busy_table : TableData :=
  {| rows := map stop_at_minute (List.seq 0 201) ++ [other_vehicle_stop]; seq := 202 |}.

Definition busy_world : World := mkWorld (Some busy_table) [] 1 [] [] [].

End Ledger.

(* ================================================================== *)
(** * Shapes of text the further facts are stated with *)
(* ================================================================== *)

Module PyStrShape.
Import PyStr.

(** A text that does not begin with a blank. *)
Definition no_leading_blank (s : string) : Prop :=
  match s with
  | EmptyString => True
  | String c _ => isspace c = false
  end.

(** A text of blanks only. *)
Fixpoint all_blank (s : string) : bool :=
  match s with
  | EmptyString => true
  | String c s' => (isspace c && all_blank s')%bool
  end.

(** The number of [?] marks of a statement. *)
Fixpoint marks (s : string) : nat :=
  match s with
  | EmptyString => O
  | String c s' => if Ascii.eqb c "?" then S (marks s') else marks s'
  end.

End PyStrShape.

(* ================================================================== *)
(** * Shapes of rows the further facts are stated with *)
(* ================================================================== *)

Module LedgerShape.
Import PyStr Store Ledger.

(** A row whose vehicle number is in the form the ledger writes: in
    upper case, without blanks around it, four characters at least. *)
Definition vehicle_normal (r : StopRecord) : Prop :=
  exists v, vehicle_number r = Some v
            /\ upper v = v /\ strip v = v /\ 4 <= len v.

(** A row without [NULL]. *)
Definition no_null (r : StopRecord) : Prop :=
  stop_datetime r <> None /\ country_name r <> None /\ vehicle_number r <> None
  /\ driver_gender r <> None /\ driver_age r <> None /\ driver_race r <> None
  /\ violation r <> None /\ stop_duration r <> None /\ stop_outcome r <> None
  /\ search_conducted r <> None /\ search_type r <> None
  /\ is_arrested r <> None /\ drugs_related_stop r <> None.

(** The keys of a table: positive, below the counter, and growing
    along the rows. *)
Definition keys_in_order (t : TableData) : Prop :=
  StronglySorted Z.lt (map stop_id (rows t))
  /\ Forall (fun r => 0 < stop_id r <= seq t) (rows t).

End LedgerShape.

(* ================================================================== *)
(** * Admin utilities: dropping and recreating the table *)
(* ================================================================== *)

Module Admin.
Import Store.

Definition drop_table_sql : string := "DROP TABLE IF EXISTS police_stop_logs;".

(** [DROP TABLE IF EXISTS]: the table goes, and with it its entry in
    [sqlite_sequence], the key counter. *)
Definition drop_if_exists (s : Schema) : Schema := None.

(** What the handler shows when it is done. *)
Inductive Notice : Type :=
| TableRecreated                 (* "Table recreated. Existing data was removed." *)
| ErrorRecreating (e : exn).     (* "Error recreating table: ..." *)

(** The body of [if st.button("Recreate table (DROP & CREATE)"):].  The
    connection is opened before the [try]; the notice shown is the
    value returned. *)
Definition recreate_table : M Notice :=
  conn <- get_db_connection ;;
  try_finally
    (try_except
       (execute_ddl conn drop_table_sql drop_if_exists ;;;
        commit conn ;;;
        init_db ;;;
        ret TableRecreated)
       (fun e => ret (ErrorRecreating e)))
    (close conn).

(** A table with the rows of two submissions of the sample form. *)
Definition two_stops : TableData :=
  appended (appended empty_table (Ledger.new_log Ledger.sample_form))
           (Ledger.new_log Ledger.sample_form).

(** A run of the script in which the form is sent: the script runs
    from its top, so [init_db()] and the KPI row come before the
    handler of the form. *)
Definition page_with_form (f : Form.Input) : M unit :=
  init_db ;;; Ledger.kpi_row ;;; Ledger.submit f.

End Admin.

(* ================================================================== *)
(** * Reports that count stops *)
(* ================================================================== *)

Module Reports.
Import Store Sql Rates.

(** [COUNT( * )], one row's share. *)
Definition count_rows (r : StopRecord) (n : Z) : Z := n + 1.

(** [ORDER BY count DESC], the count being the last column. *)
Definition most_first {K : Type} (a b : K * Z) : bool := snd b <=? snd a.

(** "Top 10 vehicles in drug-related stops" and "Most frequently
    searched vehicles (Top 20)": [vehicle_number] and the number of
    its rows with the flag at 1, the [n] largest counts. *)
Definition top_vehicles (flag : StopRecord -> option Z) (n : nat)
  (rs : list StopRecord) : list (key1 * Z) :=
  limit n
    (order_by most_first
       (group_by key1_eqb (fun r => vehicle_number r) 0 count_rows
          (where_ (fun r => eq_int (flag r) (Some 1)) rs))).

Definition top10_drug_vehicles : list StopRecord -> list (key1 * Z) :=
  top_vehicles (fun r => drugs_related_stop r) 10.

Definition top20_searched_vehicles : list StopRecord -> list (key1 * Z) :=
  top_vehicles (fun r => search_conducted r) 20.

(** The rows of vehicle [v] with the flag at 1. *)
Definition flagged_stops (flag : StopRecord -> option Z) (v : key1)
  (rs : list StopRecord) : Z :=
  size (members key1_eqb (fun r => vehicle_number r) v
          (where_ (fun r => eq_int (flag r) (Some 1)) rs)).

(** [a < b] on text, [NULL] below every value. *)
Definition text_ltb (a b : option string) : bool := negb (text_leb b a).

(** [ORDER BY country_name, stops DESC] *)
Definition country_then_count (a b : key1 * key1 * Z) : bool :=
  let '(ca, _, na) := a in
  let '(cb, _, nb) := b in
  (text_ltb ca cb || (key1_eqb ca cb && (nb <=? na)))%bool.

(** "Gender distribution by country":
    [country_name, driver_gender, stops], by country and then by
    falling count. *)
Definition gender_by_country (rs : list StopRecord) : list (key1 * key1 * Z) :=
  order_by country_then_count
    (map (fun g => let '((c, s), n) := g in (c, s, n))
       (group_by key2_eqb (fun r => (country_name r, driver_gender r))
                 0 count_rows rs)).

(** The sum of a column of counts. *)
Definition total (counts : list Z) : Z := fold_right Z.add 0 counts.

(** [x IS NOT NULL] *)
Definition is_not_null {A : Type} (x : option A) : option bool :=
  match x with Some _ => Some true | None => Some false end.

Definition hour_eqb (a b : option Z) : bool :=
  match a, b with
  | None, None => true
  | Some x, Some y => x =? y
  | _, _ => false
  end.

(** "Stops by hour of day": [hour_of_day, stops], by falling count. *)
Definition stops_by_hour (rs : list StopRecord) : list (option Z * Z) :=
  order_by most_first
    (group_by hour_eqb (fun r => SqliteDate.hour_of (stop_datetime r))
              0 count_rows
       (where_ (fun r => is_not_null (stop_datetime r)) rs)).

(** The rows with a time text from which SQLite reads the hour [h];
    [h] is [NULL] for the rows whose text it cannot read. *)
Definition stops_at (h : option Z) (rs : list StopRecord) : Z :=
  size (filter (fun r : StopRecord =>
                  match stop_datetime r with
                         | Some _ => hour_eqb (SqliteDate.hour_of (stop_datetime r)) h
                         | None => false
                         end) rs).

(** A row without time text, or with the text [YYYY-MM-DD HH:MM:SS]
    of a date of the calendar and a time of the day, as the form
    writes it.  SQLite reads more texts than these (a day 31 in a
    short month, an hour 24, other forms), and this development does
    not model what it makes of them; the facts about hours are stated
    for the rows described here. *)
Definition written_time (r : StopRecord) : Prop :=
  stop_datetime r = None
  \/ exists d t, PyTime.valid_date d = true /\ PyTime.valid_time t = true
                 /\ stop_datetime r = Some (PyTime.strftime d t).

(** Sample rows: a stop on 2024-03-01 at the full hour [hour], and a
    stop without [stop_datetime]. *)
Definition timed_stop (id hour arrested : Z) : StopRecord :=
  mkStop id
    (mkValues (Some (PyTime.strftime (PyTime.mkDate 2024 3 1) (PyTime.mkTime hour 0 0)))
              None None None None None None None None None None (Some arrested) None).

Definition untimed_stop (id arrested : Z) : StopRecord :=
  mkStop id
    (mkValues None None None None None None None None None None None (Some arrested) None).

(** Two stops at night, one of them an arrest; four by day and one
    without time, one of the five an arrest. *)
Definition day_and_night : list StopRecord :=
  [timed_stop 1 21 1; timed_stop 2 2 0; timed_stop 3 10 0; timed_stop 4 11 1;
   timed_stop 5 10 0; timed_stop 6 13 0; untimed_stop 7 0].

Definition or3 (a b : option bool) : option bool :=
  match a, b with
  | Some true, _ | _, Some true => Some true
  | Some false, Some false => Some false
  | _, _ => None
  end.

(** [CASE WHEN hour >= 20 OR hour <= 4 THEN 'night' ELSE 'day' END] *)
Definition period (hour : option Z) : string :=
  if holds (or3 (ge_int hour (Some 20)) (le_int hour (Some 4)))
  then "night" else "day".

(** "Are night stops more likely to lead to arrests?":
    [period, total_stops, arrests, arrest_rate_pct]. *)
Definition night_stops_arrests (rs : list StopRecord)
  : list (string * Z * Z * float) :=
  order_by (fun a b => desc (snd a) (snd b))
    (map (fun g => let '(p, (n, s)) := g in (p, n, s, percentage s n))
       (group_by String.eqb (fun r => period (SqliteDate.hour_of (stop_datetime r)))
                 (0, 0) (count_and_sum (fun r => is_arrested r)) rs)).

(** The rows SQLite reads an hour from, at night by the report's
    bounds. *)
Definition at_night (r : StopRecord) : bool :=
  match SqliteDate.hour_of (stop_datetime r) with
  | Some h => ((20 <=? h) || (h <=? 4))%bool
  | None => false
  end.

End Reports.

(* ================================================================== *)
(** * Facts about the string operations *)
(* ================================================================== *)

Module PyStrFacts.
Import PyStr.

Lemma startswith_split (p s : string) :
  startswith p s = true -> s = (p ++ drop (String.length p) s)%string.
Proof.
  revert s; induction p as [|a p IH]; intros [|b s]; simpl; try reflexivity; try discriminate.
  intros H. apply andb_true_iff in H as [Hab Hps].
  apply Ascii.eqb_eq in Hab; subst b. f_equal. now apply IH.
Qed.

Lemma find_bound (p s : string) (i : nat) :
  find p s = Some i -> (i <= String.length s)%nat.
Proof.
  revert i; induction s as [|c s IH]; intros i; simpl.
  - destruct (startswith p ""); intros H; inversion H; lia.
  - destruct (startswith p (String c s)); [intros H; inversion H; lia|].
    destruct (find p s) as [j|]; simpl; intros H; inversion H; subst.
    specialize (IH j eq_refl). lia.
Qed.

Lemma length_take (n : nat) (s : string) :
  (n <= String.length s)%nat -> String.length (take n s) = n.
Proof.
  revert s; induction n as [|n IH]; intros [|c s]; simpl; intros H; try reflexivity; try lia.
  f_equal. apply IH. lia.
Qed.

(** [find] returns an index at which the pattern starts. *)
Lemma find_split (p s : string) (i : nat) :
  find p s = Some i ->
  s = (take i s ++ p ++ drop (i + String.length p) s)%string.
Proof.
  revert i; induction s as [|c s IH]; intros i; simpl.
  - destruct (startswith p "") eqn:E; [|discriminate].
    intros H; inversion H; subst; simpl. now apply startswith_split.
  - destruct (startswith p (String c s)) eqn:E.
    + intros H; inversion H; subst; simpl. now apply startswith_split.
    + destruct (find p s) as [j|]; simpl; [|discriminate].
      intros H; inversion H; subst; simpl. f_equal. now apply IH.
Qed.

(** ... and no smaller index does. *)
Lemma find_least (p s : string) (i j : nat) :
  find p s = Some i -> (j < i)%nat -> startswith p (drop j s) = false.
Proof.
  revert i j; induction s as [|c s IH]; intros i j; simpl.
  - destruct (startswith p ""); intros H; inversion H; lia.
  - destruct (startswith p (String c s)) eqn:E; [intros H; inversion H; lia|].
    destruct (find p s) as [k|] eqn:F; simpl; [|discriminate].
    intros H Hj; inversion H; subst.
    destruct j as [|j]; simpl; [exact E|]. apply (IH k); [reflexivity|lia].
Qed.

Lemma replace_first_found (old new s : string) (i : nat) :
  find old s = Some i ->
  replace_first old new s
  = (take i s ++ new ++ drop (i + String.length old) s)%string.
Proof.
  revert i; induction s as [|c s IH]; intros i; simpl.
  - destruct (startswith old ""); [|discriminate].
    intros H; inversion H; subst; reflexivity.
  - destruct (startswith old (String c s)).
    + intros H; inversion H; subst; reflexivity.
    + destruct (find old s) as [j|]; simpl; [|discriminate].
      intros H; inversion H; subst; simpl. f_equal. now apply IH.
Qed.

Lemma replace_first_absent (old new s : string) :
  find old s = None -> replace_first old new s = s.
Proof.
  induction s as [|c s IH]; simpl.
  - now destruct (startswith old "").
  - destruct (startswith old (String c s)); [discriminate|].
    destruct (find old s); simpl; [discriminate|].
    intros _. now rewrite IH.
Qed.

Lemma truthy_nonempty (s : string) : s <> ""%string -> truthy s = true.
Proof. destruct s; [congruence|reflexivity]. Qed.

(** Upper-casing keeps an occurrence of a text that is already upper
    case. *)
Lemma startswith_upper (p s : string) :
  upper p = p -> startswith p s = true -> startswith p (upper s) = true.
Proof.
  revert s; induction p as [|a p IH]; intros [|b s]; simpl; try reflexivity; try discriminate.
  intros Hp H. injection Hp as Ha Hp'.
  apply andb_true_iff in H as [Hab Hps].
  apply Ascii.eqb_eq in Hab; subst b.
  rewrite Ha, Ascii.eqb_refl. simpl. now apply IH.
Qed.

Lemma contains_upper (p s : string) :
  upper p = p -> contains p s = true -> contains p (upper s) = true.
Proof.
  intros Hp. unfold contains. induction s as [|c s IH]; simpl.
  - now destruct (startswith p "").
  - destruct (startswith p (String c s)) eqn:E.
    + intros _. pose proof (startswith_upper p _ Hp E) as E'. simpl in E'. now rewrite E'.
    + destruct (find p s); simpl; [|discriminate]. intros _.
      destruct (startswith p (String (upper_char c) (upper s))); [reflexivity|].
      specialize (IH eq_refl). destruct (find p (upper s)); [reflexivity|discriminate].
Qed.

(** What [is_ascii] tells apart: a vehicle text as it is typed, and
    the two bytes of a Greek letter followed by [a]. *)
Example is_ascii_samples :
  is_ascii " rj01ab1234 " = true
  /\ is_ascii (String "206" (String "144" "a")) = false
  /\ is_ascii (String "160" "ab1") = false.
Proof. repeat split. Qed.

End PyStrFacts.

(* ================================================================== *)
(** * Facts about the country filter *)
(* ================================================================== *)

Module CatalogFacts.
Import PyStr PyStrFacts Catalog.

(** ** The rewrite, case by case *)

Lemma inject_without_country (q cf : string) :
  contains "country_name" q = false -> inject_country_filter q cf = (q, []).
Proof. intros H. unfold inject_country_filter. now rewrite H. Qed.

Lemma inject_empty_filter (q : string) : inject_country_filter q "" = (q, []).
Proof.
  unfold inject_country_filter. simpl. now rewrite andb_false_r.
Qed.

Lemma inject_where (q cf : string) (i : nat) :
  contains "country_name" q = true -> cf <> ""%string ->
  find "WHERE" q = Some i ->
  inject_country_filter q cf
  = ((take i q ++ "WHERE country_name = ? AND " ++ drop (i + 5) q)%string, [cf]).
Proof.
  intros Hc Hcf Hw. unfold inject_country_filter.
  rewrite Hc, (truthy_nonempty _ Hcf). simpl andb. cbv iota.
  assert (Hu : contains "WHERE" (upper q) = true).
  { apply contains_upper; [reflexivity|]. unfold contains. now rewrite Hw. }
  rewrite Hu, (replace_first_found _ _ _ _ Hw). reflexivity.
Qed.

Lemma inject_group_by (q cf : string) (i : nat) :
  contains "country_name" q = true -> cf <> ""%string ->
  contains "WHERE" (upper q) = false ->
  find "GROUP BY" q = Some i ->
  inject_country_filter q cf
  = ((take i q ++ "WHERE country_name = ? GROUP BY" ++ drop (i + 8) q)%string, [cf]).
Proof.
  intros Hc Hcf Hw Hg. unfold inject_country_filter.
  rewrite Hc, (truthy_nonempty _ Hcf), Hw. simpl andb. cbv iota.
  rewrite (replace_first_found _ _ _ _ Hg). reflexivity.
Qed.

Lemma catalog_shape : forallb country_report_shape SQL_QUERIES = true.
Proof. vm_compute. reflexivity. Qed.

Lemma catalog_entry_shape (name q : string) :
  In (name, q) SQL_QUERIES -> contains "country_name" q = true ->
  contains "WHERE" (upper q) = false /\ contains "WHERE" q = false
  /\ exists i, find "GROUP BY" q = Some i.
Proof.
  intros Hin Hc.
  pose proof (proj1 (forallb_forall _ _) catalog_shape _ Hin) as H.
  unfold country_report_shape in H. simpl snd in H. rewrite Hc in H.
  apply andb_true_iff in H as [H Hg]. apply andb_true_iff in H as [Hu Hw].
  apply negb_true_iff in Hu, Hw. repeat split; try assumption.
  unfold contains in Hg. destruct (find "GROUP BY" q) as [i|]; [now exists i|discriminate].
Qed.

(** C1. For every report of the catalog and every non-empty country
    filter [cf]: a definition without [country_name] is run as it is,
    with no parameter, exactly as with no filter; a definition with
    [country_name] gets one predicate [country_name = ?] -- after the
    first [WHERE] and joined by [AND] when the text has a [WHERE],
    otherwise placed in a new [WHERE] right before the first
    [GROUP BY] -- the rest of the text is kept, the filter value is the
    only bound parameter, and the text does not depend on the value.
    (No definition of the catalog that mentions [country_name] has a
    [WHERE]; [inject_where] gives the rewrite of any text that has
    one.) *)
Theorem country_filter_on_catalog (name q cf : string) :
  In (name, q) SQL_QUERIES -> cf <> ""%string ->
  (contains "country_name" q = false ->
     inject_country_filter q cf = (q, [])
     /\ inject_country_filter q cf = inject_country_filter q "")
  /\
  (contains "country_name" q = true ->
     snd (inject_country_filter q cf) = [cf]
     /\ (forall cf' : string, cf' <> ""%string ->
           fst (inject_country_filter q cf') = fst (inject_country_filter q cf))
     /\ (contains "WHERE" q = true ->
           exists pre post : string,
             q = (pre ++ "WHERE" ++ post)%string
             /\ find "WHERE" q = Some (String.length pre)
             /\ fst (inject_country_filter q cf)
                = (pre ++ "WHERE country_name = ? AND " ++ post)%string)
     /\ (contains "WHERE" q = false ->
           exists pre post : string,
             q = (pre ++ "GROUP BY" ++ post)%string
             /\ find "GROUP BY" q = Some (String.length pre)
             /\ fst (inject_country_filter q cf)
                = (pre ++ "WHERE country_name = ? " ++ "GROUP BY" ++ post)%string)).
Proof.
  intros Hin Hcf. split.
  - intros Hc. rewrite inject_empty_filter. split; now apply inject_without_country.
  - intros Hc.
    destruct (catalog_entry_shape name q Hin Hc) as (Hu & Hw & i & Hg).
    pose proof (fun c H => inject_group_by q c i Hc H Hu Hg) as E.
    rewrite (E cf Hcf). simpl fst; simpl snd. repeat split.
    + intros cf' Hcf'. now rewrite (E cf' Hcf').
    + intros Hw'. congruence.
    + intros _. exists (take i q), (drop (i + 8) q). repeat split.
      * exact (find_split _ _ _ Hg).
      * rewrite length_take; [exact Hg|]. exact (find_bound _ _ _ Hg).
Qed.

(** The theorem at two entries of the catalog, one of each kind: the
    drug-rate report by country, and the top-ten vehicles report, whose
    text has no [country_name]. *)
Lemma country_filter_on_catalog_witness :
  snd (inject_country_filter (snd (nth 11 SQL_QUERIES (""%string, ""%string))) "India")
  = ["India"%string]
  /\ inject_country_filter (snd (nth 0 SQL_QUERIES (""%string, ""%string))) "India"
     = (snd (nth 0 SQL_QUERIES (""%string, ""%string)), []).
Proof.
  assert (Hne : "India"%string <> ""%string) by discriminate.
  split.
  - refine (proj1 (proj2 (country_filter_on_catalog
                            "Countries with highest drug-related stop rate"
                            _ "India" _ Hne) _)).
    + vm_compute. do 11 right. left. reflexivity.
    + vm_compute. reflexivity.
  - refine (proj1 (proj1 (country_filter_on_catalog
                            "Top 10 vehicles in drug-related stops"
                            _ "India" _ Hne) _)).
    + vm_compute. left. reflexivity.
    + vm_compute. reflexivity.
Defined.

(** The rewritten drug-rate report, as text. *)
Example drug_rate_report_filtered :
  inject_country_filter (snd (nth 11 SQL_QUERIES (""%string, ""%string))) "India"
  = (("
        SELECT country_name, COUNT(*) AS total_stops,
               SUM(CASE WHEN drugs_related_stop = 1 THEN 1 ELSE 0 END) AS drug_stops,
               CAST(SUM(CASE WHEN drugs_related_stop = 1 THEN 1 ELSE 0 END) AS REAL) * 100.0 / COUNT(*) AS drug_rate_pct
        FROM police_stop_logs
        WHERE country_name = ? GROUP BY country_name
        HAVING COUNT(*) > 50
        ORDER BY drug_rate_pct DESC
        LIMIT 10;
    ")%string, ["India"%string]).
Proof. vm_compute. reflexivity. Qed.

End CatalogFacts.

(* ================================================================== *)
(** * Facts about [ORDER BY], [LIMIT] and the order of text *)
(* ================================================================== *)

Module SqlFacts.
Import Store Sql.

Lemma string_compare_trans (a b c : string) :
  String.compare a b <> Gt -> String.compare b c <> Gt -> String.compare a c <> Gt.
Proof.
  revert b c. induction a as [|x a IH]; intros [|y b] [|z c]; simpl; try congruence.
  unfold Ascii.compare.
  destruct (N.compare_spec (N_of_ascii x) (N_of_ascii y)),
           (N.compare_spec (N_of_ascii y) (N_of_ascii z)),
           (N.compare_spec (N_of_ascii x) (N_of_ascii z));
    intros Hab Hbc; try congruence; try lia.
  now apply (IH b c).
Qed.

Lemma string_leb_trans (a b c : string) :
  String.leb a b = true -> String.leb b c = true -> String.leb a c = true.
Proof.
  unfold String.leb. intros H1 H2.
  pose proof (string_compare_trans a b c) as H.
  destruct (String.compare a b), (String.compare b c), (String.compare a c);
    try reflexivity; try discriminate; exfalso; apply H; congruence.
Qed.

Lemma text_leb_total (a b : option string) :
  text_leb a b = true \/ text_leb b a = true.
Proof.
  destruct a as [x|], b as [y|]; simpl; auto. apply String.leb_total.
Qed.

Lemma text_leb_trans (a b c : option string) :
  text_leb a b = true -> text_leb b c = true -> text_leb a c = true.
Proof.
  destruct a as [x|], b as [y|], c as [z|]; simpl; try congruence.
  apply string_leb_trans.
Qed.

Section OrderByFacts.
Context {R : Type}.
Variable before : R -> R -> bool.
Hypothesis before_total : forall a b, before a b = true \/ before b a = true.
Hypothesis before_trans :
  forall a b c, before a b = true -> before b c = true -> before a c = true.

Lemma place_perm (x : R) (l : list R) : Permutation (place before x l) (x :: l).
Proof.
  induction l as [|y l IH]; simpl; [reflexivity|].
  destruct (before x y); [reflexivity|].
  rewrite IH. apply perm_swap.
Qed.

Lemma order_by_perm (l : list R) : Permutation (order_by before l) l.
Proof.
  induction l as [|x l IH]; simpl; [reflexivity|].
  rewrite place_perm. now constructor.
Qed.

Lemma place_sorted (x : R) (l : list R) :
  StronglySorted (fun a b => before a b = true) l ->
  StronglySorted (fun a b => before a b = true) (place before x l).
Proof.
  induction 1 as [|y l Hs IH Hy]; simpl.
  - repeat constructor.
  - destruct (before x y) eqn:E.
    + constructor; [now constructor|].
      constructor; [assumption|].
      rewrite Forall_forall in *. intros z Hz. apply (before_trans x y z E). now apply Hy.
    + constructor; [assumption|].
      assert (Hyx : before y x = true).
      { destruct (before_total x y); congruence. }
      rewrite Forall_forall in *. intros z Hz.
      apply (Permutation_in _ (place_perm x l)) in Hz.
      destruct Hz as [<-|Hz]; [assumption|now apply Hy].
Qed.

Lemma order_by_sorted (l : list R) :
  StronglySorted (fun a b => before a b = true) (order_by before l).
Proof.
  induction l as [|x l IH]; simpl; [constructor|now apply place_sorted].
Qed.

Lemma sorted_firstn (n : nat) (l : list R) :
  StronglySorted (fun a b => before a b = true) l ->
  StronglySorted (fun a b => before a b = true) (firstn n l).
Proof.
  intros H. revert n. induction H as [|x l Hs IH Hx]; intros [|n]; simpl;
    try constructor.
  - apply IH.
  - rewrite Forall_forall in *. intros z Hz. apply Hx.
    rewrite <- (firstn_skipn n l). apply in_or_app. now left.
Qed.

Lemma sorted_firstn_skipn (n : nat) (l : list R) :
  StronglySorted (fun a b => before a b = true) l ->
  forall a b, In a (firstn n l) -> In b (skipn n l) -> before a b = true.
Proof.
  intros H. revert n. induction H as [|x l Hs IH Hx]; intros [|n] a b; simpl;
    try contradiction.
  intros [<-|Ha] Hb.
  - rewrite Forall_forall in Hx. apply Hx.
    rewrite <- (firstn_skipn n l). apply in_or_app. now right.
  - now apply (IH n).
Qed.

End OrderByFacts.

(** ** Age groups (C6) *)

(** C6. Every integer age gets the label of the one band that holds
    it: below 18, 18 to 24, 25 to 34, 35 to 44, 45 to 54, 55 and
    above.  The six bands cover the integers and no two overlap, so
    the label is one of the six and never "Unknown"; a [NULL] age is
    "Unknown". *)
Theorem age_group_total (n : Z) :
  (age_group (Some n) = "<18"%string <-> n < 18)
  /\ (age_group (Some n) = "18-24"%string <-> 18 <= n <= 24)
  /\ (age_group (Some n) = "25-34"%string <-> 25 <= n <= 34)
  /\ (age_group (Some n) = "35-44"%string <-> 35 <= n <= 44)
  /\ (age_group (Some n) = "45-54"%string <-> 45 <= n <= 54)
  /\ (age_group (Some n) = "55+"%string <-> 55 <= n)
  /\ In (age_group (Some n)) ["<18"; "18-24"; "25-34"; "35-44"; "45-54"; "55+"]%string
  /\ age_group (Some n) <> "Unknown"%string
  /\ age_group None = "Unknown"%string.
Proof.
  unfold age_group, between, and3, lt_int, ge_int, le_int, holds.
  rewrite !Z.geb_leb.
  destruct (Z.ltb_spec n 18);
    destruct (Z.leb_spec 18 n); destruct (Z.leb_spec n 24);
    destruct (Z.leb_spec 25 n); destruct (Z.leb_spec n 34);
    destruct (Z.leb_spec 35 n); destruct (Z.leb_spec n 44);
    destruct (Z.leb_spec 45 n); destruct (Z.leb_spec n 54);
    destruct (Z.leb_spec 55 n); try lia;
    cbn [In]; repeat split; intros; try lia; try discriminate; auto 10.
Qed.

Example age_group_samples :
  map age_group [Some (-3); Some 0; Some 17; Some 18; Some 24; Some 25; Some 34;
                 Some 35; Some 44; Some 45; Some 54; Some 55; Some 120; None]
  = ["<18"; "<18"; "<18"; "18-24"; "18-24"; "25-34"; "25-34";
     "35-44"; "35-44"; "45-54"; "45-54"; "55+"; "55+"; "Unknown"]%string.
Proof. reflexivity. Qed.

End SqlFacts.

(* ================================================================== *)
(** * Facts about the rate reports *)
(* ================================================================== *)

Module RatesFacts.
Import Store Sql Rates.

Lemma key1_eqb_eq (a b : key1) : key1_eqb a b = true <-> a = b.
Proof.
  destruct a as [x|], b as [y|]; simpl; split; try discriminate; try reflexivity.
  - intros H. apply String.eqb_eq in H. now subst.
  - intros H. inversion H. apply String.eqb_refl.
Qed.

Lemma key2_eqb_eq (a b : key2) : key2_eqb a b = true <-> a = b.
Proof.
  destruct a as [a1 a2], b as [b1 b2]. unfold key2_eqb. simpl.
  rewrite andb_true_iff, !key1_eqb_eq. split.
  - intros [-> ->]. reflexivity.
  - intros H. inversion H. auto.
Qed.

Section GroupByFacts.
Context {K V : Type}.
Variable key_eqb : K -> K -> bool.
Variable key : StopRecord -> K.
Variable init : V.
Variable step : StopRecord -> V -> V.
Hypothesis key_eqb_eq : forall a b, key_eqb a b = true <-> a = b.

Local Abbreviation aggregate_of := (Rates.aggregate_of key_eqb key init step).

Lemma key_eqb_refl (k : K) : key_eqb k k = true.
Proof. now apply key_eqb_eq. Qed.

Lemma key_eqb_neq (a b : K) : a <> b -> key_eqb a b = false.
Proof.
  intros H. destruct (key_eqb a b) eqn:E; [|reflexivity].
  apply key_eqb_eq in E. contradiction.
Qed.

Lemma aggregate_of_snoc (k : K) (rs : list StopRecord) (r : StopRecord) :
  aggregate_of k (rs ++ [r])
  = if key_eqb (key r) k then step r (aggregate_of k rs) else aggregate_of k rs.
Proof.
  unfold aggregate_of, members. rewrite filter_app, fold_left_app. simpl.
  now destruct (key_eqb (key r) k).
Qed.

Lemma aggregate_of_absent (k : K) (rs : list StopRecord) :
  (forall r, In r rs -> key r <> k) -> aggregate_of k rs = init.
Proof.
  intros H. unfold aggregate_of, members.
  induction rs as [|r rs IH]; simpl; [reflexivity|].
  rewrite key_eqb_neq by (apply H; now left).
  apply IH. intros r' Hr'. apply H. now right.
Qed.

Lemma accumulate_keys (r : StopRecord) (gs : list (K * V)) :
  map fst (accumulate key_eqb key init step r gs)
  = if existsb (key_eqb (key r)) (map fst gs) then map fst gs
    else map fst gs ++ [key r].
Proof.
  induction gs as [|[k v] gs IH]; simpl; [reflexivity|].
  destruct (key_eqb (key r) k); simpl; [reflexivity|].
  rewrite IH. now destruct (existsb (key_eqb (key r)) (map fst gs)).
Qed.

Lemma existsb_key (k : K) (ks : list K) :
  existsb (key_eqb k) ks = true <-> In k ks.
Proof.
  rewrite existsb_exists. split.
  - intros (x & Hx & E). apply key_eqb_eq in E. now subst.
  - intros H. exists k. split; [assumption|apply key_eqb_refl].
Qed.

Lemma accumulate_nodup (r : StopRecord) (gs : list (K * V)) :
  NoDup (map fst gs) -> NoDup (map fst (accumulate key_eqb key init step r gs)).
Proof.
  intros H. rewrite accumulate_keys.
  destruct (existsb (key_eqb (key r)) (map fst gs)) eqn:E; [assumption|].
  apply NoDup_app; [assumption|repeat constructor; intros []|].
  intros k Hk [<-|[]].
  apply existsb_key in Hk. congruence.
Qed.

Lemma accumulate_in (r : StopRecord) (gs : list (K * V)) (k : K) (v : V) :
  NoDup (map fst gs) ->
  In (k, v) (accumulate key_eqb key init step r gs) ->
  (k <> key r /\ In (k, v) gs)
  \/ (k = key r
      /\ exists v0, v = step r v0
                    /\ (In (k, v0) gs \/ (v0 = init /\ ~ In k (map fst gs)))).
Proof.
  induction gs as [|[k' v'] gs IH]; simpl; intros Hnd Hin.
  - destruct Hin as [Hin|[]]. inversion Hin; subst.
    right. split; [reflexivity|]. exists init. auto.
  - inversion Hnd as [|? ? Hk' Hnd']; subst.
    destruct (key_eqb (key r) k') eqn:E.
    + apply key_eqb_eq in E. subst k'.
      destruct Hin as [Hin|Hin].
      * inversion Hin; subst. right. split; [reflexivity|]. exists v'. auto.
      * left. split; [|now right]. intros ->.
        apply Hk'. now apply (in_map fst) in Hin.
    + destruct Hin as [Hin|Hin].
      * inversion Hin; subst. left. split; [|now left].
        intros ->. now rewrite key_eqb_refl in E.
      * destruct (IH Hnd' Hin) as [[H1 H2]|(H1 & v0 & H2 & H3)].
        -- left. auto.
        -- right. split; [assumption|]. exists v0. split; [assumption|].
           destruct H3 as [H3|[H3 H4]]; [auto|].
           right. split; [assumption|]. intros [H5|H5]; [|contradiction].
           subst. now rewrite key_eqb_refl in E.
Qed.

Lemma group_by_snoc (rs : list StopRecord) (r : StopRecord) :
  group_by key_eqb key init step (rs ++ [r])
  = accumulate key_eqb key init step r (group_by key_eqb key init step rs).
Proof. unfold group_by. now rewrite fold_left_app. Qed.

(** The groups are those of the keys that occur, each once, each with
    the aggregates of its members. *)
Lemma group_by_sound (rs : list StopRecord) :
  NoDup (map fst (group_by key_eqb key init step rs))
  /\ (forall r, In r rs -> In (key r) (map fst (group_by key_eqb key init step rs)))
  /\ (forall k v, In (k, v) (group_by key_eqb key init step rs) ->
                  v = aggregate_of k rs).
Proof.
  induction rs as [|r rs (Hnd & Hall & Hagg)] using rev_ind.
  - repeat split; try constructor; intros; contradiction.
  - rewrite group_by_snoc. split; [|split].
    + now apply accumulate_nodup.
    + intros r' Hr'. rewrite accumulate_keys.
      destruct (existsb (key_eqb (key r)) (map fst (group_by key_eqb key init step rs))) eqn:E.
      * apply in_app_or in Hr' as [Hr'|[<-|[]]]; [now apply Hall|].
        now apply existsb_key.
      * apply in_or_app.
        apply in_app_or in Hr' as [Hr'|[<-|[]]]; [left; now apply Hall|right; now left].
    + intros k v Hin. rewrite aggregate_of_snoc.
      destruct (accumulate_in r _ k v Hnd Hin) as [[H1 H2]|(H1 & v0 & H2 & H3)].
      * rewrite key_eqb_neq by congruence. now apply Hagg.
      * subst k. rewrite key_eqb_refl. subst v. f_equal.
        destruct H3 as [H3|[-> H3]]; [now apply Hagg|].
        symmetry. apply aggregate_of_absent.
        intros r' Hr' E. apply H3. rewrite <- E. now apply Hall.
Qed.

End GroupByFacts.

(** The aggregates, by what they count. *)
Lemma case_is_one_spec (x : option Z) : case_is_one x = if is_one x then 1 else 0.
Proof.
  unfold case_is_one, is_one, holds, eq_int.
  destruct x as [z|]; [|reflexivity].
  destruct (Z.eqb_spec z 1) as [->|H]; [reflexivity|].
  destruct z as [|[p|p|]|]; try reflexivity. contradiction.
Qed.

Lemma fold_count_and_sum (flag : StopRecord -> option Z) (l : list StopRecord) (n s : Z) :
  fold_left (fun v r => count_and_sum flag r v) l (n, s)
  = (n + size l, s + count_ones flag l).
Proof.
  unfold size, count_ones. revert n s.
  induction l as [|r l IH]; intros n s; cbn [fold_left count_and_sum filter].
  - cbn [List.length]. f_equal; lia.
  - rewrite IH, case_is_one_spec.
    destruct (is_one (flag r)); cbn [List.length]; rewrite ?Nat2Z.inj_succ; f_equal; lia.
Qed.

Lemma fold_count_and_sums (l : list StopRecord) (n s a : Z) :
  fold_left (fun v r => count_and_sums r v) l (n, s, a)
  = (n + size l, s + count_ones (fun r => search_conducted r) l,
     a + count_ones (fun r => is_arrested r) l).
Proof.
  unfold size, count_ones. revert n s a.
  induction l as [|r l IH]; intros n s a; cbn [fold_left count_and_sums filter].
  - cbn [List.length]. f_equal; [f_equal|]; lia.
  - rewrite IH, !case_is_one_spec.
    destruct (is_one (search_conducted r)), (is_one (is_arrested r));
      cbn [List.length]; rewrite ?Nat2Z.inj_succ; (f_equal; [f_equal|]); lia.
Qed.

(** What [ORDER BY] and [LIMIT] keep comes from what they were given. *)
Lemma in_limit_order_by {R : Type} (before : R -> R -> bool) (n : nat)
  (l : list R) (row : R) :
  In row (limit n (order_by before l)) -> In row l.
Proof.
  intros H. apply (Permutation_in _ (SqlFacts.order_by_perm before l)).
  unfold limit in H. rewrite <- (firstn_skipn n (order_by before l)).
  apply in_or_app. now left.
Qed.

Lemma one_sum_group {K : Type} (key_eqb : K -> K -> bool) (key : StopRecord -> K)
  (flag : StopRecord -> option Z) (rs : list StopRecord) (k : K) (n s : Z) :
  (forall a b, key_eqb a b = true <-> a = b) ->
  In (k, (n, s)) (group_by key_eqb key (0, 0) (count_and_sum flag) rs) ->
  n = size (members key_eqb key k rs)
  /\ s = count_ones flag (members key_eqb key k rs).
Proof.
  intros Heq Hin.
  destruct (group_by_sound key_eqb key (0, 0) (count_and_sum flag) Heq rs) as (_ & _ & H).
  specialize (H k (n, s) Hin). unfold aggregate_of in H.
  rewrite fold_count_and_sum in H. inversion H. split; lia.
Qed.

Lemma two_sums_group {K : Type} (key_eqb : K -> K -> bool) (key : StopRecord -> K)
  (rs : list StopRecord) (k : K) (n s a : Z) :
  (forall a b, key_eqb a b = true <-> a = b) ->
  In (k, (n, s, a)) (group_by key_eqb key (0, 0, 0) count_and_sums rs) ->
  n = size (members key_eqb key k rs)
  /\ s = count_ones (fun r => search_conducted r) (members key_eqb key k rs)
  /\ a = count_ones (fun r => is_arrested r) (members key_eqb key k rs).
Proof.
  intros Heq Hin.
  destruct (group_by_sound key_eqb key (0, 0, 0) count_and_sums Heq rs) as (_ & _ & H).
  specialize (H k (n, s, a) Hin). unfold aggregate_of in H.
  rewrite fold_count_and_sums in H. inversion H. repeat split; lia.
Qed.

Lemma in_stats (rs : list StopRecord) (v : key1) (n s a : Z) (sp ap : float) :
  In (v, n, s, a, sp, ap) (stats rs) ->
  n = size (members key1_eqb (fun r => violation r) v rs)
  /\ s = count_ones (fun r => search_conducted r) (members key1_eqb (fun r => violation r) v rs)
  /\ a = count_ones (fun r => is_arrested r) (members key1_eqb (fun r => violation r) v rs)
  /\ sp = percentage s n /\ ap = percentage a n /\ 30 < n.
Proof.
  intros H. unfold stats in H. apply filter_In in H as [H Hh].
  apply in_map_iff in H as ([k [[n' s'] a']] & E & Hin). inversion E; subst.
  destruct (two_sums_group _ _ _ _ _ _ _ key1_eqb_eq Hin) as (H1 & H2 & H3).
  rewrite Z.gtb_ltb in Hh. apply Z.ltb_lt in Hh. repeat split; assumption.
Qed.

(** C2. In each of the seven reports that compute a rate under a
    [HAVING] threshold, for every table: a result row's count is the
    number of rows of its group, its sum the number of those whose
    flag is 1, its rate the sum as a [REAL], times 100.0, divided by
    the count, in binary64 arithmetic -- written out below for every
    rate column -- and its count passes the [HAVING] test (at least 20;
    above 10; above 50; above 50; at least 10; above 30; at least 30).
    So no group with fewer rows than 20, 10, 50, 50, 10, 30 and 30
    has a row in the respective result. *)
Theorem rate_reports (rs : list StopRecord) :
  (* Race+Gender combination with highest search rate *)
  ((forall race gender total searches pct,
       In (race, gender, total, searches, pct) (race_gender_search_rate rs) ->
       total = size (members key2_eqb (fun r => (driver_race r, driver_gender r)) (race, gender) rs)
       /\ searches = count_ones (fun r => search_conducted r)
                       (members key2_eqb (fun r => (driver_race r, driver_gender r)) (race, gender) rs)
       /\ pct = (real searches * 100.0 / real total)%float
       /\ 20 <= total)
   /\ absent_below (fun row => let '(race, gender, _, _, _) := row in (race, gender))
        (fun k => members key2_eqb (fun r => (driver_race r, driver_gender r)) k rs)
        20 (race_gender_search_rate rs))
  /\
  (* Violations most associated with searches or arrests *)
  ((forall v total searches arrests search_pct arrest_pct,
       In (v, total, searches, arrests, search_pct, arrest_pct) (violations_searches_arrests rs) ->
       total = size (members key1_eqb (fun r => violation r) v rs)
       /\ searches = count_ones (fun r => search_conducted r) (members key1_eqb (fun r => violation r) v rs)
       /\ arrests = count_ones (fun r => is_arrested r) (members key1_eqb (fun r => violation r) v rs)
       /\ search_pct = (real searches * 100.0 / real total)%float
       /\ arrest_pct = (real arrests * 100.0 / real total)%float
       /\ 10 < total)
   /\ absent_below (fun row => let '(v, _, _, _, _, _) := row in v)
        (fun k => members key1_eqb (fun r => violation r) k rs)
        10 (violations_searches_arrests rs))
  /\
  (* Violations that rarely result in search or arrest *)
  ((forall v total search_pct arrest_pct,
       In (v, total, search_pct, arrest_pct) (violations_rarely_search_or_arrest rs) ->
       total = size (members key1_eqb (fun r => violation r) v rs)
       /\ search_pct = (real (count_ones (fun r => search_conducted r)
                                     (members key1_eqb (fun r => violation r) v rs))
                     * 100.0 / real total)%float
       /\ arrest_pct = (real (count_ones (fun r => is_arrested r)
                                     (members key1_eqb (fun r => violation r) v rs))
                     * 100.0 / real total)%float
       /\ 50 < total)
   /\ absent_below (fun row => let '(v, _, _, _) := row in v)
        (fun k => members key1_eqb (fun r => violation r) k rs)
        50 (violations_rarely_search_or_arrest rs))
  /\
  (* Countries with highest drug-related stop rate *)
  ((forall country total drug_stops pct,
       In (country, total, drug_stops, pct) (countries_drug_rate rs) ->
       total = size (members key1_eqb (fun r => country_name r) country rs)
       /\ drug_stops = count_ones (fun r => drugs_related_stop r)
                         (members key1_eqb (fun r => country_name r) country rs)
       /\ pct = (real drug_stops * 100.0 / real total)%float
       /\ 50 < total)
   /\ absent_below (fun row => let '(country, _, _, _) := row in country)
        (fun k => members key1_eqb (fun r => country_name r) k rs)
        50 (countries_drug_rate rs))
  /\
  (* Arrest rate by country and violation *)
  ((forall country v total arrests pct,
       In (country, v, total, arrests, pct) (arrest_rate_by_country_violation rs) ->
       total = size (members key2_eqb (fun r => (country_name r, violation r)) (country, v) rs)
       /\ arrests = count_ones (fun r => is_arrested r)
                      (members key2_eqb (fun r => (country_name r, violation r)) (country, v) rs)
       /\ pct = (real arrests * 100.0 / real total)%float
       /\ 10 <= total)
   /\ absent_below (fun row => let '(country, v, _, _, _) := row in (country, v))
        (fun k => members key2_eqb (fun r => (country_name r, violation r)) k rs)
        10 (arrest_rate_by_country_violation rs))
  /\
  (* Violations with high search & arrest rates (ranked) *)
  ((forall v total searches arrests search_pct arrest_pct rank_arrest rank_search,
       In (v, total, searches, arrests, search_pct, arrest_pct, rank_arrest, rank_search)
          (violations_ranked rs) ->
       total = size (members key1_eqb (fun r => violation r) v rs)
       /\ searches = count_ones (fun r => search_conducted r) (members key1_eqb (fun r => violation r) v rs)
       /\ arrests = count_ones (fun r => is_arrested r) (members key1_eqb (fun r => violation r) v rs)
       /\ search_pct = (real searches * 100.0 / real total)%float
       /\ arrest_pct = (real arrests * 100.0 / real total)%float
       /\ 30 < total)
   /\ absent_below (fun row => let '(v, _, _, _, _, _, _, _) := row in v)
        (fun k => members key1_eqb (fun r => violation r) k rs)
        30 (violations_ranked rs))
  /\
  (* Top 5 violations with highest arrest rates *)
  ((forall v total arrests pct,
       In (v, total, arrests, pct) (top5_arrest_rates rs) ->
       total = size (members key1_eqb (fun r => violation r) v rs)
       /\ arrests = count_ones (fun r => is_arrested r)
                      (members key1_eqb (fun r => violation r) v rs)
       /\ pct = (real arrests * 100.0 / real total)%float
       /\ 30 <= total)
   /\ absent_below (fun row => let '(v, _, _, _) := row in v)
        (fun k => members key1_eqb (fun r => violation r) k rs)
        30 (top5_arrest_rates rs)).
Proof.
  assert (R1 : forall race gender total searches pct,
       In (race, gender, total, searches, pct) (race_gender_search_rate rs) ->
       total = size (members key2_eqb (fun r => (driver_race r, driver_gender r)) (race, gender) rs)
       /\ searches = count_ones (fun r => search_conducted r)
                       (members key2_eqb (fun r => (driver_race r, driver_gender r)) (race, gender) rs)
       /\ pct = (real searches * 100.0 / real total)%float
       /\ 20 <= total).
  { intros race gender total searches pct H.
    apply in_limit_order_by, filter_In in H. destruct H as [H Hh].
    apply in_map_iff in H as ([[k1 k2] [n s]] & E & Hin). inversion E; subst.
    destruct (one_sum_group _ _ _ _ _ _ _ key2_eqb_eq Hin) as (H1 & H2).
    rewrite Z.geb_leb in Hh. apply Z.leb_le in Hh. repeat split; try assumption; reflexivity. }
  assert (R2 : forall v total searches arrests search_pct arrest_pct,
       In (v, total, searches, arrests, search_pct, arrest_pct) (violations_searches_arrests rs) ->
       total = size (members key1_eqb (fun r => violation r) v rs)
       /\ searches = count_ones (fun r => search_conducted r) (members key1_eqb (fun r => violation r) v rs)
       /\ arrests = count_ones (fun r => is_arrested r) (members key1_eqb (fun r => violation r) v rs)
       /\ search_pct = (real searches * 100.0 / real total)%float
       /\ arrest_pct = (real arrests * 100.0 / real total)%float
       /\ 10 < total).
  { intros v total searches arrests sp ap H.
    apply (Permutation_in _ (SqlFacts.order_by_perm _ _)), filter_In in H.
    destruct H as [H Hh].
    apply in_map_iff in H as ([k [[n s] a]] & E & Hin). inversion E; subst.
    destruct (two_sums_group _ _ _ _ _ _ _ key1_eqb_eq Hin) as (H1 & H2 & H3).
    rewrite Z.gtb_ltb in Hh. apply Z.ltb_lt in Hh. repeat split; try assumption; reflexivity. }
  assert (R3 : forall v total search_pct arrest_pct,
       In (v, total, search_pct, arrest_pct) (violations_rarely_search_or_arrest rs) ->
       total = size (members key1_eqb (fun r => violation r) v rs)
       /\ search_pct = (real (count_ones (fun r => search_conducted r)
                                     (members key1_eqb (fun r => violation r) v rs))
                     * 100.0 / real total)%float
       /\ arrest_pct = (real (count_ones (fun r => is_arrested r)
                                     (members key1_eqb (fun r => violation r) v rs))
                     * 100.0 / real total)%float
       /\ 50 < total).
  { intros v total sp ap H.
    apply in_limit_order_by, filter_In in H. destruct H as [H Hh].
    apply in_map_iff in H as ([k [[n s] a]] & E & Hin). inversion E; subst.
    destruct (two_sums_group _ _ _ _ _ _ _ key1_eqb_eq Hin) as (H1 & H2 & H3).
    rewrite Z.gtb_ltb in Hh. apply Z.ltb_lt in Hh.
    repeat split; try assumption; unfold percentage; congruence. }
  assert (R4 : forall country total drug_stops pct,
       In (country, total, drug_stops, pct) (countries_drug_rate rs) ->
       total = size (members key1_eqb (fun r => country_name r) country rs)
       /\ drug_stops = count_ones (fun r => drugs_related_stop r)
                         (members key1_eqb (fun r => country_name r) country rs)
       /\ pct = (real drug_stops * 100.0 / real total)%float
       /\ 50 < total).
  { intros country total drug_stops pct H.
    apply in_limit_order_by, filter_In in H. destruct H as [H Hh].
    apply in_map_iff in H as ([k [n s]] & E & Hin). inversion E; subst.
    destruct (one_sum_group _ _ _ _ _ _ _ key1_eqb_eq Hin) as (H1 & H2).
    rewrite Z.gtb_ltb in Hh. apply Z.ltb_lt in Hh. repeat split; try assumption; reflexivity. }
  assert (R5 : forall country v total arrests pct,
       In (country, v, total, arrests, pct) (arrest_rate_by_country_violation rs) ->
       total = size (members key2_eqb (fun r => (country_name r, violation r)) (country, v) rs)
       /\ arrests = count_ones (fun r => is_arrested r)
                      (members key2_eqb (fun r => (country_name r, violation r)) (country, v) rs)
       /\ pct = (real arrests * 100.0 / real total)%float
       /\ 10 <= total).
  { intros country v total arrests pct H.
    apply in_limit_order_by, filter_In in H. destruct H as [H Hh].
    apply in_map_iff in H as ([[k1 k2] [n s]] & E & Hin). inversion E; subst.
    destruct (one_sum_group _ _ _ _ _ _ _ key2_eqb_eq Hin) as (H1 & H2).
    rewrite Z.geb_leb in Hh. apply Z.leb_le in Hh. repeat split; try assumption; reflexivity. }
  assert (R6 : forall v total searches arrests search_pct arrest_pct rank_arrest rank_search,
       In (v, total, searches, arrests, search_pct, arrest_pct, rank_arrest, rank_search)
          (violations_ranked rs) ->
       total = size (members key1_eqb (fun r => violation r) v rs)
       /\ searches = count_ones (fun r => search_conducted r) (members key1_eqb (fun r => violation r) v rs)
       /\ arrests = count_ones (fun r => is_arrested r) (members key1_eqb (fun r => violation r) v rs)
       /\ search_pct = (real searches * 100.0 / real total)%float
       /\ arrest_pct = (real arrests * 100.0 / real total)%float
       /\ 30 < total).
  { intros v total searches arrests sp ap ra rk H.
    apply in_limit_order_by in H.
    apply in_map_iff in H as (row & E & Hin). inversion E; subst.
    destruct (in_stats _ _ _ _ _ _ _ Hin) as (H1 & H2 & H3 & H4 & H5 & H6).
    repeat split; assumption. }
  assert (R7 : forall v total arrests pct,
       In (v, total, arrests, pct) (top5_arrest_rates rs) ->
       total = size (members key1_eqb (fun r => violation r) v rs)
       /\ arrests = count_ones (fun r => is_arrested r)
                      (members key1_eqb (fun r => violation r) v rs)
       /\ pct = (real arrests * 100.0 / real total)%float
       /\ 30 <= total).
  { intros v total arrests pct H.
    apply in_limit_order_by, filter_In in H. destruct H as [H Hh].
    apply in_map_iff in H as ([k [n s]] & E & Hin). inversion E; subst.
    destruct (one_sum_group _ _ _ _ _ _ _ key1_eqb_eq Hin) as (H1 & H2).
    rewrite Z.geb_leb in Hh. apply Z.leb_le in Hh. repeat split; try assumption; reflexivity. }
  unfold absent_below.
  split; [split; [exact R1|]|].
  { intros k Hk [[[[race gender] total] searches] pct] Hin E; cbn in E; subst k.
    destruct (R1 _ _ _ _ _ Hin) as (H1 & _ & _ & H4).
    assert (Hlt : total < _) by (rewrite H1; exact Hk). lia. }
  split; [split; [exact R2|]|].
  { intros k Hk [[[[[v total] searches] arrests] sp] ap] Hin E; cbn in E; subst k.
    destruct (R2 _ _ _ _ _ _ Hin) as (H1 & _ & _ & _ & _ & H4).
    assert (Hlt : total < _) by (rewrite H1; exact Hk). lia. }
  split; [split; [exact R3|]|].
  { intros k Hk [[[v total] sp] ap] Hin E; cbn in E; subst k.
    destruct (R3 _ _ _ _ Hin) as (H1 & _ & _ & H4).
    assert (Hlt : total < _) by (rewrite H1; exact Hk). lia. }
  split; [split; [exact R4|]|].
  { intros k Hk [[[country total] drug] pct] Hin E; cbn in E; subst k.
    destruct (R4 _ _ _ _ Hin) as (H1 & _ & _ & H4).
    assert (Hlt : total < _) by (rewrite H1; exact Hk). lia. }
  split; [split; [exact R5|]|].
  { intros k Hk [[[[country v] total] arrests] pct] Hin E; cbn in E; subst k.
    destruct (R5 _ _ _ _ _ Hin) as (H1 & _ & _ & H4).
    assert (Hlt : total < _) by (rewrite H1; exact Hk). lia. }
  split; [split; [exact R6|]|].
  { intros k Hk [[[[[[[v total] searches] arrests] sp] ap] ra] rk] Hin E; cbn in E; subst k.
    destruct (R6 _ _ _ _ _ _ _ _ Hin) as (H1 & _ & _ & _ & _ & H4).
    assert (Hlt : total < _) by (rewrite H1; exact Hk). lia. }
  split; [exact R7|].
  intros k Hk [[[v total] arrests] pct] Hin E; cbn in E; subst k.
  destruct (R7 _ _ _ _ Hin) as (H1 & _ & _ & H4).
    assert (Hlt : total < _) by (rewrite H1; exact Hk). lia.
Qed.

(** The scenario of the ledger: sixty stops in India, five of them
    drug-related, give one row, and its rate is 5 * 100.0 / 60, a
    number between 8.25 and 8.5. *)
Lemma rate_reports_witness :
  exists pct : float,
    countries_drug_rate (stops_in "India" 1 1 5 ++ stops_in "India" 0 6 55)
    = [(Some "India"%string, 60, 5, pct)]
    /\ pct = (real 5 * 100.0 / real 60)%float
    /\ (PrimFloat.ltb 8.25 pct && PrimFloat.ltb pct 8.5)%bool = true.
Proof.
  set (rs := stops_in "India" 1 1 5 ++ stops_in "India" 0 6 55).
  destruct (rate_reports rs) as (_ & _ & _ & (R4 & _) & _).
  assert (E : countries_drug_rate rs = [(Some "India"%string, 60, 5, percentage 5 60)])
    by (vm_compute; reflexivity).
  exists (percentage 5 60). split; [exact E|]. split.
  - assert (Hin : In (Some "India"%string, 60, 5, percentage 5 60) (countries_drug_rate rs))
      by (rewrite E; left; reflexivity).
    exact (proj1 (proj2 (proj2 (R4 _ _ _ _ Hin)))).
  - vm_compute. reflexivity.
Defined.

(** The same rate lies between 8.33 and 8.34; with fifty stops the
    country is below the threshold and has no row. *)
Example drug_rate_sixty_stops :
  countries_drug_rate (stops_in "India" 1 1 5 ++ stops_in "India" 0 6 55)
  = [(Some "India"%string, 60, 5, (real 5 * 100.0 / real 60)%float)]
  /\ (PrimFloat.ltb (real 833 / real 100) (real 5 * 100.0 / real 60)
      && PrimFloat.ltb (real 5 * 100.0 / real 60) (real 834 / real 100))%bool = true.
Proof. split; vm_compute; reflexivity. Qed.

Example drug_rate_fifty_stops :
  countries_drug_rate (stops_in "India" 1 1 5 ++ stops_in "India" 0 6 45) = [].
Proof. vm_compute. reflexivity. Qed.

End RatesFacts.

(* ================================================================== *)
(** * Facts about the time text *)
(* ================================================================== *)

Module TimeFacts.
Import PyTime SqliteDate.

Lemma digit_value_digit (n : Z) : digit_value (digit n) = Some (n mod 10).
Proof.
  unfold digit. pose proof (Z.mod_pos_bound n 10 eq_refl) as H.
  assert (E : n mod 10 = 0 \/ n mod 10 = 1 \/ n mod 10 = 2 \/ n mod 10 = 3
              \/ n mod 10 = 4 \/ n mod 10 = 5 \/ n mod 10 = 6 \/ n mod 10 = 7
              \/ n mod 10 = 8 \/ n mod 10 = 9) by lia.
  repeat (destruct E as [E|E]; [rewrite E; reflexivity|]).
  rewrite E; reflexivity.
Qed.

Lemma is_digit_digit (n : Z) : is_digit (digit n) = true.
Proof. unfold is_digit. now rewrite digit_value_digit. Qed.

Lemma take_number_digit (k : nat) (acc n : Z) (s : string) :
  take_number (S k) acc (String (digit n) s) = take_number k (10 * acc + n mod 10) s.
Proof. cbn [take_number]. now rewrite digit_value_digit. Qed.

Lemma take_pad2 (n acc : Z) (rest : string) :
  0 <= n < 100 ->
  take_number 2 acc (pad2 n ++ rest) = Some (100 * acc + n, rest).
Proof.
  intros H. unfold pad2. cbn [append].
  rewrite !take_number_digit. cbn [take_number].
  do 2 f_equal. Z.to_euclidean_division_equations. lia.
Qed.

Lemma take_pad4 (n : Z) (rest : string) :
  0 <= n < 10000 ->
  take_number 4 0 (pad4 n ++ rest) = Some (n, rest).
Proof.
  intros H. unfold pad4, pad2. cbn [append].
  rewrite !take_number_digit. cbn [take_number].
  do 2 f_equal. Z.to_euclidean_division_equations. lia.
Qed.

(** The text Python writes has the fixed shape, whatever the date and
    the time. *)
Lemma strftime_shape (d : date) (t : time) :
  matches iso_pattern (strftime d t) = true.
Proof.
  unfold strftime, pad4, pad2. simpl. now rewrite !is_digit_digit.
Qed.

Lemma strftime_length (d : date) (t : time) : String.length (strftime d t) = 19%nat.
Proof. reflexivity. Qed.

(** SQLite reads back the fields Python wrote. *)
Lemma parse_strftime (d : date) (t : time) :
  valid_date d = true -> valid_time t = true ->
  parse (strftime d t)
  = Some (mkFields (year d) (month d) (day d) (hour t) (minute t) (second t)).
Proof.
  unfold valid_date, valid_time. intros Hd Ht.
  repeat (apply andb_true_iff in Hd as [Hd ?]).
  repeat (apply andb_true_iff in Ht as [Ht ?]).
  repeat match goal with
         | H : (_ <=? _) = true |- _ => apply Z.leb_le in H
         end.
  assert (Hdim : days_in_month (year d) (month d) <= 31).
  { unfold days_in_month.
    repeat match goal with |- context [if ?b then _ else _] => destruct b end; lia. }
  unfold parse, strftime.
  rewrite take_pad4 by lia. cbn [append take_char Ascii.eqb Bool.eqb].
  rewrite take_pad2 by lia. cbn [append take_char Ascii.eqb Bool.eqb].
  rewrite take_pad2 by lia. cbn [append take_char Ascii.eqb Bool.eqb].
  rewrite take_pad2 by lia. cbn [append take_char Ascii.eqb Bool.eqb].
  rewrite take_pad2 by lia. cbn [append take_char Ascii.eqb Bool.eqb].
  replace (pad2 (second t)) with (pad2 (second t) ++ "")%string
    by (unfold pad2; reflexivity).
  rewrite take_pad2 by lia.
  rewrite !Z.mul_0_r, !Z.add_0_l.
  unfold in_range. cbn [f_year f_month f_day f_hour f_minute f_second].
  repeat match goal with
         | |- context [?a >=? ?b] => rewrite (Z.geb_leb a b)
         end.
  repeat match goal with
         | H : ?a <= ?b |- context [?a <=? ?b] =>
             rewrite (proj2 (Z.leb_le a b) H)
         end.
  reflexivity.
Qed.

End TimeFacts.

(* ================================================================== *)
(** * Facts about the store helpers *)
(* ================================================================== *)

Module StoreFacts.
Import Store.

Lemma lookup_conn_head (h : nat) (p : option Schema) (cs : list (nat * option Schema)) :
  lookup_conn h ((h, p) :: cs) = Some p.
Proof. simpl. now rewrite Nat.eqb_refl. Qed.

Lemma update_conn_head (h : nat) (p q : option Schema) (cs : list (nat * option Schema)) :
  update_conn h q ((h, p) :: cs) = (h, q) :: cs.
Proof. simpl. now rewrite Nat.eqb_refl. Qed.

Lemma remove_conn_head (h : nat) (p : option Schema) (cs : list (nat * option Schema)) :
  remove_conn h ((h, p) :: cs) = cs.
Proof. simpl. now rewrite Nat.eqb_refl. Qed.

Lemma run_query_params {A : Type} (q : Query A) (params : list string) :
  run_query q params
  = bind get_db_connection
      (fun conn => try_finally (read_sql_query q conn params) (close conn)).
Proof. now destruct params. Qed.

(** Unfolds the helpers down to the world, and rewrites the accesses to
    the connection that was just opened. *)
Ltac run_store :=
  unfold run_query, insert_log, get_table_info, init_db, get_db_connection,
    connect, close, commit, execute_ddl, execute_insert, execute_table_info,
    read_sql_query, pending, try_finally, try_except, bind, ret, raise,
    modify, st, next_fault, log_event, show, set_db, set_conns, set_faults, view;
  simpl;
  repeat (rewrite ?lookup_conn_head, ?update_conn_head, ?remove_conn_head,
            ?Nat.eqb_refl; simpl).

(** Splits on what the environment says about the coming calls, and on
    whatever else a run branches on. *)
Ltac split_faults :=
  repeat match goal with
         | |- context [match ?f with [] => _ | _ :: _ => _ end] =>
             is_var f; destruct f as [|[?|] ?]; simpl;
             repeat (rewrite ?lookup_conn_head, ?update_conn_head,
                       ?remove_conn_head, ?Nat.eqb_refl; simpl)
         | |- context [match ?x with Some _ => _ | None => _ end] =>
             destruct x eqn:?; simpl;
             repeat (rewrite ?lookup_conn_head, ?update_conn_head,
                       ?remove_conn_head, ?Nat.eqb_refl; simpl)
         end.

(** ** Runs without faults *)

Lemma run_query_ok {A : Type} (q : Query A) (params : list string)
  (w : World) (t : TableData) (df : A) :
  faults w = [] -> db w = Some t -> denote q params (rows t) = Some df ->
  run_query q params w
  = (Ok df, after_call w (db w)
              [Connected (next_handle w);
               Statement (next_handle w) (sql q) params;
               Closed (next_handle w)]).
Proof.
  intros Hf Hd Hq. rewrite run_query_params.
  destruct w as [d c n f tr u]; simpl in *; subst.
  run_store. rewrite Hq. run_store. unfold after_call; simpl.
  now rewrite <- !app_assoc.
Qed.

Lemma insert_log_ok (v : Values) (w : World) (t : TableData) :
  faults w = [] -> db w = Some t ->
  insert_log v w
  = (Ok (seq (appended t v)),
     after_call w (Some (appended t v))
       [Connected (next_handle w);
        Insertion (next_handle w) insert_sql v;
        Committed (next_handle w);
        Closed (next_handle w)]).
Proof.
  intros Hf Hd.
  destruct w as [d c n f tr u]; simpl in *; subst.
  run_store. unfold after_call, appended; simpl.
  now rewrite <- !app_assoc.
Qed.

(** ** Runs under any faults: what a helper leaves untouched *)

Lemma run_query_frame {A : Type} (q : Query A) (params : list string) (w : World) :
  let w' := snd (run_query q params w) in
  db w' = db w /\ conns w' = conns w /\ ui w' = ui w.
Proof.
  rewrite run_query_params.
  destruct w as [d c n f tr u]. run_store. split_faults; auto.
Qed.

Lemma get_table_info_frame (w : World) :
  let w' := snd (get_table_info w) in
  db w' = db w /\ conns w' = conns w /\ ui w' = ui w.
Proof.
  destruct w as [d c n f tr u]. run_store. split_faults; auto.
Qed.

Lemma insert_log_frame (v : Values) (w : World) :
  let w' := snd (insert_log v w) in
  conns w' = conns w /\ ui w' = ui w
  /\ (db w' = db w
      \/ exists t, db w = Some t /\ db w' = Some (appended t v)
                   /\ fst (insert_log v w) = Ok (seq (appended t v))).
Proof.
  destruct w as [d c n f tr u]. run_store. split_faults; auto.
  all: repeat split; auto; right; eexists; repeat split; reflexivity.
Qed.

(** ** Connections: opened and released *)

Lemma run_query_releases {A : Type} (q : Query A) (params : list string) (w : World) :
  conns (snd (run_query q params w)) = conns w.
Proof. exact (proj1 (proj2 (run_query_frame q params w))). Qed.

Lemma insert_log_releases (v : Values) (w : World) :
  conns (snd (insert_log v w)) = conns w.
Proof. exact (proj1 (insert_log_frame v w)). Qed.

Lemma get_table_info_releases (w : World) :
  conns (snd (get_table_info w)) = conns w.
Proof. exact (proj1 (proj2 (get_table_info_frame w))). Qed.

(** [init_db] releases its connection when nothing fails ... *)
Lemma init_db_releases_without_fault (w : World) :
  faults w = [] -> conns (snd (init_db w)) = conns w.
Proof.
  destruct w as [d c n f tr u]; simpl; intros ->. run_store. reflexivity.
Qed.

(** ... but not when the statement or the commit fails: the exception
    leaves [init_db] before [conn.close()]. *)
Lemma init_db_leak_on_execute (w : World) (e : exn) (env : list (option exn)) :
  faults w = None :: Some e :: env ->
  init_db w
  = (Raise e,
     mkWorld (db w) ((next_handle w, None) :: conns w) (S (next_handle w)) env
       (trace w ++ [Connected (next_handle w);
                    Statement (next_handle w) create_table_sql []])
       (ui w)).
Proof.
  destruct w as [d c n f tr u]; simpl; intros ->. run_store.
  now rewrite <- app_assoc.
Qed.

Lemma init_db_leak_on_commit (w : World) (e : exn) (env : list (option exn)) :
  faults w = None :: None :: Some e :: env ->
  fst (init_db w) = Raise e
  /\ conns (snd (init_db w)) = (next_handle w, None) :: conns w.
Proof.
  destruct w as [d c n f tr u]; simpl; intros ->. run_store. split; reflexivity.
Qed.

(** C7, at the failing input.  On a new file whose first statement
    fails (the file is locked), [init_db] raises and connection 0 stays
    open; under the same environment [run_query], [insert_log] and
    [get_table_info] raise too, and leave no connection. *)
Theorem init_db_leaves_connection_open :
  fst (init_db (boot [None; Some locked])) = Raise locked
  /\ conns (snd (init_db (boot [None; Some locked]))) = [(0%nat, None)]
  /\ trace (snd (init_db (boot [None; Some locked])))
     = [Connected 0; Statement 0 create_table_sql []]
  /\ (fst (get_table_info (boot [None; Some locked])) = Raise locked
      /\ conns (snd (get_table_info (boot [None; Some locked]))) = [])
  /\ (forall v, fst (insert_log v (boot [None; Some locked])) = Raise locked
                /\ conns (snd (insert_log v (boot [None; Some locked]))) = [])
  /\ (forall (A : Type) (q : Query A) params,
         fst (run_query q params (boot [None; Some locked])) = Raise locked
         /\ conns (snd (run_query q params (boot [None; Some locked]))) = []).
Proof.
  rewrite (init_db_leak_on_execute (boot [None; Some locked]) locked [] eq_refl).
  repeat split.
  all: rewrite run_query_params; reflexivity.
Qed.

End StoreFacts.

(* ================================================================== *)
(** * Facts about the ledger *)
(* ================================================================== *)

Module LedgerFacts.
Import PyStr PyStrFacts Store Sql Ledger StoreFacts.

Lemma bind_ok {A B : Type} (m : M A) (k : A -> M B) (w w' : World) (a : A) :
  m w = (Ok a, w') -> bind m k w = k a w'.
Proof. intros H. unfold bind. now rewrite H. Qed.




(** Under any faults, a submission changes the table by at most the
    one row [new_log f], and leaves no connection behind. *)
Lemma submit_effect (f : Form.Input) (w w' : World) (r : outcome unit) :
  submit f w = (r, w') ->
  conns w' = conns w
  /\ (db w' = db w
      \/ exists t, accepted f = true /\ db w = Some t
                   /\ db w' = Some (appended t (new_log f))).
Proof.
  unfold submit, accepted.
  set (v := normalize (Form.vehicle_number f)).
  destruct (negb (truthy v) || (len v <? 4))%bool eqn:Hv.
  { intros H; inversion H; subst; simpl; auto. }
  unfold bind at 1.
  pose proof (run_query_frame flag_query [v] w) as F1.
  destruct (run_query flag_query [v] w) as [[n|e] w1]; simpl in F1;
    destruct F1 as (D1 & C1 & _).
  2:{ intros H; inversion H; subst; auto. }
  unfold bind at 1.
  assert (E : (if n >? 0 then st (AlertPriorArrests v n) else st (InfoNoPriorArrests v)) w1
              = (Ok tt, show (advisory v n) w1)).
  { unfold advisory. now destruct (n >? 0). }
  rewrite E. clear E.
  set (w2 := show (advisory v n) w1).
  assert (D2 : db w2 = db w) by (unfold w2; simpl; congruence).
  assert (C2 : conns w2 = conns w) by (unfold w2; simpl; congruence).
  clearbody w2.
  unfold try_except, bind at 1.
  pose proof (insert_log_frame (new_log f) w2) as F2.
  destruct (insert_log (new_log f) w2) as [[rowid|e] w3]; simpl in F2;
    destruct F2 as (C3 & _ & D3).
  - unfold bind at 1. unfold st at 1, modify. unfold bind at 1, load_kpis.
    pose proof (run_query_frame kpi_query [] (show (SuccessLogged rowid) w3)) as F4.
    destruct (run_query kpi_query [] (show (SuccessLogged rowid) w3)) as [[k|e] w4];
      simpl in F4; destruct F4 as (D4 & C4 & _); simpl;
      intros H; inversion H; subst; simpl; (split; [congruence|]).
    all: destruct D3 as [D3|(t & Ht & Ht' & _)]; [left; congruence|].
    all: right; exists t; repeat split; congruence.
  - simpl. intros H; inversion H; subst; simpl. split; [congruence|].
    destruct D3 as [D3|(t & Ht & Ht' & Hr)]; [left; congruence|discriminate].
Qed.

(** A form that is not taken changes nothing but the page. *)
Lemma submit_rejected (f : Form.Input) (w : World) :
  accepted f = false -> submit f w = (Ok tt, show ErrorInvalidVehicle w).
Proof.
  unfold accepted, submit. intros H. apply negb_false_iff in H. now rewrite H.
Qed.

(** [ready] is the world [init_db] makes of a new file. *)
Lemma init_db_makes_ready (env : list (option exn)) :
  init_db (boot (None :: None :: None :: env)) = (Ok tt, ready env).
Proof. reflexivity. Qed.

(** ** Validation (C5) *)

(** C5. A form whose vehicle number is ASCII text and, in upper case
    and stripped, is empty or shorter than four characters is answered
    with the validation error alone: the handler returns, the world is
    the old one with that message added, so the table, the connections
    and the trace of calls into SQLite are unchanged -- no prior-arrest
    query and no insert.  (For ASCII text [upper], [strip] and the
    length are Python's; see [is_ascii].) *)
Theorem short_vehicle_number_rejected (f : Form.Input) (w : World) :
  is_ascii (Form.vehicle_number f) = true ->
  strip (upper (Form.vehicle_number f)) = ""%string
  \/ (String.length (strip (upper (Form.vehicle_number f))) < 4)%nat ->
  submit f w = (Ok tt, show ErrorInvalidVehicle w)
  /\ db (snd (submit f w)) = db w
  /\ conns (snd (submit f w)) = conns w
  /\ next_handle (snd (submit f w)) = next_handle w
  /\ trace (snd (submit f w)) = trace w
  /\ ui (snd (submit f w)) = ui w ++ [ErrorInvalidVehicle].
Proof.
  intros _ H.
  assert (Hr : accepted f = false).
  { unfold accepted, normalize. apply negb_false_iff.
    destruct H as [H|H].
    - rewrite H. reflexivity.
    - apply orb_true_iff. right. unfold len. apply Z.ltb_lt. lia. }
  rewrite (submit_rejected f w Hr). simpl. repeat split.
Qed.

(** The form with the vehicle text [" ab1 "]: three characters once
    in upper case and stripped. *)
Lemma short_vehicle_number_rejected_witness :
  strip (upper (Form.vehicle_number short_form)) = "AB1"%string
  /\ submit short_form (ready []) = (Ok tt, show ErrorInvalidVehicle (ready []))
  /\ db (snd (submit short_form (ready []))) = Some empty_table.
Proof.
  assert (H : strip (upper (Form.vehicle_number short_form)) = ""%string
              \/ (String.length (strip (upper (Form.vehicle_number short_form))) < 4)%nat).
  { right. vm_compute. lia. }
  pose proof (short_vehicle_number_rejected short_form (ready []) eq_refl H) as (H1 & H2 & _).
  split; [reflexivity|]. split; [exact H1|exact H2].
Defined.

(** ** The prior-arrest advisory (C3) *)




(** ** Search-type consistency (C4) *)

Lemma new_log_consistent (f : Form.Input) (rowid : Z) :
  search_consistent (mkStop rowid (new_log f)).
Proof.
  unfold search_consistent. simpl. intros H. inversion H as [H0].
  now rewrite H0.
Qed.

(** What holds of the stored rows and of the tuple of every form
    holds of the rows after a submission, and after a session. *)
Lemma submit_keeps (P : StopRecord -> Prop) (f : Form.Input) (w : World) :
  (forall rowid, P (mkStop rowid (new_log f))) ->
  (forall t, db w = Some t -> Forall P (rows t)) ->
  forall t, db (snd (submit f w)) = Some t -> Forall P (rows t).
Proof.
  intros Hf Hw t Ht.
  destruct (submit f w) as [r w'] eqn:E. simpl in Ht.
  destruct (submit_effect f w w' r E) as (_ & [H|(t0 & _ & H0 & H1)]).
  - apply Hw. congruence.
  - rewrite H1 in Ht. inversion Ht; subst. unfold appended; simpl.
    apply Forall_app. split; [now apply Hw|].
    constructor; [apply Hf|constructor].
Qed.

Lemma session_keeps (P : StopRecord -> Prop) (fs : list Form.Input) (w : World) :
  (forall f rowid, In f fs -> P (mkStop rowid (new_log f))) ->
  (forall t, db w = Some t -> Forall P (rows t)) ->
  forall t, db (session fs w) = Some t -> Forall P (rows t).
Proof.
  revert w. induction fs as [|f fs IH]; intros w Hfs Hw; simpl.
  - exact Hw.
  - apply IH.
    + intros g rowid Hg. apply Hfs. now right.
    + apply submit_keeps; [|assumption]. intros rowid. apply Hfs. now left.
Qed.

Lemma ready_has_no_rows (P : StopRecord -> Prop) (env : list (option exn)) :
  forall t, db (ready env) = Some t -> Forall P (rows t).
Proof. simpl. intros t Ht. inversion Ht. constructor. Qed.

(** C4. A form with [search_conducted = 0] is stored with
    [search_type = "No Search"], whatever search type was typed: the
    only row a submission adds to the table is [new_log f], and that
    tuple has the forced text.  Hence, whatever the forms and whatever
    the environment does, every row of a table filled by submissions
    alone has [search_type = "No Search"] when its [search_conducted]
    is 0. *)
Theorem search_type_consistency
  (f : Form.Input) (w w' : World) (r : outcome unit)
  (fs : list Form.Input) (env : list (option exn)) (t : TableData) :
  (Form.search_conducted f = 0 ->
   search_conducted (new_log f) = Some 0
   /\ search_type (new_log f) = Some "No Search"%string
   /\ (submit f w = (r, w') -> db w' <> db w ->
       exists t0, db w = Some t0
                  /\ db w' = Some (mkTable (rows t0 ++ [mkStop (seq (appended t0 (new_log f))) (new_log f)])
                                           (seq (appended t0 (new_log f))))))
  /\ (db (session fs (ready env)) = Some t -> Forall search_consistent (rows t)).
Proof.
  split.
  - intros H0. unfold new_log at 1 2. simpl. rewrite H0. simpl. repeat split.
    intros E Hne. destruct (submit_effect f w w' r E) as (_ & [H|(t0 & _ & Ht0 & H1)]).
    + contradiction.
    + exists t0. split; [assumption|]. exact H1.
  - apply session_keeps.
    + intros g rowid _. apply new_log_consistent.
    + apply ready_has_no_rows.
Qed.

Lemma search_type_consistency_witness :
  search_type (new_log sample_form) = Some "No Search"%string
  /\ Forall search_consistent
       (rows (appended (appended empty_table (new_log sample_form)) (new_log sample_form))).
Proof.
  pose proof (search_type_consistency sample_form (ready []) (ready []) (Ok tt)
                [sample_form; sample_form] []
                (appended (appended empty_table (new_log sample_form)) (new_log sample_form)))
    as [H1 H2].
  split.
  - exact (proj1 (proj2 (H1 eq_refl))).
  - apply H2. vm_compute. reflexivity.
Defined.

(** ** The KPI row (C8) *)

(** The conditional expression itself: with no stops it is [0.0], and
    neither [int(...)] nor the division is evaluated. *)
Lemma drug_rate_guarded (k : Kpis) (w : World) :
  total_stops k <= 0 -> drug_rate k w = (Ok 0.0%float, w).
Proof.
  intros H. unfold drug_rate.
  destruct (total_stops k >? 0) eqn:E; [|reflexivity].
  rewrite Z.gtb_ltb in E. apply Z.ltb_lt in E. lia.
Qed.

(** Within the guard the division never has a zero divisor. *)
Lemma drug_rate_never_divides_by_zero (k : Kpis) (w : World) (msg : string) :
  fst (drug_rate k w) <> Raise (ZeroDivisionError msg).
Proof.
  unfold drug_rate. destruct (total_stops k >? 0) eqn:E; [|discriminate].
  rewrite Z.gtb_ltb in E. apply Z.ltb_lt in E.
  destruct (total_drug_stops k) as [d|]; [|discriminate].
  unfold bind, py_int, ret, py_truediv.
  destruct (total_stops k =? 0) eqn:E0; [apply Z.eqb_eq in E0; lia|discriminate].
Qed.

(** On a table without rows the sums of the KPI statement are [NULL]. *)
Lemma kpi_query_empty : denote kpi_query [] [] = Some (mkKpis 0 None None).
Proof. reflexivity. Qed.

(** Whenever the table has no rows and SQLite does not fail, the KPI
    row stops at "Total Arrests". *)
Lemma kpi_row_empty (w : World) (t : TableData) :
  faults w = [] -> db w = Some t -> rows t = [] ->
  fst (kpi_row w) = Raise int_of_none
  /\ ui (snd (kpi_row w)) = ui w ++ [MetricInt "Total Stops" 0].
Proof.
  intros Hf Hd Hr. unfold kpi_row, load_kpis.
  assert (Hq : denote kpi_query [] (rows t) = Some (mkKpis 0 None None))
    by (rewrite Hr; reflexivity).
  rewrite (bind_ok _ _ _ _ _ (run_query_ok kpi_query [] w t _ Hf Hd Hq)).
  split; reflexivity.
Qed.

(** C8, at the failing input.  On the table [init_db] has just made,
    the KPI row shows "Total Stops" and then raises at
    [int(kpis["total_arrests"])]: the sum over no rows is [NULL].  The
    drug-related percentage is not reached, although its own
    expression would give [0.0] there. *)
Theorem kpi_row_fails_on_empty_table :
  fst (kpi_row (ready [])) = Raise int_of_none
  /\ ui (snd (kpi_row (ready []))) = [MetricInt "Total Stops" 0]
  /\ drug_rate (mkKpis 0 None None) (ready []) = (Ok 0.0%float, ready []).
Proof.
  destruct (kpi_row_empty (ready []) empty_table eq_refl eq_refl eq_refl) as [H1 H2].
  repeat split; assumption.
Qed.

(** ** Vehicle lookup (C9) *)

Lemma has_vehicle_iff (v : string) (r : StopRecord) :
  has_vehicle v r = true <-> vehicle_number r = Some v.
Proof.
  unfold has_vehicle. destruct (vehicle_number r) as [x|]; split; try discriminate.
  - intros H. apply String.eqb_eq in H. now subst.
  - intros H. inversion H. apply String.eqb_refl.
Qed.

Lemma history_query_meaning (v : string) (rs : list StopRecord) :
  denote history_query [v] rs
  = Some (firstn 200 (order_by newest_first (filter (has_vehicle v) rs))).
Proof.
  cbn [denote history_query]. unfold limit, where_.
  rewrite (filter_ext (fun r : StopRecord => holds (eq_text (vehicle_number r) (Some v)))
                      (has_vehicle v)); [reflexivity|].
  intros r. unfold has_vehicle, eq_text, holds.
  destruct (vehicle_number r) as [x|]; [|reflexivity].
  now destruct (String.eqb x v).
Qed.

Lemma newest_first_total (a b : StopRecord) :
  newest_first a b = true \/ newest_first b a = true.
Proof. apply SqlFacts.text_leb_total. Qed.

Lemma newest_first_trans (a b c : StopRecord) :
  newest_first a b = true -> newest_first b c = true -> newest_first a c = true.
Proof. unfold newest_first. intros H1 H2. now apply (SqlFacts.text_leb_trans _ _ _ H2). Qed.

(** C9. For a lookup text in ASCII that is not empty once in upper
    case and stripped, in a world whose calls into SQLite do not fail.
    The key of the lookup is the text in upper case, stripped.  The
    rows of the table whose vehicle number is that key split into the
    history shown and the rows left out; the history is in descending
    order of [stop_datetime], has at most 200 rows, and nothing is
    left out unless it has 200; no row left out is newer than a row
    shown.  A history without rows is reported as "no records", any
    other is shown; the one statement sent binds the key. *)
Theorem vehicle_history (text : string) (w : World) (t : TableData) :
  faults w = [] -> db w = Some t ->
  is_ascii text = true -> strip (upper text) <> ""%string ->
  exists hist omitted : list StopRecord,
    Permutation (hist ++ omitted) (filter (has_vehicle (strip (upper text))) (rows t))
    /\ (forall r, In r (hist ++ omitted)
                  <-> In r (rows t) /\ vehicle_number r = Some (strip (upper text)))
    /\ StronglySorted
         (fun a b : StopRecord => text_leb (stop_datetime b) (stop_datetime a) = true) hist
    /\ (List.length hist <= 200)%nat
    /\ (omitted = [] \/ List.length hist = 200%nat)
    /\ (forall a o, In a hist -> In o omitted ->
                    text_leb (stop_datetime o) (stop_datetime a) = true)
    /\ fst (lookup_vehicle text w) = Ok tt
    /\ db (snd (lookup_vehicle text w)) = db w
    /\ conns (snd (lookup_vehicle text w)) = conns w
    /\ trace (snd (lookup_vehicle text w))
       = trace w ++ [Connected (next_handle w);
                     Statement (next_handle w) (sql history_query) [strip (upper text)];
                     Closed (next_handle w)]
    /\ ui (snd (lookup_vehicle text w))
       = ui w ++ [match hist with [] => InfoNoRecords | _ :: _ => ShowHistory hist end].
Proof.
  intros Hf Hd _ Hne.
  change (strip (upper text)) with (normalize text) in *.
  set (v := normalize text) in *.
  set (sorted := order_by newest_first (filter (has_vehicle v) (rows t))).
  assert (Hperm : Permutation (firstn 200 sorted ++ skipn 200 sorted)
                              (filter (has_vehicle v) (rows t))).
  { rewrite firstn_skipn. apply SqlFacts.order_by_perm. }
  assert (Hsorted : StronglySorted (fun a b => newest_first a b = true) sorted).
  { apply SqlFacts.order_by_sorted; [apply newest_first_total|apply newest_first_trans]. }
  exists (firstn 200 sorted), (skipn 200 sorted).
  split; [exact Hperm|].
  split.
  { intros r. split.
    - intros H. apply (Permutation_in _ Hperm) in H. apply filter_In in H.
      now rewrite has_vehicle_iff in H.
    - intros [H1 H2]. apply (Permutation_in _ (Permutation_sym Hperm)).
      apply filter_In. now rewrite has_vehicle_iff. }
  split; [now apply (SqlFacts.sorted_firstn newest_first)|].
  split; [apply firstn_le_length|].
  split.
  { destruct (Nat.le_gt_cases (List.length sorted) 200) as [H|H].
    - left. now apply skipn_all2.
    - right. apply firstn_length_le. lia. }
  split.
  { intros a o Ha Ho. exact (SqlFacts.sorted_firstn_skipn newest_first 200 sorted Hsorted a o Ha Ho). }
  assert (E : lookup_vehicle text w
              = (Ok tt,
                 show (match firstn 200 sorted with
                       | [] => InfoNoRecords
                       | _ :: _ => ShowHistory (firstn 200 sorted)
                       end)
                      (after_call w (db w)
                         [Connected (next_handle w);
                          Statement (next_handle w) (sql history_query) [v];
                          Closed (next_handle w)]))).
  { unfold lookup_vehicle. fold v.
    rewrite (truthy_nonempty v Hne). cbn [negb].
    rewrite (bind_ok _ _ _ _ _ (run_query_ok history_query [v] w t _ Hf Hd
                                   (history_query_meaning v (rows t)))).
    fold sorted. now destruct (firstn 200 sorted). }
  rewrite E. cbn [fst snd]. repeat split.
Qed.

(** The lookup of the busy vehicle, typed in lower case after a
    blank.  The page shows the 200 newest of its 201 stops, the
    newest first: the stop of minute 200 down to the stop of minute 1.
    The one stop left out is the oldest, and the later stop of the
    other vehicle is not shown. *)
Lemma vehicle_history_witness :
  strip (upper " rj01ab1234") = "RJ01AB1234"%string
  /\ exists hist omitted : list StopRecord,
       ui (snd (lookup_vehicle " rj01ab1234" busy_world)) = [ShowHistory hist]
       /\ hist = map stop_at_minute (rev (List.seq 1 200))
       /\ Permutation (hist ++ omitted) (map stop_at_minute (List.seq 0 201))
       /\ List.length omitted = 1%nat
       /\ (forall a o, In a hist -> In o omitted ->
                       text_leb (stop_datetime o) (stop_datetime a) = true).
Proof.
  split; [reflexivity|].
  assert (Hne : strip (upper " rj01ab1234") <> ""%string) by (vm_compute; discriminate).
  destruct (vehicle_history " rj01ab1234" busy_world busy_table eq_refl eq_refl eq_refl Hne)
    as (hist & omitted & Hperm & _ & _ & _ & _ & Hold & _ & _ & _ & _ & Hui).
  assert (Hshown : ui (snd (lookup_vehicle " rj01ab1234" busy_world))
                   = [ShowHistory (map stop_at_minute (rev (List.seq 1 200)))])
    by (vm_compute; reflexivity).
  assert (Hh : hist = map stop_at_minute (rev (List.seq 1 200))).
  { rewrite Hshown in Hui. change (ui busy_world) with (@nil Message) in Hui.
    cbn [app] in Hui. destruct hist as [|r hist]; [discriminate Hui|congruence]. }
  assert (Hrows : filter (has_vehicle (strip (upper " rj01ab1234"))) (rows busy_table)
                  = map stop_at_minute (List.seq 0 201)) by (vm_compute; reflexivity).
  rewrite Hrows in Hperm.
  exists hist, omitted.
  split; [rewrite Hh; exact Hshown|].
  split; [exact Hh|]. split; [exact Hperm|]. split; [|exact Hold].
  apply Permutation_length in Hperm. rewrite length_app, length_map, length_seq in Hperm.
  rewrite Hh, length_map, length_rev, length_seq in Hperm. lia.
Defined.

(** ** The stored time text (C10) *)

Lemma new_log_dated (f : Form.Input) :
  PyTime.valid_date (Form.stop_date f) = true ->
  PyTime.valid_time (Form.stop_time f) = true ->
  stop_datetime (new_log f) = Some (PyTime.strftime (Form.stop_date f) (Form.stop_time f))
  /\ SqliteDate.matches SqliteDate.iso_pattern
       (PyTime.strftime (Form.stop_date f) (Form.stop_time f)) = true
  /\ SqliteDate.year_of (stop_datetime (new_log f)) = Some (PyTime.year (Form.stop_date f))
  /\ SqliteDate.month_of (stop_datetime (new_log f)) = Some (PyTime.month (Form.stop_date f))
  /\ SqliteDate.hour_of (stop_datetime (new_log f)) = Some (PyTime.hour (Form.stop_time f)).
Proof.
  intros Hd Ht. unfold new_log. cbn [stop_datetime].
  unfold SqliteDate.year_of, SqliteDate.month_of, SqliteDate.hour_of, SqliteDate.field_of.
  rewrite (TimeFacts.parse_strftime _ _ Hd Ht).
  repeat split. apply TimeFacts.strftime_shape.
Qed.

(** C10. For a form whose date and time are values of [datetime.date]
    and [datetime.time], with a year of four digits: the tuple of the
    form carries [stop_datetime] as the text [YYYY-MM-DD HH:MM:SS] of
    that date and time; SQLite's year, month and hour of the text are
    defined and are the year and month of the date and the hour of
    the time; and that tuple is the only row a submission adds.
    Hence every row of a table filled by submissions alone has a
    [stop_datetime] of the fixed shape with a defined year, month and
    hour. *)
Theorem ingested_datetime_format
  (f : Form.Input) (w w' : World) (r : outcome unit)
  (fs : list Form.Input) (env : list (option exn)) (t : TableData) :
  (PyTime.valid_date (Form.stop_date f) = true ->
   1000 <= PyTime.year (Form.stop_date f) ->
   PyTime.valid_time (Form.stop_time f) = true ->
   stop_datetime (new_log f) = Some (PyTime.strftime (Form.stop_date f) (Form.stop_time f))
   /\ SqliteDate.matches SqliteDate.iso_pattern
        (PyTime.strftime (Form.stop_date f) (Form.stop_time f)) = true
   /\ SqliteDate.year_of (stop_datetime (new_log f)) = Some (PyTime.year (Form.stop_date f))
   /\ SqliteDate.month_of (stop_datetime (new_log f)) = Some (PyTime.month (Form.stop_date f))
   /\ SqliteDate.hour_of (stop_datetime (new_log f)) = Some (PyTime.hour (Form.stop_time f))
   /\ (submit f w = (r, w') -> db w' <> db w ->
       exists t0, db w = Some t0 /\ db w' = Some (appended t0 (new_log f))))
  /\ ((forall g, In g fs -> PyTime.valid_date (Form.stop_date g) = true
                            /\ 1000 <= PyTime.year (Form.stop_date g)
                            /\ PyTime.valid_time (Form.stop_time g) = true) ->
      db (session fs (ready env)) = Some t -> Forall well_dated (rows t)).
Proof.
  split.
  - intros Hd _ Ht. destruct (new_log_dated f Hd Ht) as (H1 & H2 & H3 & H4 & H5).
    repeat split; try assumption.
    intros E Hne. destruct (submit_effect f w w' r E) as (_ & [H|(t0 & _ & Ht0 & Ht1)]).
    + contradiction.
    + now exists t0.
  - intros Hfs. apply session_keeps; [|apply ready_has_no_rows].
    intros g rowid Hg. destruct (Hfs g Hg) as (Hd & _ & Ht).
    destruct (new_log_dated g Hd Ht) as (H1 & H2 & H3 & H4 & H5).
    exists (PyTime.strftime (Form.stop_date g) (Form.stop_time g)).
    cbn [fields]. rewrite H1 in H3, H4, H5.
    split; [exact H1|]. split; [exact H2|].
    exists (PyTime.year (Form.stop_date g)), (PyTime.month (Form.stop_date g)),
           (PyTime.hour (Form.stop_time g)).
    repeat split; assumption.
Qed.

Lemma ingested_datetime_format_witness :
  stop_datetime (new_log sample_form) = Some "2024-02-29 21:05:09"%string
  /\ SqliteDate.year_of (stop_datetime (new_log sample_form)) = Some 2024
  /\ SqliteDate.month_of (stop_datetime (new_log sample_form)) = Some 2
  /\ SqliteDate.hour_of (stop_datetime (new_log sample_form)) = Some 21
  /\ Forall well_dated (rows (appended empty_table (new_log sample_form))).
Proof.
  assert (Hy : 1000 <= PyTime.year (Form.stop_date sample_form)) by (simpl; lia).
  destruct (ingested_datetime_format sample_form (ready []) (ready []) (Ok tt)
              [sample_form] [] (appended empty_table (new_log sample_form)))
    as [H1 H2].
  destruct (H1 eq_refl Hy eq_refl) as (E1 & _ & E3 & E4 & E5 & _).
  repeat split; try assumption.
  apply H2; [|reflexivity].
  intros g [<-|[]]. split; [reflexivity|]. split; [exact Hy|reflexivity].
Defined.

End LedgerFacts.

(* ================================================================== *)
(** * Further facts about the store helpers *)
(* ================================================================== *)

Module StoreLaws.
Import Store StoreFacts.

(** X1. [run_query] only reads, under any environment: the table, the
    open connections and the page are as before, one connection
    handle at most is used up, and a returned frame is the meaning of
    the statement over the rows of the stored table. *)
Theorem run_query_reads_committed_rows {A : Type} (q : Query A)
  (params : list string) (w : World) :
  db (snd (run_query q params w)) = db w
  /\ conns (snd (run_query q params w)) = conns w
  /\ ui (snd (run_query q params w)) = ui w
  /\ (next_handle w <= next_handle (snd (run_query q params w)) <= S (next_handle w))%nat
  /\ (forall df, fst (run_query q params w) = Ok df ->
        exists t, db w = Some t /\ denote q params (rows t) = Some df).
Proof.
  rewrite run_query_params.
  destruct w as [d c n f tr u]. run_store. split_faults; simpl;
    repeat split; auto; try lia; try discriminate.
  all: intros df H; inversion H; subst; eexists; split; [reflexivity|assumption].
Qed.

Lemma max_stop_id_bound (rs : list StopRecord) (r : StopRecord) :
  In r rs -> stop_id r <= max_stop_id rs.
Proof.
  induction rs as [|x l IH]; [contradiction|].
  simpl. intros [->|Hr]; [lia|]. specialize (IH Hr). lia.
Qed.

(** X2. [insert_log] stores the row or nothing, under any environment:
    when it returns a key, the table is the old one with the one row
    of that key appended; when it raises, the table is as before (a
    statement that ran before a failed commit is rolled back when the
    connection closes).  Either way no connection stays open. *)
Theorem insert_log_all_or_nothing (v : Values) (w : World) :
  conns (snd (insert_log v w)) = conns w
  /\ (forall rowid, fst (insert_log v w) = Ok rowid ->
        exists t, db w = Some t
                  /\ db (snd (insert_log v w))
                     = Some (mkTable (rows t ++ [mkStop rowid v]) rowid)
                  /\ Forall (fun r => stop_id r < rowid) (rows t))
  /\ (forall e, fst (insert_log v w) = Raise e -> db (snd (insert_log v w)) = db w).
Proof.
  destruct w as [d c n f tr u]. run_store. split_faults; simpl;
    repeat split; auto; try discriminate.
  all: intros rowid H; inversion H; subst; eexists; repeat split.
  all: apply Forall_forall; intros r Hr.
  all: pose proof (max_stop_id_bound _ _ Hr); lia.
Qed.



(** X4. [init_db] creates the table only when it is absent: a table
    that exists keeps its rows and its key counter under any
    environment; on a file without table, and with no failure, the
    empty table is made; and whatever fails, a missing table is either
    still missing or the empty table. *)
Theorem init_db_creates_only_if_absent (w : World) :
  (forall t, db w = Some t -> db (snd (init_db w)) = Some t)
  /\ (db w = None -> faults w = [] ->
      init_db w
      = (Ok tt, after_call w (Some empty_table)
                  [Connected (next_handle w);
                   Statement (next_handle w) create_table_sql [];
                   Committed (next_handle w);
                   Closed (next_handle w)]))
  /\ (db w = None ->
      db (snd (init_db w)) = None \/ db (snd (init_db w)) = Some empty_table).
Proof.
  destruct w as [d c n f tr u]. simpl. repeat split.
  - intros t ->. run_store. split_faults; reflexivity.
  - intros -> ->. run_store. unfold after_call. simpl. now rewrite <- !app_assoc.
  - intros ->. run_store. split_faults; auto.
Qed.








End StoreLaws.

(* ================================================================== *)
(** * Further facts about the string operations *)
(* ================================================================== *)

Module PyStrLaws.
Import PyStr PyStrShape.

Lemma upper_char_idem (c : ascii) : upper_char (upper_char c) = upper_char c.
Proof. destruct c as [[] [] [] [] [] [] [] []]; reflexivity. Qed.

Lemma isspace_upper_char (c : ascii) : isspace (upper_char c) = isspace c.
Proof. destruct c as [[] [] [] [] [] [] [] []]; reflexivity. Qed.

Lemma upper_idem (s : string) : upper (upper s) = upper s.
Proof.
  induction s as [|c s IH]; simpl; [reflexivity|].
  now rewrite upper_char_idem, IH.
Qed.

Lemma upper_lstrip (s : string) : upper (lstrip s) = lstrip (upper s).
Proof.
  induction s as [|c s IH]; simpl; [reflexivity|].
  rewrite isspace_upper_char. now destruct (isspace c).
Qed.

Lemma upper_rstrip (s : string) : upper (rstrip s) = rstrip (upper s).
Proof.
  induction s as [|c s IH]; simpl; [reflexivity|].
  rewrite <- IH, isspace_upper_char.
  destruct (rstrip s); simpl; [now destruct (isspace c)|reflexivity].
Qed.

Lemma upper_strip (s : string) : upper (strip s) = strip (upper s).
Proof. unfold strip. now rewrite upper_rstrip, upper_lstrip. Qed.

Lemma lstrip_no_leading_blank (s : string) : no_leading_blank (lstrip s).
Proof.
  induction s as [|c s IH]; simpl; [exact I|].
  destruct (isspace c) eqn:E; [assumption|exact E].
Qed.

Lemma lstrip_fixed (s : string) : no_leading_blank s -> lstrip s = s.
Proof. destruct s as [|c s]; simpl; [reflexivity|]. now intros ->. Qed.

Lemma rstrip_no_leading_blank (s : string) :
  no_leading_blank s -> no_leading_blank (rstrip s).
Proof.
  destruct s as [|c s]; simpl; [trivial|]. intros H.
  destruct (rstrip s); simpl; [now rewrite H|assumption].
Qed.

Lemma rstrip_idem (s : string) : rstrip (rstrip s) = rstrip s.
Proof.
  induction s as [|c s IH]; simpl; [reflexivity|].
  destruct (rstrip s) as [|d r] eqn:E.
  - destruct (isspace c) eqn:Ec; simpl; [reflexivity|now rewrite Ec].
  - change (rstrip (String c (String d r)) = String c (String d r)).
    cbn [rstrip] in IH |- *. rewrite IH. reflexivity.
Qed.

(** [strip] once is enough. *)
Lemma strip_idem (s : string) : strip (strip s) = strip s.
Proof.
  unfold strip.
  rewrite (lstrip_fixed (rstrip (lstrip s))).
  - apply rstrip_idem.
  - apply rstrip_no_leading_blank, lstrip_no_leading_blank.
Qed.

Lemma rstrip_empty (s : string) : rstrip s = EmptyString <-> all_blank s = true.
Proof.
  induction s as [|c s IH]; simpl; [tauto|].
  destruct (rstrip s) as [|d r].
  - destruct (isspace c); simpl; [|split; discriminate].
    split; intros _; [now apply IH|reflexivity].
  - split; [discriminate|]. intros H. apply andb_true_iff in H as [_ H].
    apply IH in H. discriminate.
Qed.

Lemma lstrip_all_blank (s : string) : all_blank (lstrip s) = all_blank s.
Proof.
  induction s as [|c s IH]; simpl; [reflexivity|].
  destruct (isspace c) eqn:E; simpl; [assumption|now rewrite E].
Qed.

Lemma strip_empty (s : string) : strip s = EmptyString <-> all_blank s = true.
Proof. unfold strip. now rewrite rstrip_empty, lstrip_all_blank. Qed.

Lemma all_blank_upper (s : string) : all_blank (upper s) = all_blank s.
Proof.
  induction s as [|c s IH]; simpl; [reflexivity|].
  now rewrite isspace_upper_char, IH.
Qed.

(** ASCII text stays ASCII under [upper] and [strip]. *)
Lemma is_ascii_upper_char (c : ascii) : is_ascii_char (upper_char c) = is_ascii_char c.
Proof. destruct c as [[|] [|] [|] [|] [|] [|] [|] [|]]; reflexivity. Qed.

Lemma is_ascii_upper (s : string) : is_ascii (upper s) = is_ascii s.
Proof.
  induction s as [|c s IH]; [reflexivity|].
  cbn [upper is_ascii]. now rewrite is_ascii_upper_char, IH.
Qed.

Lemma is_ascii_lstrip (s : string) : is_ascii s = true -> is_ascii (lstrip s) = true.
Proof.
  induction s as [|c s IH]; [reflexivity|].
  intros H. cbn [lstrip]. destruct (isspace c); [|exact H].
  apply IH. cbn [is_ascii] in H. now apply andb_true_iff in H.
Qed.

Lemma is_ascii_rstrip (s : string) : is_ascii s = true -> is_ascii (rstrip s) = true.
Proof.
  induction s as [|c s IH]; [reflexivity|].
  intros H. cbn [is_ascii] in H. apply andb_true_iff in H as [Hc Hs].
  cbn [rstrip]. specialize (IH Hs). destruct (rstrip s) as [|c' r].
  - destruct (isspace c); [reflexivity|]. cbn [is_ascii]. now rewrite Hc.
  - cbn [is_ascii] in *. now rewrite Hc, IH.
Qed.

Lemma is_ascii_strip (s : string) : is_ascii s = true -> is_ascii (strip s) = true.
Proof. intros H. unfold strip. now apply is_ascii_rstrip, is_ascii_lstrip. Qed.

End PyStrLaws.

(* ================================================================== *)
(** * Further facts about the ledger *)
(* ================================================================== *)

Module LedgerLaws.
Import PyStr PyStrFacts PyStrShape PyStrLaws Store Sql Ledger LedgerShape.
Import StoreFacts StoreLaws LedgerFacts.

Lemma normalize_upper (s : string) : upper (normalize s) = normalize s.
Proof. unfold normalize. now rewrite upper_strip, upper_idem. Qed.

Lemma normalize_strip (s : string) : strip (normalize s) = normalize s.
Proof. unfold normalize. apply strip_idem. Qed.

Lemma normalize_idem (s : string) : normalize (normalize s) = normalize s.
Proof. unfold normalize at 1. now rewrite normalize_upper, normalize_strip. Qed.

Lemma accepted_length (f : Form.Input) :
  accepted f = true -> 4 <= len (normalize (Form.vehicle_number f)).
Proof.
  unfold accepted. intros H. apply negb_true_iff, orb_false_iff in H as [_ H].
  now apply Z.ltb_ge in H.
Qed.

(** What holds of the empty table and is kept by appending the tuple
    of a form that is taken, holds of every table a session makes. *)
Lemma submit_table_invariant (I : TableData -> Prop) (f : Form.Input) (w : World) :
  (forall t g, accepted g = true -> I t -> I (appended t (new_log g))) ->
  (forall t, db w = Some t -> I t) ->
  forall t, db (snd (submit f w)) = Some t -> I t.
Proof.
  intros Happ Hw t Ht.
  destruct (submit f w) as [r w'] eqn:E. simpl in Ht.
  destruct (submit_effect f w w' r E) as (_ & [H|(t0 & Ha & H0 & H1)]).
  - apply Hw. congruence.
  - rewrite H1 in Ht. inversion Ht; subst. apply Happ; [assumption|now apply Hw].
Qed.

Lemma session_table_invariant (I : TableData -> Prop)
  (fs : list Form.Input) (w : World) :
  (forall t g, accepted g = true -> I t -> I (appended t (new_log g))) ->
  (forall t, db w = Some t -> I t) ->
  forall t, db (session fs w) = Some t -> I t.
Proof.
  intros Happ. revert w. induction fs as [|f fs IH]; intros w Hw; simpl.
  - exact Hw.
  - apply IH. now apply submit_table_invariant.
Qed.

Lemma sorted_snoc (l : list Z) (x : Z) :
  StronglySorted Z.lt l -> Forall (fun y => y < x) l -> StronglySorted Z.lt (l ++ [x]).
Proof.
  induction 1 as [|y l Hs IH Hy]; intros Hx; simpl.
  - repeat constructor.
  - inversion Hx; subst. constructor; [now apply IH|].
    apply Forall_app. split; [assumption|]. now constructor.
Qed.

Lemma sorted_nodup (l : list Z) : StronglySorted Z.lt l -> NoDup l.
Proof.
  induction 1 as [|y l Hs IH Hy]; constructor; [|assumption].
  intros Hin. rewrite Forall_forall in Hy. specialize (Hy y Hin). lia.
Qed.

Lemma appended_keys_in_order (t : TableData) (v : Values) :
  keys_in_order t -> keys_in_order (appended t v).
Proof.
  intros [Hs Hb]. unfold keys_in_order, appended. cbn [rows seq].
  assert (Hlt : Forall (fun r => stop_id r < Z.max (seq t) (max_stop_id (rows t)) + 1) (rows t)).
  { apply Forall_forall. intros r Hr. pose proof (max_stop_id_bound _ _ Hr). lia. }
  split.
  - rewrite map_app. apply sorted_snoc; [assumption|].
    apply Forall_forall. intros y Hy. apply in_map_iff in Hy as (r & <- & Hr).
    rewrite Forall_forall in Hlt. now apply Hlt.
  - apply Forall_app. split.
    + rewrite Forall_forall in *. intros r Hr.
      specialize (Hb r Hr). specialize (Hlt r Hr). lia.
    + constructor; [|constructor]. cbn [stop_id].
      assert (0 <= max_stop_id (rows t)).
      { clear. induction (rows t); simpl; lia. }
      lia.
Qed.

(** X5. In a table filled by submissions alone, whatever the forms and
    whatever fails, the keys [stop_id] grow strictly along the rows:
    they are positive, no two rows share one, and none exceeds the
    key counter. *)
Theorem stop_ids_increase
  (fs : list Form.Input) (env : list (option exn)) (t : TableData) :
  db (session fs (ready env)) = Some t ->
  StronglySorted Z.lt (map stop_id (rows t))
  /\ NoDup (map stop_id (rows t))
  /\ Forall (fun r => 0 < stop_id r <= seq t) (rows t).
Proof.
  intros Ht.
  assert (H : keys_in_order t).
  { apply (session_table_invariant keys_in_order fs (ready env)); [| |exact Ht].
    - intros t0 g _. apply appended_keys_in_order.
    - simpl. intros t0 E. inversion E. split; constructor. }
  destruct H as [Hs Hb]. repeat split; try assumption. now apply sorted_nodup.
Qed.

Lemma stop_ids_increase_witness :
  NoDup (map stop_id
           (rows (appended (appended empty_table (new_log sample_form))
                           (new_log sample_form)))).
Proof.
  refine (proj1 (proj2 (stop_ids_increase [sample_form; sample_form] [] _ _))).
  vm_compute. reflexivity.
Defined.

Lemma new_log_vehicle_normal (f : Form.Input) (rowid : Z) :
  accepted f = true -> vehicle_normal (mkStop rowid (new_log f)).
Proof.
  intros Ha. exists (normalize (Form.vehicle_number f)).
  split; [reflexivity|]. split; [apply normalize_upper|].
  split; [apply normalize_strip|now apply accepted_length].
Qed.

Lemma new_log_no_null (f : Form.Input) (rowid : Z) : no_null (mkStop rowid (new_log f)).
Proof. unfold no_null, new_log. cbn. repeat split; discriminate. Qed.

(** What every form of a session that is taken gives to its row,
    every row of the table has; the table starts empty. *)
Lemma submit_adds (P : StopRecord -> Prop) (f : Form.Input) (w : World) :
  (forall rowid, accepted f = true -> P (mkStop rowid (new_log f))) ->
  (forall t, db w = Some t -> Forall P (rows t)) ->
  forall t, db (snd (submit f w)) = Some t -> Forall P (rows t).
Proof.
  intros Hf Hw t Ht.
  destruct (submit f w) as [r w'] eqn:E. simpl in Ht.
  destruct (submit_effect f w w' r E) as (_ & [H|(t0 & Ha & H0 & H1)]).
  - apply Hw. congruence.
  - rewrite H1 in Ht. inversion Ht; subst. unfold appended. cbn [rows].
    apply Forall_app. split; [now apply Hw|]. constructor; [now apply Hf|constructor].
Qed.

Lemma session_adds (P : StopRecord -> Prop) (fs : list Form.Input) (w : World) :
  (forall f rowid, In f fs -> accepted f = true -> P (mkStop rowid (new_log f))) ->
  (forall t, db w = Some t -> Forall P (rows t)) ->
  forall t, db (session fs w) = Some t -> Forall P (rows t).
Proof.
  revert w. induction fs as [|f fs IH]; intros w Hfs Hw; simpl.
  - exact Hw.
  - apply IH.
    + intros g rowid Hg. apply Hfs. now right.
    + apply submit_adds; [|assumption]. intros rowid. apply Hfs. now left.
Qed.

(** X6. In a table filled by submissions alone, of forms whose
    vehicle text is ASCII, whatever fails: every row has a vehicle
    number in normal form -- ASCII, in upper case, no blank around it,
    four characters at least, so that putting it in upper case and
    stripping it again changes nothing -- and no field is [NULL].
    (For ASCII text [upper], [strip] and the length are Python's.) *)
Theorem stored_rows_normal
  (fs : list Form.Input) (env : list (option exn)) (t : TableData) :
  (forall f, In f fs -> is_ascii (Form.vehicle_number f) = true) ->
  db (session fs (ready env)) = Some t ->
  Forall (fun r => vehicle_normal r /\ no_null r
                   /\ forall v, vehicle_number r = Some v ->
                                is_ascii v = true /\ strip (upper v) = v)
         (rows t).
Proof.
  intros Hascii. apply session_adds; [|apply ready_has_no_rows].
  intros g rowid Hg Ha.
  split; [now apply new_log_vehicle_normal|]. split; [apply new_log_no_null|].
  intros v Hv. cbn in Hv. inversion Hv. split.
  - unfold normalize. apply is_ascii_strip. rewrite is_ascii_upper. now apply Hascii.
  - apply normalize_idem.
Qed.

Lemma stored_rows_normal_witness :
  Forall (fun r => vehicle_normal r /\ no_null r
                   /\ forall v, vehicle_number r = Some v ->
                                is_ascii v = true /\ strip (upper v) = v)
         (rows (appended empty_table (new_log sample_form)))
  /\ vehicle_number (new_log sample_form) = Some "RJ01AB1234"%string.
Proof.
  split; [|reflexivity].
  apply (stored_rows_normal [sample_form] []).
  - intros f [<-|[]]. reflexivity.
  - vm_compute. reflexivity.
Defined.







(** X10. For a lookup text in ASCII.  The text is empty once in
    upper case and stripped exactly when it holds blanks only (or
    nothing at all); such a text is refused with "Enter a vehicle
    number." and nothing reaches the store: the world is the old one
    with that message.  Any other text passes the check: under any
    environment the page then shows the history, "no records", or
    nothing when the query raises.  (For ASCII text [upper] and
    [strip] are Python's, and the blanks are tab, line feed, vertical
    tab, form feed, carriage return, the separators 28 to 31 and the
    space.) *)
Theorem blank_lookup_refused (text : string) (w : World) :
  is_ascii text = true ->
  (all_blank text = true <-> strip (upper text) = ""%string)
  /\ (all_blank text = true ->
      lookup_vehicle text w = (Ok tt, show ErrorEnterVehicle w))
  /\ (all_blank text = false ->
      db (snd (lookup_vehicle text w)) = db w
      /\ ((exists e, fst (lookup_vehicle text w) = Raise e)
             /\ ui (snd (lookup_vehicle text w)) = ui w
          \/ ui (snd (lookup_vehicle text w)) = ui w ++ [InfoNoRecords]
          \/ exists x hist, ui (snd (lookup_vehicle text w))
                            = ui w ++ [ShowHistory (x :: hist)])).
Proof.
  intros _. change (strip (upper text)) with (normalize text).
  assert (E : normalize text = ""%string <-> all_blank text = true).
  { unfold normalize. now rewrite strip_empty, all_blank_upper. }
  split; [symmetry; exact E|]. split.
  - intros H. apply E in H. unfold lookup_vehicle. now rewrite H.
  - intros H. assert (Hne : normalize text <> ""%string).
    { intros H'. apply E in H'. congruence. }
    unfold lookup_vehicle. rewrite (truthy_nonempty _ Hne). cbn [negb].
    unfold bind.
    pose proof (run_query_frame history_query [normalize text] w) as F.
    destruct (run_query history_query [normalize text] w) as [[[|x hist]|e] w1];
      cbv zeta in F; cbn [fst snd] in F; destruct F as (D & _ & U);
      cbn [fst snd st modify show db ui]; (split; [assumption|]).
    + right; left. now rewrite U.
    + right; right. exists x, hist. now rewrite U.
    + left. split; [now exists e|assumption].
Qed.

(** A lookup text of a blank and a tab. *)
Lemma blank_lookup_refused_witness :
  strip (upper (String " " (String "009" ""))) = ""%string
  /\ lookup_vehicle (String " " (String "009" "")) (ready [])
     = (Ok tt, show ErrorEnterVehicle (ready [])).
Proof.
  destruct (blank_lookup_refused (String " " (String "009" "")) (ready []) eq_refl)
    as (H1 & H2 & _).
  split; [now apply H1|now apply H2].
Defined.

Lemma fold_add_case (flag : StopRecord -> option Z) (l : list StopRecord) (acc : Z) :
  fold_left Z.add (map (fun r : StopRecord => case_is_one (flag r)) l) acc
  = acc + Rates.count_ones flag l.
Proof.
  unfold Rates.count_ones. revert acc.
  induction l as [|r l IH]; intros acc; cbn [map fold_left filter].
  - cbn [List.length]. lia.
  - rewrite IH, RatesFacts.case_is_one_spec.
    destruct (Rates.is_one (flag r)); cbn [List.length]; rewrite ?Nat2Z.inj_succ; lia.
Qed.

Lemma sum_int_case (flag : StopRecord -> option Z) (l : list StopRecord) :
  l <> [] ->
  sum_int (map (fun r : StopRecord => case_is_one (flag r)) l)
  = Some (Rates.count_ones flag l).
Proof.
  destruct l as [|r l]; [congruence|]. intros _.
  unfold sum_int. cbn [map]. f_equal.
  change (case_is_one (flag r) :: map (fun r0 : StopRecord => case_is_one (flag r0)) l)
    with (map (fun r0 : StopRecord => case_is_one (flag r0)) (r :: l)).
  now rewrite fold_add_case.
Qed.

Lemma distinct_text_spec (xs : list (option string)) (seen : list string) :
  NoDup seen ->
  NoDup (distinct_text xs seen)
  /\ forall v, In v (distinct_text xs seen) <-> In v seen \/ In (Some v) xs.
Proof.
  revert seen. induction xs as [|[x|] xs IH]; intros seen Hnd; cbn [distinct_text].
  - split; [assumption|]. intros v. simpl. tauto.
  - destruct (existsb (String.eqb x) seen) eqn:E.
    + destruct (IH seen Hnd) as [H1 H2]. split; [assumption|].
      intros v. rewrite H2. simpl. split; [tauto|].
      intros [H|[H|H]]; auto. inversion H; subst. left.
      apply existsb_exists in E as (y & Hy & Exy).
      apply String.eqb_eq in Exy. now subst.
    + assert (Hnd' : NoDup (seen ++ [x])).
      { apply NoDup_app; [assumption|repeat constructor; intros []|].
        intros y Hy [<-|[]].
        assert (existsb (String.eqb x) seen = true); [|congruence].
        apply existsb_exists. exists x. split; [assumption|apply String.eqb_refl]. }
      destruct (IH (seen ++ [x]) Hnd') as [H1 H2]. split; [assumption|].
      intros v. rewrite H2, in_app_iff. simpl. split.
      * intros [[H|[H|[]]]|H]; auto. subst. auto.
      * intros [H|[H|H]]; auto. inversion H; subst. auto.
  - destruct (IH seen Hnd) as [H1 H2]. split; [assumption|].
    intros v. rewrite H2. simpl. split; [tauto|].
    intros [H|[H|H]]; auto. discriminate.
Qed.

(** X11. On a table with at least one row, and when SQLite raises
    nothing, the KPI row completes and shows four figures: the number
    of rows; the number of rows with [is_arrested = 1]; the number of
    rows with [drugs_related_stop = 1] divided by the number of rows,
    times 100; and the number of distinct vehicle numbers, [NULL] not
    counted.  The table is not changed. *)
Theorem kpi_row_on_stored_rows (w : World) (t : TableData) :
  faults w = [] -> db w = Some t -> rows t <> [] ->
  exists vehicles,
    NoDup vehicles
    /\ (forall v, In v vehicles <-> exists r, In r (rows t) /\ vehicle_number r = Some v)
    /\ fst (kpi_row w) = Ok tt
    /\ db (snd (kpi_row w)) = db w
    /\ conns (snd (kpi_row w)) = conns w
    /\ ui (snd (kpi_row w))
       = ui w ++ [MetricInt "Total Stops" (Rates.size (rows t));
                  MetricInt "Total Arrests"
                    (Rates.count_ones (fun r => is_arrested r) (rows t));
                  MetricReal "Drug-related %"
                    (real (Rates.count_ones (fun r => drugs_related_stop r) (rows t))
                     / real (Rates.size (rows t)) * 100.0)%float;
                  MetricInt "Unique Vehicles" (Z.of_nat (List.length vehicles))].
Proof.
  intros Hf Hd Hne.
  set (vs := distinct_text (map (fun r : StopRecord => vehicle_number r) (rows t)) []).
  destruct (distinct_text_spec (map (fun r : StopRecord => vehicle_number r) (rows t)) []
              (NoDup_nil _)) as [Hnd Hin].
  exists vs. split; [exact Hnd|]. split.
  { intros v. unfold vs. rewrite Hin, in_map_iff. simpl. split.
    - intros [[]|(r & E & Hr)]. now exists r.
    - intros (r & Hr & E). right. now exists r. }
  cut (exists w', kpi_row w = (Ok tt, w') /\ db w' = db w /\ conns w' = conns w
                  /\ ui w' = ui w ++ [MetricInt "Total Stops" (Rates.size (rows t));
                       MetricInt "Total Arrests"
                         (Rates.count_ones (fun r => is_arrested r) (rows t));
                       MetricReal "Drug-related %"
                         (real (Rates.count_ones (fun r => drugs_related_stop r) (rows t))
                          / real (Rates.size (rows t)) * 100.0)%float;
                       MetricInt "Unique Vehicles" (Z.of_nat (List.length vs))]).
  { intros (w' & E & H1 & H2 & H3). rewrite E. repeat split; assumption. }
  assert (Hlen : 0 < Rates.size (rows t)).
  { unfold Rates.size. destruct (rows t); [congruence|]. cbn [List.length]. lia. }
  assert (Hk : denote kpi_query [] (rows t)
               = Some (mkKpis (Rates.size (rows t))
                         (Some (Rates.count_ones (fun r => is_arrested r) (rows t)))
                         (Some (Rates.count_ones (fun r => drugs_related_stop r) (rows t))))).
  { cbn [denote kpi_query]. now rewrite !sum_int_case by assumption. }
  unfold kpi_row, load_kpis.
  rewrite (bind_ok _ _ _ _ _ (run_query_ok kpi_query [] w t _ Hf Hd Hk)).
  cbn [total_stops total_arrests total_drug_stops py_int].
  unfold drug_rate. cbn [total_stops total_drug_stops py_int].
  assert (G : (Rates.size (rows t) >? 0) = true) by (rewrite Z.gtb_ltb; now apply Z.ltb_lt).
  rewrite G. unfold py_truediv.
  assert (G0 : (Rates.size (rows t) =? 0) = false) by (apply Z.eqb_neq; lia).
  unfold bind at 1, ret at 1. unfold bind at 1, st at 1, modify at 1.
  unfold bind at 1, ret at 1. unfold bind at 1, st at 1, modify at 1.
  unfold bind at 1. unfold bind at 1, ret at 1. unfold bind at 1, ret at 1.
  unfold bind at 1. rewrite G0. unfold ret at 1. unfold ret at 1.
  unfold bind at 1, st at 1, modify at 1.
  erewrite bind_ok.
  2:{ apply (run_query_ok unique_vehicles_query [] _ t); [exact Hf|exact Hd|].
      cbn [denote unique_vehicles_query]. fold vs. reflexivity. }
  unfold st, modify. eexists. split; [reflexivity|].
  unfold after_call, show. cbn [db conns ui].
  rewrite <- !app_assoc. repeat split; try assumption.
Qed.

Lemma kpi_row_on_stored_rows_witness :
  fst (kpi_row (snd (submit sample_form (ready [])))) = Ok tt.
Proof.
  destruct (kpi_row_on_stored_rows (snd (submit sample_form (ready [])))
              (appended empty_table (new_log sample_form)) eq_refl eq_refl)
    as (vs & _ & _ & H & _).
  - discriminate.
  - exact H.
Defined.

End LedgerLaws.

(* ================================================================== *)
(** * Further facts about the country filter *)
(* ================================================================== *)

Module CatalogLaws.
Import PyStr PyStrFacts PyStrShape Catalog CatalogFacts.

Lemma marks_app (a b : string) : marks (a ++ b) = (marks a + marks b)%nat.
Proof.
  induction a as [|c a IH]; simpl; [reflexivity|].
  rewrite IH. now destruct (Ascii.eqb c "?").
Qed.

Lemma marks_inserted (old new s : string) (i : nat) :
  find old s = Some i ->
  (marks (take i s ++ new ++ drop (i + String.length old) s) + marks old
   = marks s + marks new)%nat.
Proof.
  intros Hf. pose proof (f_equal marks (find_split _ _ _ Hf)) as E.
  rewrite !marks_app in *. lia.
Qed.

(** X12. The rewrite on any statement text, not only the catalog's.
    With a filter and a text that mentions [country_name], the filter
    is always bound as the one parameter.  The text gets its one [?]
    after the first upper-case [WHERE] when there is one, else before
    the first [GROUP BY] when no [WHERE] occurs in any case of
    letters.  In the two remaining cases -- a [where] in lower or
    mixed case only, or neither [WHERE] nor [GROUP BY] -- the text is
    left as it is and has one [?] fewer than there are parameters.
    Without filter, or without [country_name], text and parameters
    are untouched. *)
Theorem country_filter_on_any_text (q cf : string) :
  (cf = ""%string \/ contains "country_name" q = false ->
   inject_country_filter q cf = (q, []))
  /\ (cf <> ""%string -> contains "country_name" q = true ->
      snd (inject_country_filter q cf) = [cf]
      /\ (forall i, find "WHERE" q = Some i ->
            fst (inject_country_filter q cf)
            = (take i q ++ "WHERE country_name = ? AND " ++ drop (i + 5) q)%string
            /\ marks (fst (inject_country_filter q cf)) = S (marks q))
      /\ (forall i, contains "WHERE" (upper q) = false ->
            find "GROUP BY" q = Some i ->
            fst (inject_country_filter q cf)
            = (take i q ++ "WHERE country_name = ? GROUP BY" ++ drop (i + 8) q)%string
            /\ marks (fst (inject_country_filter q cf)) = S (marks q))
      /\ (find "WHERE" q = None ->
          contains "WHERE" (upper q) = true
          \/ find "GROUP BY" q = None ->
          fst (inject_country_filter q cf) = q)).
Proof.
  split.
  - intros [->|H]; [apply inject_empty_filter|now apply inject_without_country].
  - intros Hcf Hc.
    assert (Hp : snd (inject_country_filter q cf) = [cf]).
    { unfold inject_country_filter. rewrite Hc, (truthy_nonempty _ Hcf). reflexivity. }
    split; [exact Hp|]. split; [|split].
    + intros i Hw. rewrite (inject_where q cf i Hc Hcf Hw). cbn [fst]. split; [reflexivity|].
      pose proof (marks_inserted "WHERE" "WHERE country_name = ? AND " q i Hw) as E.
      change (marks "WHERE") with O in E.
      change (marks "WHERE country_name = ? AND ") with 1%nat in E.
      change (String.length "WHERE") with 5%nat in E. lia.
    + intros i Hu Hg. rewrite (inject_group_by q cf i Hc Hcf Hu Hg). cbn [fst].
      split; [reflexivity|].
      pose proof (marks_inserted "GROUP BY" "WHERE country_name = ? GROUP BY" q i Hg) as E.
      change (marks "GROUP BY") with O in E.
      change (marks "WHERE country_name = ? GROUP BY") with 1%nat in E.
      change (String.length "GROUP BY") with 8%nat in E. lia.
    + intros Hw H. unfold inject_country_filter.
      rewrite Hc, (truthy_nonempty _ Hcf). cbn [andb fst].
      destruct (contains "WHERE" (upper q)) eqn:Hu.
      * now apply replace_first_absent.
      * destruct H as [H|H]; [discriminate|]. now apply replace_first_absent.
Qed.

(** A statement with [where] in lower case: the filter is bound, the
    text has no mark for it. *)
Example lower_case_where_keeps_text :
  inject_country_filter
    "SELECT country_name, COUNT(*) FROM police_stop_logs where is_arrested = 1 GROUP BY country_name"
    "India"
  = ("SELECT country_name, COUNT(*) FROM police_stop_logs where is_arrested = 1 GROUP BY country_name"%string,
     ["India"%string]).
Proof. vm_compute. reflexivity. Qed.

Lemma country_filter_on_any_text_witness :
  snd (inject_country_filter
         "SELECT country_name FROM police_stop_logs where is_arrested = 1" "India")
  = ["India"%string]
  /\ fst (inject_country_filter
            "SELECT country_name FROM police_stop_logs where is_arrested = 1" "India")
     = "SELECT country_name FROM police_stop_logs where is_arrested = 1"%string.
Proof.
  assert (Hne : "India"%string <> ""%string) by discriminate.
  destruct (proj2 (country_filter_on_any_text
                     "SELECT country_name FROM police_stop_logs where is_arrested = 1"
                     "India") Hne eq_refl) as (H1 & _ & _ & H4).
  split; [exact H1|]. apply H4; [reflexivity|]. left. reflexivity.
Defined.

End CatalogLaws.

(* ================================================================== *)
(** * Facts about the admin utilities *)
(* ================================================================== *)

Module AdminLaws.
Import PyStr Store Sql Ledger Admin.
Import StoreFacts StoreLaws LedgerFacts.

Lemma handle_below_next (h : nat) : Nat.eqb h (S h) = false.
Proof. apply Nat.eqb_neq. lia. Qed.

(** X13. What recreating the table can come to.  Either the page
    says that the table was recreated: then the table is empty, its
    key counter is back at zero and no connection is left open.  Or
    the page reports an error: then the table is as before, or gone,
    or empty, and the connection that [init_db] opened may be left
    open.  Or opening the handler's own connection failed: the
    exception leaves the handler, and nothing was touched. *)
Theorem recreate_outcomes (w w' : World) (r : outcome Notice) :
  recreate_table w = (r, w') ->
  (r = Ok TableRecreated /\ db w' = Some empty_table /\ conns w' = conns w)
  \/ (exists e, r = Ok (ErrorRecreating e)
                /\ (db w' = db w \/ db w' = None \/ db w' = Some empty_table)
                /\ (conns w' = conns w
                    \/ conns w' = (S (next_handle w), None) :: conns w))
  \/ (exists e, r = Raise e /\ db w' = db w /\ conns w' = conns w
                /\ trace w' = trace w).
Proof.
  destruct w as [d c n f tr u]. unfold recreate_table, drop_if_exists.
  run_store. split_faults; rewrite ?handle_below_next; simpl;
    repeat (rewrite ?lookup_conn_head, ?update_conn_head, ?remove_conn_head,
              ?Nat.eqb_refl, ?handle_below_next; simpl);
    intros H; inversion H; subst; simpl; eauto 10.
Qed.

Lemma recreate_outcomes_witness :
  exists w', recreate_table (mkWorld (Some two_stops) [] 1 [] [] [])
             = (Ok TableRecreated, w')
             /\ db w' = Some empty_table /\ conns w' = [].
Proof.
  destruct (recreate_table (mkWorld (Some two_stops) [] 1 [] [] [])) as [r w'] eqn:E.
  destruct (recreate_outcomes _ _ _ E) as [(H1 & H2 & H3)|[(e & H1 & _)|(e & H1 & _)]].
  - exists w'. rewrite H1. split; [reflexivity|]. split; assumption.
  - exfalso. vm_compute in E. rewrite H1 in E. discriminate E.
  - exfalso. vm_compute in E. rewrite H1 in E. discriminate E.
Defined.

(** X14. Recreating is not all or nothing.  When the [DROP] and its
    commit pass and [init_db] then fails to connect, the page reports
    an error although the table is gone with all its rows; the next
    run of the page, which starts with [init_db], makes an empty table
    with the key counter at zero. *)
Theorem failed_recreate_loses_rows
  (w : World) (t : TableData) (e : exn) :
  db w = Some t -> faults w = [None; None; None; Some e] ->
  exists w', recreate_table w = (Ok (ErrorRecreating e), w')
             /\ db w' = None /\ conns w' = conns w
             /\ init_db w'
                = (Ok tt, after_call w' (Some empty_table)
                            [Connected (next_handle w');
                             Statement (next_handle w') create_table_sql [];
                             Committed (next_handle w');
                             Closed (next_handle w')]).
Proof.
  destruct w as [d c n f tr u]. simpl. intros -> ->.
  eexists. split.
  - unfold recreate_table, drop_if_exists. run_store. reflexivity.
  - simpl. split; [reflexivity|]. split; [reflexivity|].
    run_store. unfold after_call. simpl. now rewrite <- !app_assoc.
Qed.

Lemma failed_recreate_loses_rows_witness :
  exists w', recreate_table (mkWorld (Some two_stops) [] 1
                               [None; None; None; Some locked] [] [])
             = (Ok (ErrorRecreating locked), w')
             /\ db w' = None.
Proof.
  destruct (failed_recreate_loses_rows
              (mkWorld (Some two_stops) [] 1 [None; None; None; Some locked] [] [])
              two_stops locked eq_refl eq_refl) as (w' & H1 & H2 & _).
  exists w'. split; assumption.
Defined.

Lemma recreate_ok (w : World) :
  faults w = [] ->
  exists w', recreate_table w = (Ok TableRecreated, w')
             /\ db w' = Some empty_table /\ faults w' = [].
Proof.
  destruct w as [d c n f tr u]. simpl. intros ->.
  eexists. split.
  - unfold recreate_table, drop_if_exists. run_store. reflexivity.
  - simpl. split; reflexivity.
Qed.

(** X15. After a recreation that nothing disturbs the table is
    empty and its key counter is at zero.  So [insert_log] would hand
    out key 1 again, whatever keys the table had handed out before.
    But the page cannot log on this table: a run of the script in
    which the form is sent stops at the KPI row, which raises at
    [int(kpis["total_arrests"])] after showing "Total Stops"; the
    handler of the form is not reached and the table stays empty. *)
Theorem keys_restart_and_page_stops_after_recreate
  (w : World) (v : Values) (f : Form.Input) :
  faults w = [] ->
  exists w1,
    recreate_table w = (Ok TableRecreated, w1)
    /\ db w1 = Some empty_table
    /\ fst (insert_log v w1) = Ok 1
    /\ db (snd (insert_log v w1)) = Some {| rows := [mkStop 1 v]; seq := 1 |}
    /\ fst (page_with_form f w1) = Raise int_of_none
    /\ db (snd (page_with_form f w1)) = Some empty_table
    /\ ui (snd (page_with_form f w1)) = ui w1 ++ [MetricInt "Total Stops" 0].
Proof.
  destruct w as [d c n fl tr u]. simpl. intros ->.
  eexists. split.
  { unfold recreate_table, drop_if_exists. run_store. reflexivity. }
  split; [reflexivity|].
  split; [run_store; reflexivity|].
  split; [run_store; reflexivity|].
  unfold page_with_form, kpi_row, load_kpis. rewrite run_query_params.
  run_store. unfold py_int. run_store.
  split; [reflexivity|]. split; reflexivity.
Qed.

Lemma keys_restart_and_page_stops_after_recreate_witness :
  exists w1,
    recreate_table (mkWorld (Some two_stops) [] 1 [] [] []) = (Ok TableRecreated, w1)
    /\ fst (insert_log (new_log sample_form) w1) = Ok 1
    /\ fst (page_with_form sample_form w1) = Raise int_of_none
    /\ db (snd (page_with_form sample_form w1)) = Some empty_table.
Proof.
  destruct (keys_restart_and_page_stops_after_recreate
              (mkWorld (Some two_stops) [] 1 [] [] []) (new_log sample_form) sample_form
              eq_refl) as (w1 & H1 & _ & H3 & _ & H5 & H6 & _).
  exists w1. split; [exact H1|]. split; [exact H3|]. split; assumption.
Defined.

End AdminLaws.

(* ================================================================== *)
(** * Facts about the reports that count stops *)
(* ================================================================== *)

Module ReportLaws.
Import Store Sql Rates Ledger Reports.
Import SqlFacts RatesFacts LedgerFacts.

(** ** Groups and their counts *)

Section Groups.
Context {K V : Type}.
Variable key_eqb : K -> K -> bool.
Variable key : StopRecord -> K.
Variable init : V.
Variable step : StopRecord -> V -> V.
Hypothesis key_eqb_eq : forall a b, key_eqb a b = true <-> a = b.

(** Every group has a row. *)
Lemma group_keys_occur (rs : list StopRecord) (k : K) :
  In k (map fst (group_by key_eqb key init step rs)) ->
  exists r, In r rs /\ key r = k.
Proof.
  induction rs as [|r rs IH] using rev_ind.
  - intros [].
  - rewrite group_by_snoc, accumulate_keys.
    destruct (existsb (key_eqb (key r)) (map fst (group_by key_eqb key init step rs))).
    + intros H. destruct (IH H) as (r0 & H0 & E). exists r0. split; [|exact E].
      apply in_or_app. now left.
    + intros H. apply in_app_or in H as [H|[<-|[]]].
      * destruct (IH H) as (r0 & H0 & E). exists r0. split; [|exact E].
        apply in_or_app. now left.
      * exists r. split; [|reflexivity]. apply in_or_app. right. now left.
Qed.

Lemma members_nonempty (rs : list StopRecord) (r : StopRecord) :
  In r rs -> 1 <= size (members key_eqb key (key r) rs).
Proof.
  intros H. unfold size, members.
  assert (In r (filter (fun r0 => key_eqb (key r0) (key r)) rs)) as H1.
  { apply filter_In. split; [exact H|]. now apply key_eqb_eq. }
  destruct (filter (fun r0 => key_eqb (key r0) (key r)) rs); [destruct H1|].
  cbn [List.length]. lia.
Qed.

Lemma members_witness (rs : list StopRecord) (k : K) :
  1 <= size (members key_eqb key k rs) -> exists r, In r rs /\ key r = k.
Proof.
  unfold size, members. intros H.
  destruct (filter (fun r0 => key_eqb (key r0) k) rs) as [|r l] eqn:E.
  - cbn in H. lia.
  - assert (In r (filter (fun r0 => key_eqb (key r0) k) rs)) as H1
      by (rewrite E; now left).
    apply filter_In in H1 as [H1 H2]. exists r. split; [exact H1|].
    now apply key_eqb_eq.
Qed.

End Groups.

Lemma fold_count_rows (l : list StopRecord) (n : Z) :
  fold_left (fun v r => count_rows r v) l n = n + size l.
Proof.
  revert n. unfold size. induction l as [|r l IH]; intros n.
  - simpl. lia.
  - cbn [fold_left]. rewrite IH. unfold count_rows. cbn [List.length]. lia.
Qed.

(** The count of a group is the number of its rows, one at least. *)
Lemma count_group {K : Type} (key_eqb : K -> K -> bool) (key : StopRecord -> K)
  (rs : list StopRecord) (k : K) (n : Z) :
  (forall a b, key_eqb a b = true <-> a = b) ->
  In (k, n) (group_by key_eqb key 0 count_rows rs) ->
  n = size (members key_eqb key k rs) /\ 1 <= n.
Proof.
  intros Heq H.
  destruct (group_by_sound key_eqb key 0 count_rows Heq rs) as (_ & _ & H3).
  pose proof (H3 _ _ H) as E. unfold aggregate_of in E. rewrite fold_count_rows in E.
  assert (En : n = size (members key_eqb key k rs)) by lia.
  split; [exact En|].
  destruct (group_keys_occur key_eqb key 0 count_rows rs k) as (r & Hr & <-).
  { apply in_map_iff. now exists (k, n). }
  rewrite En. now apply members_nonempty.
Qed.

Lemma total_app (a b : list Z) : total (a ++ b) = total a + total b.
Proof. unfold total. induction a as [|x a IH]; simpl; [reflexivity|]. lia. Qed.

Lemma total_perm (a b : list Z) : Permutation a b -> total a = total b.
Proof.
  unfold total. induction 1; simpl; lia.
Qed.

Lemma accumulate_total {K : Type} (key_eqb : K -> K -> bool) (key : StopRecord -> K)
  (r : StopRecord) (gs : list (K * Z)) :
  total (map snd (accumulate key_eqb key 0 count_rows r gs))
  = total (map snd gs) + 1.
Proof.
  unfold total. induction gs as [|[k v] gs IH]; cbn [accumulate].
  - cbn. unfold count_rows. lia.
  - destruct (key_eqb (key r) k); cbn [map snd fold_right].
    + unfold count_rows. lia.
    + rewrite IH. lia.
Qed.

(** Every row is counted in one group. *)
Lemma group_by_total {K : Type} (key_eqb : K -> K -> bool) (key : StopRecord -> K)
  (rs : list StopRecord) :
  total (map snd (group_by key_eqb key 0 count_rows rs)) = size rs.
Proof.
  induction rs as [|r rs IH] using rev_ind.
  - reflexivity.
  - rewrite group_by_snoc, accumulate_total, IH. unfold size.
    rewrite length_app. cbn [List.length]. lia.
Qed.

Lemma most_first_total {K : Type} (a b : K * Z) :
  most_first a b = true \/ most_first b a = true.
Proof. unfold most_first. destruct (Z.leb_spec (snd b) (snd a)); [now left|right]. apply Z.leb_le. lia. Qed.

Lemma most_first_trans {K : Type} (a b c : K * Z) :
  most_first a b = true -> most_first b c = true -> most_first a c = true.
Proof. unfold most_first. rewrite !Z.leb_le. lia. Qed.

Lemma sorted_weaken {R : Type} (P Q : R -> R -> Prop) (l : list R) :
  (forall a b, P a b -> Q a b) -> StronglySorted P l -> StronglySorted Q l.
Proof.
  intros HPQ. induction 1 as [|x l Hs IH Hf]; constructor; [exact IH|].
  eapply Forall_impl; [|exact Hf]. intros b. apply HPQ.
Qed.

Lemma nodup_firstn {A : Type} (n : nat) (l : list A) : NoDup l -> NoDup (firstn n l).
Proof.
  intros H. rewrite <- (firstn_skipn n l) in H. now apply NoDup_app_remove_r in H.
Qed.

Lemma in_firstn {A : Type} (n : nat) (l : list A) (x : A) :
  In x (firstn n l) -> In x l.
Proof.
  intros H. rewrite <- (firstn_skipn n l). apply in_or_app. now left.
Qed.

(** ** The top vehicles *)

(** X16. The two reports on vehicles ("Top 10 vehicles in
    drug-related stops" with the flag [drugs_related_stop] and
    [n = 10], "Most frequently searched vehicles (Top 20)" with
    [search_conducted] and [n = 20]) give the [n] vehicles with the
    most flagged stops: at most [n] rows, no vehicle twice, counts
    falling; a row's count is the number of the vehicle's rows with
    the flag at 1 and is never zero; and a vehicle with a flagged stop
    is left out only when [n] rows are given that all count at least
    as many. *)
Theorem top_vehicles_report (flag : StopRecord -> option Z) (n : nat)
  (rs : list StopRecord) :
  (List.length (top_vehicles flag n rs) <= n)%nat
  /\ NoDup (map fst (top_vehicles flag n rs))
  /\ StronglySorted (fun a b => snd b <= snd a) (top_vehicles flag n rs)
  /\ (forall v c, In (v, c) (top_vehicles flag n rs) ->
                  c = flagged_stops flag v rs /\ 1 <= c)
  /\ (forall v, 1 <= flagged_stops flag v rs ->
                ~ In v (map fst (top_vehicles flag n rs)) ->
                List.length (top_vehicles flag n rs) = n
                /\ forall v' c', In (v', c') (top_vehicles flag n rs) ->
                                 flagged_stops flag v rs <= c').
Proof.
  unfold top_vehicles, flagged_stops, limit.
  set (fl := where_ (fun r => eq_int (flag r) (Some 1)) rs).
  set (gs := group_by key1_eqb (fun r : StopRecord => vehicle_number r) 0 count_rows fl).
  set (sorted := order_by most_first gs).
  destruct (group_by_sound key1_eqb (fun r : StopRecord => vehicle_number r) 0 count_rows
              key1_eqb_eq fl) as (Hnd & Hin & _).
  fold gs in Hnd, Hin.
  pose proof (order_by_perm most_first gs) as Hp. fold sorted in Hp.
  pose proof (order_by_sorted most_first most_first_total most_first_trans gs) as Hs.
  fold sorted in Hs.
  split; [apply firstn_le_length|].
  split.
  { rewrite <- firstn_map. apply nodup_firstn.
    eapply Permutation_NoDup; [|exact Hnd]. apply Permutation_map. now symmetry. }
  split.
  { apply (sorted_weaken (fun a b => most_first a b = true)).
    - intros a b H. now apply Z.leb_le.
    - now apply sorted_firstn. }
  split.
  { intros v c H. apply (count_group key1_eqb); [exact key1_eqb_eq|].
    eapply Permutation_in; [exact Hp|]. eapply in_firstn. exact H. }
  intros v Hv Hout.
  destruct (members_witness key1_eqb (fun r : StopRecord => vehicle_number r)
              key1_eqb_eq fl v Hv) as (r & Hr & Hk).
  pose proof (Hin r Hr) as Hkey. rewrite Hk in Hkey.
  apply in_map_iff in Hkey as ([v0 c] & E & Hg). simpl in E. subst v0.
  assert (Hc : c = size (members key1_eqb (fun r : StopRecord => vehicle_number r) v fl)).
  { now apply (count_group key1_eqb (fun r : StopRecord => vehicle_number r) fl v c key1_eqb_eq). }
  assert (Hsk : In (v, c) (skipn n sorted)).
  { assert (In (v, c) sorted) as H by (eapply Permutation_in; [symmetry; exact Hp|exact Hg]).
    rewrite <- (firstn_skipn n sorted) in H. apply in_app_or in H as [H|H]; [|exact H].
    exfalso. apply Hout. apply in_map_iff. now exists (v, c). }
  split.
  - apply firstn_length_le.
    destruct (Nat.le_gt_cases n (List.length sorted)) as [H|H]; [exact H|].
    rewrite skipn_all2 in Hsk by lia. destruct Hsk.
  - intros v' c' H'.
    pose proof (sorted_firstn_skipn most_first n sorted Hs _ _ H' Hsk) as Hle.
    unfold most_first in Hle. simpl in Hle. apply Z.leb_le in Hle. lia.
Qed.

(** ** Gender distribution by country *)

Lemma gender_by_country_perm (rs : list StopRecord) :
  Permutation (gender_by_country rs)
    (group_by key2_eqb (fun r => (country_name r, driver_gender r)) 0 count_rows rs).
Proof.
  unfold gender_by_country. etransitivity; [apply order_by_perm|].
  rewrite (map_ext _ (fun x => x)); [now rewrite map_id|].
  now intros [[c s] n].
Qed.

Lemma text_leb_antisym (a b : option string) :
  text_leb a b = true -> text_leb b a = true -> a = b.
Proof.
  destruct a as [x|], b as [y|]; simpl; try discriminate; try reflexivity.
  intros H1 H2. f_equal. now apply String.leb_antisym.
Qed.

Lemma text_ltb_leb (a b : option string) : text_ltb a b = true -> text_leb a b = true.
Proof.
  unfold text_ltb. intros H. apply negb_true_iff in H.
  destruct (text_leb_total a b) as [H1|H1]; [exact H1|congruence].
Qed.

Lemma text_ltb_trans (a b c : option string) :
  text_ltb a b = true -> text_ltb b c = true -> text_ltb a c = true.
Proof.
  intros H1 H2. unfold text_ltb. apply negb_true_iff.
  destruct (text_leb c a) eqn:E; [|reflexivity].
  pose proof (text_leb_trans _ _ _ E (text_ltb_leb _ _ H1)) as H.
  unfold text_ltb in H2. rewrite H in H2. discriminate.
Qed.

Lemma country_then_count_total (a b : key1 * key1 * Z) :
  country_then_count a b = true \/ country_then_count b a = true.
Proof.
  destruct a as [[ca ga] na], b as [[cb gb] nb]. unfold country_then_count, text_ltb.
  destruct (text_leb cb ca) eqn:E1; [|now left].
  destruct (text_leb ca cb) eqn:E2; [|now right].
  pose proof (text_leb_antisym _ _ E1 E2) as ->. simpl.
  rewrite (proj2 (key1_eqb_eq ca ca) eq_refl). simpl.
  destruct (Z.leb_spec nb na); [now left|right]. apply Z.leb_le. lia.
Qed.

Lemma country_then_count_trans (a b c : key1 * key1 * Z) :
  country_then_count a b = true -> country_then_count b c = true ->
  country_then_count a c = true.
Proof.
  destruct a as [[ca ga] na], b as [[cb gb] nb], c as [[cc gc] nc].
  unfold country_then_count. rewrite !orb_true_iff, !andb_true_iff, !key1_eqb_eq, !Z.leb_le.
  intros [H1|[-> H1]] [H2|[-> H2]].
  - left. eapply text_ltb_trans; eassumption.
  - now left.
  - now left.
  - right. split; [reflexivity|lia].
Qed.

(** X17. "Gender distribution by country" counts every stop once:
    the rows of the report have distinct pairs of country and gender
    (rows with [NULL] in a column form groups of their own), the count
    of a row is the number of stops with that pair and is never zero,
    every stop's pair has a row, and the counts add up to the number
    of rows of the table.  The rows stand by country, in the order
    of the bytes with [NULL] first, and within a country by falling
    count. *)
Theorem gender_by_country_counts_each_stop_once (rs : list StopRecord) :
  NoDup (map fst (gender_by_country rs))
  /\ StronglySorted
       (fun a b => let '(ca, _, na) := a in
                   let '(cb, _, nb) := b in
                   text_ltb ca cb = true \/ (ca = cb /\ nb <= na))
       (gender_by_country rs)
  /\ (forall c g n, In (c, g, n) (gender_by_country rs) ->
        n = size (members key2_eqb (fun r => (country_name r, driver_gender r)) (c, g) rs)
        /\ 1 <= n)
  /\ (forall r, In r rs ->
        In (country_name r, driver_gender r) (map fst (gender_by_country rs)))
  /\ total (map snd (gender_by_country rs)) = size rs.
Proof.
  pose proof (gender_by_country_perm rs) as Hp.
  set (gs := group_by key2_eqb (fun r : StopRecord => (country_name r, driver_gender r))
               0 count_rows rs) in Hp.
  destruct (group_by_sound key2_eqb (fun r : StopRecord => (country_name r, driver_gender r))
              0 count_rows key2_eqb_eq rs) as (Hnd & Hin & _).
  fold gs in Hnd, Hin.
  split.
  { eapply Permutation_NoDup; [|exact Hnd]. apply Permutation_map. now symmetry. }
  split.
  { apply (sorted_weaken (fun a b => country_then_count a b = true)).
    - intros [[ca ga] na] [[cb gb] nb]. unfold country_then_count.
      rewrite orb_true_iff, andb_true_iff, key1_eqb_eq, Z.leb_le. tauto.
    - apply (order_by_sorted country_then_count country_then_count_total
               country_then_count_trans). }
  split.
  { intros c g n H.
    apply (count_group key2_eqb (fun r : StopRecord => (country_name r, driver_gender r)) rs
             (c, g) n key2_eqb_eq).
    eapply Permutation_in; [exact Hp|exact H]. }
  split.
  { intros r Hr. eapply Permutation_in; [|exact (Hin r Hr)].
    apply Permutation_map. now symmetry. }
  rewrite (total_perm _ (map snd gs)) by (apply Permutation_map; exact Hp).
  apply group_by_total.
Qed.

(** ** The hours SQLite reads *)

Lemma digit_value_range (c : ascii) (v : Z) :
  SqliteDate.digit_value c = Some v -> 0 <= v <= 9.
Proof.
  unfold SqliteDate.digit_value.
  destruct ((48 <=? N_of_ascii c)%N && (N_of_ascii c <=? 57)%N)%bool eqn:E; [|discriminate].
  apply andb_true_iff in E as [E1 E2]. apply N.leb_le in E1, E2.
  intros H. inversion H. lia.
Qed.

Lemma take_number_nonneg (n : nat) (acc : Z) (s rest : string) (v : Z) :
  SqliteDate.take_number n acc s = Some (v, rest) -> 0 <= acc -> 0 <= v.
Proof.
  revert acc s. induction n as [|n IH]; intros acc s; cbn [SqliteDate.take_number].
  - intros H. inversion H. lia.
  - destruct s as [|c s]; [discriminate|].
    destruct (SqliteDate.digit_value c) as [d|] eqn:E; [|discriminate].
    intros H Hacc. apply (IH _ _ H). apply digit_value_range in E. lia.
Qed.

Lemma parse_hour_range (s : string) (f : SqliteDate.fields) :
  SqliteDate.parse s = Some f -> 0 <= SqliteDate.f_hour f <= 23.
Proof.
  unfold SqliteDate.parse. intros H.
  repeat match type of H with
         | match ?x with _ => _ end = _ => destruct x eqn:?; try discriminate
         | (let (_, _) := ?x in _) = _ => destruct x eqn:?
         | (if ?x then _ else _) = _ => destruct x eqn:?; try discriminate
         end.
  inversion H; subst. cbn [SqliteDate.f_hour].
  match goal with
  | E : SqliteDate.in_range _ = true |- _ =>
      unfold SqliteDate.in_range in E; cbn in E;
      rewrite !andb_true_iff, !Z.leb_le in E
  end.
  split; [|tauto].
  match goal with
  | E : SqliteDate.take_number 2 0 _ = Some (?h, _) |- 0 <= ?h =>
      apply (take_number_nonneg _ _ _ _ _ E); lia
  end.
Qed.

Lemma hour_of_range (ts : option string) (h : Z) :
  SqliteDate.hour_of ts = Some h -> 0 <= h <= 23.
Proof.
  unfold SqliteDate.hour_of, SqliteDate.field_of.
  destruct ts as [s|]; [|discriminate].
  destruct (SqliteDate.parse s) as [f|] eqn:E; [|discriminate].
  simpl. intros H. inversion H. subst. now apply parse_hour_range in E.
Qed.

(** ** Stops by hour of day *)

Lemma hour_eqb_eq (a b : option Z) : hour_eqb a b = true <-> a = b.
Proof.
  destruct a as [x|], b as [y|]; simpl; try (split; [discriminate|discriminate]).
  - rewrite Z.eqb_eq. split; [now intros ->|now intros [= ->]].
  - split; reflexivity.
Qed.

Lemma filter_filter {A : Type} (f g : A -> bool) (l : list A) :
  filter f (filter g l) = filter (fun x => (g x && f x)%bool) l.
Proof.
  induction l as [|x l IH]; simpl; [reflexivity|].
  destruct (g x); simpl; [destruct (f x)|]; now rewrite IH.
Qed.

Lemma filter_true {A : Type} (l : list A) : filter (fun _ => true) l = l.
Proof. induction l as [|x l IH]; simpl; [reflexivity|]. now rewrite IH. Qed.

Lemma members_dated (h : option Z) (rs : list StopRecord) :
  size (members hour_eqb (fun r => SqliteDate.hour_of (stop_datetime r)) h
          (where_ (fun r => is_not_null (stop_datetime r)) rs))
  = stops_at h rs.
Proof.
  unfold members, where_, stops_at. rewrite filter_filter. apply (f_equal size).
  apply filter_ext. intros r. now destruct (stop_datetime r).
Qed.

Lemma hour_listed (h : option Z) :
  (forall k, h = Some k -> 0 <= k <= 23) ->
  In h (None :: map (fun i => Some (Z.of_nat i)) (List.seq 0 24)).
Proof.
  destruct h as [k|]; [|now left]. intros H. right.
  apply in_map_iff. exists (Z.to_nat k). pose proof (H k eq_refl).
  split; [f_equal; lia|]. apply in_seq. lia.
Qed.

Lemma stops_by_hour_spec (rs : list StopRecord) :
  NoDup (map fst (stops_by_hour rs))
  /\ StronglySorted (fun a b => snd b <= snd a) (stops_by_hour rs)
  /\ (forall h n, In (h, n) (stops_by_hour rs) ->
        (forall k, h = Some k -> 0 <= k <= 23)
        /\ n = stops_at h rs /\ 1 <= n)
  /\ (List.length (stops_by_hour rs) <= 25)%nat
  /\ total (map snd (stops_by_hour rs))
     = size (filter (fun r : StopRecord =>
                    match stop_datetime r with Some _ => true | None => false end) rs).
Proof.
  unfold stops_by_hour.
  set (dated := where_ (fun r => is_not_null (stop_datetime r)) rs).
  set (gs := group_by hour_eqb (fun r : StopRecord => SqliteDate.hour_of (stop_datetime r))
               0 count_rows dated).
  pose proof (order_by_perm most_first gs) as Hp.
  destruct (group_by_sound hour_eqb (fun r : StopRecord => SqliteDate.hour_of (stop_datetime r))
              0 count_rows hour_eqb_eq dated) as (Hnd & _ & _).
  fold gs in Hnd.
  assert (Hnd' : NoDup (map fst (order_by most_first gs))).
  { eapply Permutation_NoDup; [|exact Hnd]. apply Permutation_map. now symmetry. }
  assert (Hbar : forall h n, In (h, n) (order_by most_first gs) ->
                   (forall k, h = Some k -> 0 <= k <= 23)
                   /\ n = stops_at h rs /\ 1 <= n).
  { intros h n H.
    assert (Hg : In (h, n) gs) by (eapply Permutation_in; [exact Hp|exact H]).
    split.
    - intros k ->.
      destruct (group_keys_occur hour_eqb
                  (fun r : StopRecord => SqliteDate.hour_of (stop_datetime r))
                  0 count_rows dated (Some k)) as (r & _ & Hr).
      { apply in_map_iff. now exists (Some k, n). }
      now apply hour_of_range in Hr.
    - rewrite <- members_dated. fold dated.
      now apply (count_group hour_eqb _ dated h n hour_eqb_eq). }
  split; [exact Hnd'|].
  split.
  { apply (sorted_weaken (fun a b => most_first a b = true)).
    - intros a b H. now apply Z.leb_le.
    - apply (order_by_sorted most_first most_first_total most_first_trans). }
  split; [exact Hbar|].
  split.
  { rewrite <- (length_map fst).
    change 25%nat with (List.length (None :: map (fun i => Some (Z.of_nat i)) (List.seq 0 24))).
    apply NoDup_incl_length; [exact Hnd'|].
    intros h Hh. apply in_map_iff in Hh as ([h0 n] & E & Hin). simpl in E. subst h0.
    apply hour_listed. now apply (Hbar h n). }
  rewrite (total_perm _ (map snd gs)) by (apply Permutation_map; exact Hp).
  unfold gs. rewrite group_by_total. unfold dated, where_. apply (f_equal size).
  apply filter_ext. intros r. now destruct (stop_datetime r).
Qed.

Lemma written_hour (d : PyTime.date) (t : PyTime.time) :
  PyTime.valid_date d = true -> PyTime.valid_time t = true ->
  SqliteDate.hour_of (Some (PyTime.strftime d t)) = Some (PyTime.hour t).
Proof.
  intros Hd Ht. unfold SqliteDate.hour_of, SqliteDate.field_of.
  now rewrite (TimeFacts.parse_strftime d t Hd Ht).
Qed.

Lemma written_time_hour (r : StopRecord) :
  written_time r ->
  stop_datetime r = None \/ exists k, SqliteDate.hour_of (stop_datetime r) = Some k.
Proof.
  intros [H|(d & t & Hd & Ht & E)]; [now left|right].
  exists (PyTime.hour t). rewrite E. now apply written_hour.
Qed.

Lemma bars_have_hours (rs : list StopRecord) :
  Forall written_time rs ->
  forall h n, In (h, n) (stops_by_hour rs) -> exists k, h = Some k /\ 0 <= k <= 23.
Proof.
  intros Hall h n H.
  destruct (stops_by_hour_spec rs) as (_ & _ & Hbar & _).
  destruct (Hbar h n H) as (H1 & H2 & H3).
  destruct h as [k|]; [exists k; split; [reflexivity|now apply H1]|].
  exfalso. subst n. unfold stops_at, size in H3.
  destruct (filter _ rs) as [|r l] eqn:E; [cbn in H3; lia|].
  assert (Hr : In r (r :: l)) by now left. rewrite <- E in Hr.
  apply filter_In in Hr as [Hr1 Hr2].
  rewrite Forall_forall in Hall.
  destruct (written_time_hour r (Hall r Hr1)) as [Hn|(k & Hk)].
  - rewrite Hn in Hr2. discriminate.
  - rewrite Hk in Hr2. destruct (stop_datetime r); discriminate.
Qed.

Lemma bars_at_most_24 (rs : list StopRecord) :
  (forall h n, In (h, n) (stops_by_hour rs) -> exists k, h = Some k /\ 0 <= k <= 23) ->
  (List.length (stops_by_hour rs) <= 24)%nat.
Proof.
  intros Hsome. destruct (stops_by_hour_spec rs) as (Hnd & _).
  rewrite <- (length_map fst).
  change 24%nat with (List.length (map (fun i => Some (Z.of_nat i)) (List.seq 0 24))).
  apply NoDup_incl_length; [exact Hnd|].
  intros h Hh. apply in_map_iff in Hh as ([h0 n] & E & Hin). simpl in E. subst h0.
  destruct (Hsome h n Hin) as (k & -> & Hk).
  apply in_map_iff. exists (Z.to_nat k). split; [f_equal; lia|]. apply in_seq. lia.
Qed.

Lemma timed_stop_written (id hour arrested : Z) :
  PyTime.valid_time (PyTime.mkTime hour 0 0) = true ->
  written_time (timed_stop id hour arrested).
Proof.
  intros H. right. exists (PyTime.mkDate 2024 3 1), (PyTime.mkTime hour 0 0).
  split; [reflexivity|]. split; [exact H|reflexivity].
Qed.

Lemma day_and_night_written : Forall written_time day_and_night.
Proof.
  unfold day_and_night.
  repeat (constructor; [first [apply timed_stop_written; reflexivity | left; reflexivity]|]).
  constructor.
Qed.

(** X18. "Stops by hour of day", the report behind the first quick
    chart, on rows whose [stop_datetime] is [NULL] or the text
    [YYYY-MM-DD HH:MM:SS] of a date of the calendar and a time of the
    day.  The hour of such a text is the hour of that time.  Rows
    without [stop_datetime] are left out.  Every bar is an hour from
    0 to 23; no hour has two bars, so there are 24 bars at most; a
    bar's count is the number of rows of that hour and is never zero;
    the bars stand by falling count, and the counts add up to the
    number of rows that have a [stop_datetime]. *)
Theorem hour_chart_bars (rs : list StopRecord) :
  Forall written_time rs ->
  (forall r d t, In r rs ->
     PyTime.valid_date d = true -> PyTime.valid_time t = true ->
     stop_datetime r = Some (PyTime.strftime d t) ->
     SqliteDate.hour_of (stop_datetime r) = Some (PyTime.hour t))
  /\ NoDup (map fst (stops_by_hour rs))
  /\ StronglySorted (fun a b => snd b <= snd a) (stops_by_hour rs)
  /\ (forall h n, In (h, n) (stops_by_hour rs) ->
        (exists k, h = Some k /\ 0 <= k <= 23)
        /\ n = stops_at h rs /\ 1 <= n)
  /\ (List.length (stops_by_hour rs) <= 24)%nat
  /\ total (map snd (stops_by_hour rs))
     = size (filter (fun r : StopRecord =>
                    match stop_datetime r with Some _ => true | None => false end) rs).
Proof.
  intros Hall.
  destruct (stops_by_hour_spec rs) as (Hnd & Hs & Hbar & _ & Htot).
  pose proof (bars_have_hours rs Hall) as Hsome.
  split.
  { intros r d t _ Hd Ht E. rewrite E. now apply written_hour. }
  split; [exact Hnd|]. split; [exact Hs|].
  split.
  { intros h n H. split; [now apply (Hsome h n)|]. now apply Hbar. }
  split; [now apply bars_at_most_24|exact Htot].
Qed.

(** On the sample rows: two stops at 10, one each at 21, 2, 11 and
    13, and the stop without time in no bar. *)
Lemma hour_chart_bars_witness :
  stops_by_hour day_and_night
  = [(Some 10, 2); (Some 21, 1); (Some 2, 1); (Some 11, 1); (Some 13, 1)]
  /\ (List.length (stops_by_hour day_and_night) <= 24)%nat
  /\ total (map snd (stops_by_hour day_and_night)) = 6.
Proof.
  destruct (hour_chart_bars _ day_and_night_written) as (_ & _ & _ & _ & H1 & H2).
  split; [vm_compute; reflexivity|]. split; [exact H1|exact H2].
Defined.

(** X19. The hour chart of a ledger that was filled through the
    form: when every form carries a date and a time that
    [datetime.date] and [datetime.time] can hold, with a year of four
    digits, the chart has no bar for [NULL], 24 bars at most, each an
    hour from 0 to 23, and the counts add up to the number of rows of
    the table -- whatever failed while the forms were sent. *)
Theorem hour_chart_of_ledger
  (fs : list Form.Input) (env : list (option exn)) (t : TableData) :
  (forall g, In g fs -> PyTime.valid_date (Form.stop_date g) = true
                        /\ 1000 <= PyTime.year (Form.stop_date g)
                        /\ PyTime.valid_time (Form.stop_time g) = true) ->
  db (session fs (ready env)) = Some t ->
  (forall h n, In (h, n) (stops_by_hour (rows t)) ->
     exists k, h = Some k /\ 0 <= k <= 23)
  /\ (List.length (stops_by_hour (rows t)) <= 24)%nat
  /\ total (map snd (stops_by_hour (rows t))) = size (rows t).
Proof.
  intros Hfs Ht.
  assert (Hall : Forall (fun r : StopRecord =>
                           exists d t, PyTime.valid_date d = true
                                       /\ PyTime.valid_time t = true
                                       /\ stop_datetime r = Some (PyTime.strftime d t))
                        (rows t)).
  { revert t Ht. apply session_keeps; [|apply ready_has_no_rows].
    intros g rowid Hg. destruct (Hfs g Hg) as (Hd & _ & Htm).
    destruct (new_log_dated g Hd Htm) as (H1 & _).
    cbn [fields]. exists (Form.stop_date g), (Form.stop_time g).
    split; [exact Hd|]. split; [exact Htm|exact H1]. }
  assert (Hread : Forall written_time (rows t)).
  { eapply Forall_impl; [|exact Hall]. intros r H. now right. }
  pose proof (bars_have_hours _ Hread) as Hsome.
  destruct (stops_by_hour_spec (rows t)) as (_ & _ & _ & _ & Htot).
  split; [exact Hsome|].
  split; [now apply bars_at_most_24|].
  rewrite Htot. apply (f_equal size).
  rewrite Forall_forall in Hall.
  rewrite (filter_ext_in _ (fun _ => true)); [apply filter_true|].
  intros r Hr. destruct (Hall r Hr) as (d & tm & _ & _ & Hk).
  now rewrite Hk.
Qed.

Lemma hour_chart_of_ledger_witness :
  (List.length (stops_by_hour (rows (appended empty_table (new_log sample_form)))) <= 24)%nat
  /\ total (map snd (stops_by_hour (rows (appended empty_table (new_log sample_form))))) = 1.
Proof.
  destruct (hour_chart_of_ledger [sample_form] []
              (appended empty_table (new_log sample_form))) as (_ & H2 & H3).
  - intros g [<-|[]]. split; [reflexivity|]. split; [simpl; lia|reflexivity].
  - vm_compute. reflexivity.
  - split; [exact H2|exact H3].
Defined.

(** ** Night and day *)

Lemma period_at_night (r : StopRecord) :
  period (SqliteDate.hour_of (stop_datetime r)) = if at_night r then "night" else "day".
Proof.
  unfold period, at_night.
  destruct (SqliteDate.hour_of (stop_datetime r)) as [h|]; [|reflexivity].
  cbn [ge_int le_int]. rewrite Z.geb_leb.
  destruct (20 <=? h), (h <=? 4); reflexivity.
Qed.

Lemma members_period (night : bool) (rs : list StopRecord) :
  members String.eqb (fun r => period (SqliteDate.hour_of (stop_datetime r)))
          (if night then "night" else "day") rs
  = filter (fun r => Bool.eqb (at_night r) night) rs.
Proof.
  unfold members. apply filter_ext. intros r. rewrite period_at_night.
  destruct (at_night r), night; reflexivity.
Qed.

(** X20. "Are night stops more likely to lead to arrests?", on rows
    whose [stop_datetime] is [NULL] or the text [YYYY-MM-DD HH:MM:SS]
    of a date of the calendar and a time of the day.  The report has
    two rows at most, one for the night and one for the day, each
    only when it has a stop and every stop in one of them.  A stop
    counts for the night exactly when the hour of its time is 20 or
    later, or 4 or earlier; a stop without time counts for the day.
    A row gives the number of its stops, the number of those marked
    as arrests, and as rate that number as a [REAL], times 100.0,
    divided by the number of stops. *)
Theorem night_and_day (rs : list StopRecord) :
  Forall written_time rs ->
  (forall r, In r rs -> stop_datetime r = None -> at_night r = false)
  /\ (forall r, In r rs ->
        (at_night r = true <->
         exists d t, PyTime.valid_date d = true /\ PyTime.valid_time t = true
                     /\ stop_datetime r = Some (PyTime.strftime d t)
                     /\ (20 <= PyTime.hour t \/ PyTime.hour t <= 4)))
  /\ (forall p n a pct, In (p, n, a, pct) (night_stops_arrests rs) ->
        exists night : bool,
          p = (if night then "night" else "day")
          /\ n = size (filter (fun r => Bool.eqb (at_night r) night) rs)
          /\ a = count_ones (fun r => is_arrested r)
                   (filter (fun r => Bool.eqb (at_night r) night) rs)
          /\ pct = (real a * 100.0 / real n)%float
          /\ 1 <= n)
  /\ (forall r, In r rs ->
        exists n a pct,
          In (if at_night r then "night" else "day", n, a, pct) (night_stops_arrests rs))
  /\ NoDup (map (fun row => fst (fst (fst row))) (night_stops_arrests rs))
  /\ (List.length (night_stops_arrests rs) <= 2)%nat.
Proof.
  intros Hall. rewrite Forall_forall in Hall.
  split.
  { intros r _ Hn. unfold at_night. now rewrite Hn. }
  split.
  { intros r Hr. destruct (Hall r Hr) as [Hn|(d & t & Hd & Ht & E)].
    - split.
      + unfold at_night. rewrite Hn. discriminate.
      + intros (d & t & _ & _ & E & _). congruence.
    - pose proof (written_hour d t Hd Ht) as Hh.
      unfold at_night. rewrite E, Hh. rewrite orb_true_iff, !Z.leb_le. split.
      + intros H. exists d, t. split; [exact Hd|]. split; [exact Ht|].
        split; [reflexivity|exact H].
      + intros (d' & t' & Hd' & Ht' & E' & H).
        pose proof (written_hour d' t' Hd' Ht') as Hh'.
        rewrite <- E', Hh in Hh'. inversion Hh' as [Hk]. rewrite Hk. exact H. }
  set (key := fun r : StopRecord => period (SqliteDate.hour_of (stop_datetime r))).
  set (gs := group_by String.eqb key (0, 0) (count_and_sum (fun r => is_arrested r)) rs).
  set (row := fun g : string * (Z * Z) => let '(p, (n, s)) := g in (p, n, s, percentage s n)).
  assert (Hp : Permutation (night_stops_arrests rs) (map row gs))
    by (unfold night_stops_arrests; apply order_by_perm).
  destruct (group_by_sound String.eqb key (0, 0) (count_and_sum (fun r => is_arrested r))
              String.eqb_eq rs) as (Hnd & Hin & _).
  fold gs in Hnd, Hin.
  assert (Hkeys : map (fun row : string * Z * Z * float => fst (fst (fst row))) (map row gs)
                  = map fst gs).
  { rewrite map_map. apply map_ext. now intros [p [n s]]. }
  assert (Hnd' : NoDup (map (fun row : string * Z * Z * float => fst (fst (fst row)))
                          (night_stops_arrests rs))).
  { eapply Permutation_NoDup; [apply Permutation_map; symmetry; exact Hp|].
    now rewrite Hkeys. }
  assert (Hrow : forall p n a pct, In (p, n, a, pct) (night_stops_arrests rs) ->
            exists night : bool,
              p = (if night then "night" else "day")
              /\ n = size (filter (fun r => Bool.eqb (at_night r) night) rs)
              /\ a = count_ones (fun r => is_arrested r)
                       (filter (fun r => Bool.eqb (at_night r) night) rs)
              /\ pct = (real a * 100.0 / real n)%float
              /\ 1 <= n).
  { intros p n a pct H.
    apply (Permutation_in _ Hp) in H. apply in_map_iff in H as ([p0 [n0 s0]] & E & Hg).
    unfold row in E. inversion E; subst p0 n0 s0 pct. clear E.
    destruct (one_sum_group String.eqb key (fun r => is_arrested r) rs p n a
                String.eqb_eq Hg) as (En & Ea).
    destruct (group_keys_occur String.eqb key (0, 0)
                (count_and_sum (fun r => is_arrested r)) rs p) as (r & Hr & Hk).
    { apply in_map_iff. now exists (p, (n, a)). }
    pose proof (members_nonempty String.eqb key String.eqb_eq rs r Hr) as Hone.
    rewrite Hk in Hone. rewrite <- En in Hone.
    exists (at_night r).
    assert (Ep : p = if at_night r then "night" else "day")
      by (rewrite <- Hk; apply period_at_night).
    split; [exact Ep|].
    unfold key in En, Ea. rewrite Ep in En, Ea. rewrite members_period in En, Ea.
    split; [exact En|]. split; [exact Ea|].
    split; [reflexivity|exact Hone]. }
  split; [exact Hrow|].
  split.
  { intros r Hr. pose proof (Hin r Hr) as H.
    apply in_map_iff in H as ([p [n s]] & E & Hg). simpl in E.
    exists n, s, (percentage s n).
    apply (Permutation_in _ (Permutation_sym Hp)).
    apply in_map_iff. exists (p, (n, s)). split; [|exact Hg].
    unfold row. rewrite E. unfold key. now rewrite period_at_night. }
  split; [exact Hnd'|].
  rewrite <- (length_map (fun row : string * Z * Z * float => fst (fst (fst row)))).
  change 2%nat with (List.length ["night"; "day"]).
  apply NoDup_incl_length; [exact Hnd'|].
  intros p Hpin. apply in_map_iff in Hpin as ([[[p0 n] a] pct] & E & H). simpl in E. subst p0.
  destruct (Hrow p n a pct H) as ([|] & -> & _); [now left|right; now left].
Qed.

(** On the sample rows: two stops at night with one arrest, a rate of
    50; five by day, one of them without time, with one arrest, a
    rate of 20. *)
Lemma night_and_day_witness :
  night_stops_arrests day_and_night
  = [("night", 2, 1, 50.0%float); ("day", 5, 1, 20.0%float)]
  /\ (List.length (night_stops_arrests day_and_night) <= 2)%nat
  /\ at_night (untimed_stop 7 0) = false.
Proof.
  destruct (night_and_day _ day_and_night_written) as (H0 & _ & _ & _ & _ & H).
  split; [vm_compute; reflexivity|]. split; [exact H|].
  apply H0; [|reflexivity]. unfold day_and_night.
  do 6 right. left. reflexivity.
Defined.

End ReportLaws.
